(** * Weighted multi-agent fraud scoring: a shallow embedding

    The embedded program is the aggregation engine of
    [utils/weighted_scoring.py] ([WeightedScoringSystem] and
    [SupervisorAgent]) and the finalize stage of
    [langgraph/parallel_fraud_graph.py] ([final_results_node]).

    Modelling conventions.
    - In the definitions of the engine a Python [float] is a real number
      and its arithmetic the exact arithmetic of [R].  The statements about
      these definitions are those that rounding does not decide: equations
      between the values the code computes, and bounds that are not
      strict.  Where rounding decides the outcome it is modelled:
      [update_weights_fl] takes the sum and the division of floats as
      parameters, with bounds on their errors as hypotheses, and the module
      [Float64] repeats the weight update and the outlier score on binary64
      numbers, operation by operation.  Overflow and NaN are outside the
      model.
    - What Python and pandas leave open is a parameter: the order in which
      a [set] is iterated, the order in which the threads of the pool
      complete, and the order in which [sort_values] returns rows of equal
      key.
    - A Python [dict] is an association list in insertion order with
      pairwise distinct keys ([Dict]).
    - A result [DataFrame] of a scoring agent is the list of its rows
      ([Frame]).  The agents build their frames from a list of row
      dictionaries that always carry [pharmacy_number], [fraud_score] and
      [reason]; the empty frame [pd.DataFrame()] has no column.  Hence the
      guard [not results_df.empty and 'pharmacy_number' in results_df.columns]
      is the test that the list of rows is not empty. *)

From Stdlib Require Import Reals Lra Lia ZArith List String Bool.
From Stdlib Require Import Permutation Sorted.
From Stdlib Require Floats.
Import ListNotations.
Open Scope string_scope.
Open Scope list_scope.
Open Scope R_scope.

(** ** Python dictionaries *)

Definition Dict (V : Type) : Type := list (string * V).

Section DictOps.
Context {V : Type}.

(** [d.get(k)]: [None] when the key is absent. *)
Fixpoint dict_get (k : string) (d : Dict V) : option V :=
  match d with
  | [] => None
  | (k', v) :: d' => if String.eqb k k' then Some v else dict_get k d'
  end.

(** [d[k] = v]: overwrite in place, or append a new key at the end. *)
Fixpoint dict_set (k : string) (v : V) (d : Dict V) : Dict V :=
  match d with
  | [] => [(k, v)]
  | (k', v') :: d' =>
      if String.eqb k k' then (k', v) :: d' else (k', v') :: dict_set k v d'
  end.

(** [d.update(new)] *)
Definition dict_update (d new : Dict V) : Dict V :=
  fold_left (fun acc kv => dict_set (fst kv) (snd kv) acc) new d.

Definition dict_keys (d : Dict V) : list string := map fst d.

Definition dict_values (d : Dict V) : list V := map snd d.

End DictOps.

(** Python's [sum]: a left fold starting from 0. *)
Definition sum (l : list R) : R := fold_left Rplus l 0.

(** [np.mean] of a non-empty list. *)
Definition mean (l : list R) : R := sum l / INR (List.length l).

(** [np.std]: the population standard deviation (ddof = 0). *)
Definition std (l : list R) : R :=
  sqrt (mean (map (fun x => (x - mean l) * (x - mean l)) l)).

(** ** The weight vector *)

Definition default_weights : Dict R :=
  [ ("coverage_agent", 0.25);
    ("patient_flip_agent", 0.20);
    ("high_dollar_agent", 0.20);
    ("rejection_agent", 0.20);
    ("network_agent", 0.15) ].

(** [WeightedScoringSystem.update_weights]: the overrides are merged into
    [current_weights] in place, then the vector is divided by its total when
    that total is positive. *)
Definition update_weights (current_weights new_weights : Dict R) : Dict R :=
  let merged := dict_update current_weights new_weights in
  let total := sum (dict_values merged) in
  if Rlt_dec 0 total
  then map (fun kv => (fst kv, snd kv / total)) merged
  else merged.

(** The same update with the rounding of floating-point arithmetic:
    [fsum] stands for Python's [sum] over floats and [fdiv] for the
    division of two floats, each returning the float it computes.  With the
    exact sum and quotient it is [update_weights]. *)
Definition update_weights_fl (fsum : list R -> R) (fdiv : R -> R -> R)
  (current_weights new_weights : Dict R) : Dict R :=
  let merged := dict_update current_weights new_weights in
  let total := fsum (dict_values merged) in
  if Rlt_dec 0 total
  then map (fun kv => (fst kv, fdiv (snd kv) total)) merged
  else merged.

(** ** Findings, datasets and aggregated rows *)

(** One row of the frame a scoring agent returns. *)
Record Row : Type := {
  pharmacy_number : string;
  pharmacy_name : string;
  pharmacy_city : string;
  pharmacy_state : string;
  fraud_score : R;
  reason : string
}.

Definition Frame : Type := list Row.

(** [agent_results]: agent name to result frame. *)
Definition AgentResults : Type := Dict Frame.

(** One claim of the raw dataset, with the columns the engine reads. *)
Record Claim : Type := {
  claim_pharmacy_number : string;
  coverage_type : string;
  copay_cost : R;
  oop_cost : R
}.

Definition Dataset : Type := list Claim.

(** The text of [fraud_explanation], kept as its abstract syntax: the parts
    are joined with [" | "], the reasons and insights with [", "], and a
    percentage is printed with one decimal. *)
Inductive TransactionInsight : Type :=
| CashPercent (p : R)
| HighDollarPercent (p : R).

Inductive ExplanationPart : Type :=
| HighRiskPart (n : nat) (agent_reasons : list string)
| MediumRiskPart (n : nat) (agent_reasons : list string)
| TransactionPart (insights : list TransactionInsight)
| NoIndicatorsPart.

(** The values stored under the keys of an aggregated row. *)
Inductive Value : Type :=
| VStr (s : string)
| VFloat (x : R)
| VInt (n : Z)
| VNames (l : list string)
| VScores (d : Dict R)
| VReasons (d : Dict string)
| VExplanation (parts : list ExplanationPart).

(** A row of [weighted_results], and the frame built from such rows. *)
Definition ResultRow : Type := Dict Value.

Definition ResultFrame : Type := list ResultRow.

(** ** The tracker

    [langsmith_tracker] is a global object; every call it receives is
    recorded here as an event, and none of its methods raises. *)
Inductive Event : Type :=
| StartProjectRun (description : string)
| TrackAgentRun (agent_name : string) (findings_count : nat)
| TrackCrossAgentCommunication (pharmacy : string) (agent_scores : Dict R)
    (consistency_score outlier_score : R)
| TrackWeightedScoring (agent_results : AgentResults)
    (weighted_results : ResultFrame) (weights : Dict R)
| TrackSupervisorAnalysis (total_pharmacies : nat)
| EndProjectRun.

Definition Tracker : Type := list Event.

(** Computations that write to the tracker. *)
Definition M (A : Type) : Type := Tracker -> A * Tracker.

Definition ret {A : Type} (a : A) : M A := fun t => (a, t).

Definition bind {A B : Type} (m : M A) (k : A -> M B) : M B :=
  fun t => let (a, t') := m t in k a t'.

Definition track (e : Event) : M unit := fun t => (tt, t ++ [e]).

Notation "x <- m ;; k" := (bind m (fun x => k))
  (at level 61, m at next level, right associativity).

Notation "m ;;; k" := (bind m (fun _ => k))
  (at level 61, right associativity).

Fixpoint mapM {A B : Type} (f : A -> M B) (l : list A) : M (list B) :=
  match l with
  | [] => ret []
  | a :: l' => b <- f a ;; bs <- mapM f l' ;; ret (b :: bs)
  end.

(** ** Comparisons and rounding on floats *)

Definition Rge_b (x y : R) : bool := if Rle_dec y x then true else false.

Definition Rgt_b (x y : R) : bool := if Rlt_dec y x then true else false.

Definition Rlt_b (x y : R) : bool := if Rlt_dec x y then true else false.

Definition Req_b (x y : R) : bool := if Req_dec_T x y then true else false.

(** The integer nearest to [x], ties going to the even one. *)
Definition round_half_even (x : R) : Z :=
  let f := Int_part x in
  let d := x - IZR f in
  if Rlt_dec d (1 / 2) then f
  else if Rlt_dec (1 / 2) d then (f + 1)%Z
  else if Z.even f then f else (f + 1)%Z.

(** [round(x, 3)] *)
Definition round3 (x : R) : R := IZR (round_half_even (x * 1000)) / 1000.

(** Truth value of a Python list: it is not empty. *)
Definition truthy {A : Type} (l : list A) : bool :=
  match l with [] => false | _ :: _ => true end.

(** [Series.unique()]: the distinct values in order of first appearance. *)
Fixpoint unique (l : list string) : list string :=
  match l with
  | [] => []
  | x :: l' => x :: filter (fun y => negb (String.eqb y x)) (unique l')
  end.

(** ** WeightedScoringSystem *)

(** A scoring agent: [run(df)] or, for the network agent,
    [run(df, combined_results)].  [None] as a result: the call raises. *)
Definition Agent : Type := Dataset -> option Frame -> option Frame.

Record WeightedScoringSystem : Type := {
  current_weights : Dict R;
  agents : Dict Agent
}.

(** [results_df[results_df['pharmacy_number'] == pharmacy_number]] *)
Definition pharmacy_data (pharmacy : string) (results_df : Frame) : Frame :=
  filter (fun r => String.eqb (pharmacy_number r) pharmacy) results_df.

(** Lines 122-133: the three dictionaries filled from the first row each
    agent has for the pharmacy. *)
Definition collect_findings (pharmacy : string) (agent_results : AgentResults)
  : Dict R * Dict string * Dict Row :=
  fold_left
    (fun acc entry =>
       let '(pharmacy_scores, pharmacy_reasons, pharmacy_details) := acc in
       match pharmacy_data pharmacy (snd entry) with
       | [] => acc
       | first :: _ =>
           (dict_set (fst entry) (fraud_score first) pharmacy_scores,
            dict_set (fst entry) (reason first) pharmacy_reasons,
            dict_set (fst entry) first pharmacy_details)
       end)
    agent_results ([], [], []).

(** [weights.get(agent_name, 0.0)] *)
Definition weight_of (weights : Dict R) (agent_name : string) : R :=
  match dict_get agent_name weights with
  | Some w => w
  | None => 0
  end.

(** Lines 136-142: the weighted sum and the contributing agents. *)
Definition weighted_sum (weights pharmacy_scores : Dict R) : R * list string :=
  fold_left
    (fun acc entry =>
       let weight := weight_of weights (fst entry) in
       (fst acc + snd entry * weight, snd acc ++ [fst entry]))
    pharmacy_scores (0, []).

Definition _calculate_consistency_score (pharmacy_scores : Dict R) : R :=
  if (List.length pharmacy_scores <? 2)%nat then 0.5
  else
    let high_scores :=
      filter (fun s => Rge_b s 0.8) (dict_values pharmacy_scores) in
    let low_scores :=
      filter (fun s => Rlt_b s 0.4) (dict_values pharmacy_scores) in
    if truthy high_scores && truthy low_scores then 0.3
    else if truthy high_scores then 0.9
    else if truthy low_scores then 0.1
    else 0.5.

(** The population of every score of every agent. *)
Definition all_scores (agent_results : AgentResults) : list R :=
  flat_map (fun entry => map fraud_score (snd entry)) agent_results.

(** The first score each agent has for the pharmacy. *)
Definition scores_of (pharmacy : string) (agent_results : AgentResults)
  : list R :=
  flat_map
    (fun entry =>
       match pharmacy_data pharmacy (snd entry) with
       | [] => []
       | first :: _ => [fraud_score first]
       end)
    agent_results.

Definition sigmoid (z : R) : R := 1 / (1 + exp (- z)).

Definition _calculate_outlier_score (pharmacy : string)
  (agent_results : AgentResults) : R :=
  if negb (truthy (all_scores agent_results)) then 0.5
  else
    let mean_score := mean (all_scores agent_results) in
    let std_score := std (all_scores agent_results) in
    if Req_b std_score 0 then 0.5
    else
      let pharmacy_scores := scores_of pharmacy agent_results in
      if negb (truthy pharmacy_scores) then 0.5
      else
        let avg_pharmacy_score := mean pharmacy_scores in
        let z_score := (avg_pharmacy_score - mean_score) / std_score in
        sigmoid z_score.

Definition _get_pharmacy_transactions (pharmacy : string) (df : Dataset)
  : Dataset :=
  filter (fun c => String.eqb (claim_pharmacy_number c) pharmacy) df.

Definition _generate_fraud_explanation (scores : Dict R)
  (reasons : Dict string) (transactions : Dataset) : list ExplanationPart :=
  let high_risk_agents :=
    dict_keys (filter (fun e => Rge_b (snd e) 0.8) scores) in
  let medium_risk_agents :=
    dict_keys
      (filter (fun e => Rge_b (snd e) 0.6 && Rlt_b (snd e) 0.8) scores) in
  let reason_or (default : string) (agent : string) :=
    match dict_get agent reasons with Some r => r | None => default end in
  let part_high :=
    if truthy high_risk_agents
    then [HighRiskPart (List.length high_risk_agents)
            (map (reason_or "High risk") high_risk_agents)]
    else [] in
  let part_medium :=
    if truthy medium_risk_agents
    then [MediumRiskPart (List.length medium_risk_agents)
            (map (reason_or "Medium risk") medium_risk_agents)]
    else [] in
  let part_transactions :=
    if truthy transactions
    then
      let total_claims := List.length transactions in
      let cash_claims :=
        List.length
          (filter
             (fun c => String.eqb (coverage_type c) "Cash"
                       || String.eqb (coverage_type c) "Not Covered")
             transactions) in
      let high_dollar_claims :=
        List.length
          (filter
             (fun c => Rgt_b (copay_cost c) 200 || Rgt_b (oop_cost c) 500)
             transactions) in
      let cash_insight :=
        if (0 <? cash_claims)%nat
        then [CashPercent (INR cash_claims / INR total_claims * 100)]
        else [] in
      let high_dollar_insight :=
        if (0 <? high_dollar_claims)%nat
        then [HighDollarPercent
                (INR high_dollar_claims / INR total_claims * 100)]
        else [] in
      let transaction_insights := cash_insight ++ high_dollar_insight in
      if truthy transaction_insights
      then [TransactionPart transaction_insights]
      else []
    else [] in
  let explanation_parts := part_high ++ part_medium ++ part_transactions in
  if truthy explanation_parts then explanation_parts else [NoIndicatorsPart].

Definition _determine_risk_level (score : R) : string :=
  if Rge_b score 0.8 then "HIGH RISK"
  else if Rge_b score 0.6 then "MEDIUM RISK"
  else if Rge_b score 0.4 then "LOW RISK"
  else "VERY LOW RISK".

(** Line 159. *)
Definition final_score_of (weighted_score consistency_score outlier_score : R)
  : R :=
  (weighted_score * 0.7) + (consistency_score * 0.2) + (outlier_score * 0.1).

(** The unrounded final score of a pharmacy, as line 159 computes it. *)
Definition final_score (weights : Dict R) (pharmacy : string)
  (agent_results : AgentResults) : R :=
  let pharmacy_scores := fst (fst (collect_findings pharmacy agent_results)) in
  final_score_of
    (fst (weighted_sum weights pharmacy_scores))
    (_calculate_consistency_score pharmacy_scores)
    (_calculate_outlier_score pharmacy agent_results).

Definition _calculate_single_pharmacy_score (self : WeightedScoringSystem)
  (pharmacy : string) (agent_results : AgentResults) (df : Dataset)
  : M ResultRow :=
  let '(pharmacy_scores, pharmacy_reasons, pharmacy_details) :=
    collect_findings pharmacy agent_results in
  let '(weighted_score, contributing_agents) :=
    weighted_sum (current_weights self) pharmacy_scores in
  let consistency_score := _calculate_consistency_score pharmacy_scores in
  let outlier_score := _calculate_outlier_score pharmacy agent_results in
  track (TrackCrossAgentCommunication pharmacy pharmacy_scores
           consistency_score outlier_score) ;;;
  let final_score :=
    final_score_of weighted_score consistency_score outlier_score in
  let pharmacy_transactions := _get_pharmacy_transactions pharmacy df in
  let fraud_explanation :=
    _generate_fraud_explanation pharmacy_scores pharmacy_reasons
      pharmacy_transactions in
  let coverage_detail (field : Row -> string) :=
    match dict_get "coverage_agent" pharmacy_details with
    | Some row => field row
    | None => "Unknown"
    end in
  ret [ ("pharmacy_number", VStr pharmacy);
        ("pharmacy_name", VStr (coverage_detail pharmacy_name));
        ("pharmacy_city", VStr (coverage_detail pharmacy_city));
        ("pharmacy_state", VStr (coverage_detail pharmacy_state));
        ("weighted_score", VFloat (round3 final_score));
        ("contributing_agents", VNames contributing_agents);
        ("agent_scores", VScores pharmacy_scores);
        ("agent_reasons", VReasons pharmacy_reasons);
        ("consistency_score", VFloat (round3 consistency_score));
        ("outlier_score", VFloat (round3 outlier_score));
        ("fraud_explanation", VExplanation fraud_explanation);
        ("transaction_count",
          VInt (Z.of_nat (List.length pharmacy_transactions)));
        ("risk_level", VStr (_determine_risk_level final_score)) ].

(** The values inserted into the set [all_pharmacies], in order. *)
Definition flagged_pharmacies (agent_results : AgentResults) : list string :=
  flat_map (fun entry => unique (map pharmacy_number (snd entry)))
    agent_results.

(** [set_iter l] is the order in which the interpreter enumerates the set
    that received the values [l]; Python leaves it unspecified. *)
Definition calculate_weighted_scores
  (set_iter : list string -> list string) (self : WeightedScoringSystem)
  (agent_results : AgentResults) (df : Dataset) : M ResultFrame :=
  let all_pharmacies := set_iter (flagged_pharmacies agent_results) in
  weighted_df <-
    mapM
      (fun pharmacy =>
         _calculate_single_pharmacy_score self pharmacy agent_results df)
      all_pharmacies ;;
  track (TrackWeightedScoring agent_results weighted_df
           (current_weights self)) ;;;
  ret weighted_df.

(** ** The agent execution pool *)

Fixpoint foldM {A B : Type} (f : B -> A -> M B) (l : list A) (b : B) : M B :=
  match l with
  | [] => ret b
  | a :: l' => b' <- f b a ;; foldM f l' b'
  end.

Definition _run_single_agent (agent_name : string) (agent : Agent)
  (df : Dataset) : Frame :=
  let outcome :=
    if String.eqb agent_name "network_agent"
    then agent df (Some [])
    else agent df None in
  match outcome with
  | Some results => results
  | None => []
  end.

(** [as_completed] gives the order in which the submitted calls finish; the
    results dictionary is filled in that order. *)
Definition run_agents_parallel (as_completed : Dict Agent -> Dict Agent)
  (self : WeightedScoringSystem) (df : Dataset) : M AgentResults :=
  track (StartProjectRun "Parallel Fraud Detection with Supervisor") ;;;
  foldM
    (fun results entry =>
       let agent_results := _run_single_agent (fst entry) (snd entry) df in
       track (TrackAgentRun (fst entry) (List.length agent_results)) ;;;
       ret (dict_set (fst entry) agent_results results))
    (as_completed (agents self)) [].

(** ** SupervisorAgent *)

Record AgentPerformance : Type := {
  avg_score : R;
  high_risk_findings : nat;
  total_findings : nat
}.

Record CrossAgentPatterns : Type := {
  conflicting_signals_count : nat;
  high_consistency_count : nat;
  double_penalty_instances : nat
}.

Record Insights : Type := {
  total_pharmacies_analyzed : nat;
  high_risk_pharmacies : nat;
  medium_risk_pharmacies : nat;
  agent_performance : Dict AgentPerformance;
  cross_agent_patterns : CrossAgentPatterns;
  recommendations : list string
}.

Definition get_float (col : string) (row : ResultRow) : option R :=
  match dict_get col row with
  | Some (VFloat x) => Some x
  | _ => None
  end.

Fixpoint traverse {A B : Type} (f : A -> option B) (l : list A)
  : option (list B) :=
  match l with
  | [] => Some []
  | a :: l' =>
      match f a, traverse f l' with
      | Some b, Some bs => Some (b :: bs)
      | _, _ => None
      end
  end.

(** [frame[col]] for a column of floats.  [None]: the lookup raises
    [KeyError]; the frame built from no row has no column. *)
Definition column (col : string) (frame : ResultFrame) : option (list R) :=
  match frame with
  | [] => None
  | _ :: _ => traverse (get_float col) frame
  end.

Definition mem (x : string) (l : list string) : bool :=
  existsb (String.eqb x) l.

Definition _analyze_cross_agent_patterns (weighted_results : ResultFrame)
  (agent_results : AgentResults) : CrossAgentPatterns :=
  fold_left
    (fun patterns row =>
       let agent_scores :=
         match dict_get "agent_scores" row with
         | Some (VScores d) => d
         | _ => []
         end in
       if truthy agent_scores
       then
         let high_risk_agents :=
           dict_keys (filter (fun e => Rge_b (snd e) 0.8) agent_scores) in
         let low_risk_agents :=
           dict_keys (filter (fun e => Rlt_b (snd e) 0.4) agent_scores) in
         {| conflicting_signals_count :=
              (if truthy high_risk_agents && truthy low_risk_agents
               then conflicting_signals_count patterns + 1
               else conflicting_signals_count patterns)%nat;
            high_consistency_count :=
              (if (3 <=? List.length high_risk_agents)%nat
                  || (3 <=? List.length low_risk_agents)%nat
               then high_consistency_count patterns + 1
               else high_consistency_count patterns)%nat;
            double_penalty_instances :=
              (if mem "coverage_agent" high_risk_agents
                  && mem "patient_flip_agent" high_risk_agents
               then double_penalty_instances patterns + 1
               else double_penalty_instances patterns)%nat |}
       else patterns)
    weighted_results
    {| conflicting_signals_count := 0;
       high_consistency_count := 0;
       double_penalty_instances := 0 |}.

(** Lines 339-348: an entry per agent whose frame is not empty. *)
Definition analyze_agent_performance (agent_results : AgentResults)
  : Dict AgentPerformance :=
  fold_left
    (fun performance entry =>
       if negb (truthy (snd entry)) then performance
       else
         dict_set (fst entry)
           {| avg_score := round3 (mean (map fraud_score (snd entry)));
              high_risk_findings :=
                List.length
                  (filter (fun r => Rge_b (fraud_score r) 0.8) (snd entry));
              total_findings := List.length (snd entry) |}
           performance)
    agent_results [].

(** [None]: the function raises ([KeyError] on the column
    [weighted_score] of a frame without rows). *)
Definition _generate_supervisor_insights (weighted_results : ResultFrame)
  (agent_results : AgentResults) : M (option Insights) :=
  match column "weighted_score" weighted_results with
  | None => ret None
  | Some scores =>
      let high := List.length (filter (fun s => Rge_b s 0.8) scores) in
      let medium :=
        List.length
          (filter (fun s => Rge_b s 0.6 && Rlt_b s 0.8) scores) in
      let cross_agent_analysis :=
        _analyze_cross_agent_patterns weighted_results agent_results in
      let insights :=
        {| total_pharmacies_analyzed := List.length weighted_results;
           high_risk_pharmacies := high;
           medium_risk_pharmacies := medium;
           agent_performance := analyze_agent_performance agent_results;
           cross_agent_patterns := cross_agent_analysis;
           recommendations :=
             (if (10 <? high)%nat
              then ["High number of high-risk pharmacies detected - consider manual review"]
              else [])
             ++ (if (20 <? medium)%nat
                 then ["Many medium-risk pharmacies - consider adjusting thresholds"]
                 else [])
             ++ (if (5 <? conflicting_signals_count cross_agent_analysis)%nat
                 then ["Multiple conflicting signals detected - review agent weights"]
                 else [])
             ++ (if (10 <? high_consistency_count cross_agent_analysis)%nat
                 then ["High agent agreement detected - consider increasing confidence threshold"]
                 else []) |} in
      track (TrackSupervisorAnalysis (List.length weighted_results)) ;;;
      ret (Some insights)
  end.

Record AnalysisResults : Type := {
  res_agent_results : AgentResults;
  res_weighted_results : ResultFrame;
  res_supervisor_insights : Insights;
  res_scoring_system : WeightedScoringSystem
}.

(** [None]: the exception of [_generate_supervisor_insights] propagates. *)
Definition supervise_analysis (set_iter : list string -> list string)
  (as_completed : Dict Agent -> Dict Agent) (self : WeightedScoringSystem)
  (df : Dataset) : M (option AnalysisResults) :=
  agent_results <- run_agents_parallel as_completed self df ;;
  weighted_results <-
    calculate_weighted_scores set_iter self agent_results df ;;
  supervisor_insights <-
    _generate_supervisor_insights weighted_results agent_results ;;
  match supervisor_insights with
  | None => ret None
  | Some insights =>
      track EndProjectRun ;;;
      ret (Some {| res_agent_results := agent_results;
                   res_weighted_results := weighted_results;
                   res_supervisor_insights := insights;
                   res_scoring_system := self |})
  end.

(** ** The pipeline of [parallel_fraud_graph.py] *)

(** The state object; [st_supervisor_insights = None] is the empty dict. *)
Record ParallelFraudDetectionState : Type := {
  st_df : Dataset;
  st_agent_results : AgentResults;
  st_weighted_results : ResultFrame;
  st_supervisor_insights : option Insights;
  st_final_results : ResultFrame
}.

(** [loader] is the outcome of [load_copay_detail_data]; [None]: it raises. *)
Definition load_data_node (loader : option Dataset)
  (state : ParallelFraudDetectionState) : ParallelFraudDetectionState :=
  {| st_df := match loader with Some df => df | None => [] end;
     st_agent_results := st_agent_results state;
     st_weighted_results := st_weighted_results state;
     st_supervisor_insights := st_supervisor_insights state;
     st_final_results := st_final_results state |}.

(** [SupervisorAgent()]: a fresh scoring system with the default weights
    over the registered agents. *)
Definition new_scoring_system (registered : Dict Agent)
  : WeightedScoringSystem :=
  {| current_weights := default_weights; agents := registered |}.

Definition parallel_analysis_node (set_iter : list string -> list string)
  (as_completed : Dict Agent -> Dict Agent) (registered : Dict Agent)
  (state : ParallelFraudDetectionState) : M ParallelFraudDetectionState :=
  let cleared :=
    {| st_df := st_df state;
       st_agent_results := [];
       st_weighted_results := [];
       st_supervisor_insights := None;
       st_final_results := st_final_results state |} in
  if negb (truthy (st_df state)) then ret cleared
  else
    results <-
      supervise_analysis set_iter as_completed
        (new_scoring_system registered) (st_df state) ;;
    match results with
    | None => ret cleared
    | Some r =>
        ret {| st_df := st_df state;
               st_agent_results := res_agent_results r;
               st_weighted_results := res_weighted_results r;
               st_supervisor_insights := Some (res_supervisor_insights r);
               st_final_results := st_final_results state |}
    end.

(** [frame.sort_values(col, ascending=False)] works on the rows paired with
    their keys.  pandas sorts with [kind='quicksort'] unless told otherwise,
    and that sort is not stable: what the call guarantees is the rows in
    order of decreasing key; the order of rows of equal key is left to the
    sorting routine.  A [Sorter] stands for that routine. *)
Definition Sorter : Type := list (R * ResultRow) -> list (R * ResultRow).

(** Insertion of a keyed row into a list sorted by decreasing key, behind
    no row of a strictly smaller key. *)
Fixpoint insert_desc (x : R * ResultRow) (l : list (R * ResultRow))
  : list (R * ResultRow) :=
  match l with
  | [] => [x]
  | y :: l' =>
      if Rle_dec (fst y) (fst x) then x :: l else y :: insert_desc x l'
  end.

(** Two sorting routines, used in the examples: one keeps rows of equal key
    in the order it finds them, the other reverses them. *)
Definition sort_desc : Sorter := fun l => fold_right insert_desc [] l.

Definition sort_reversing_ties : Sorter := fun l => sort_desc (rev l).

(** [None]: [KeyError]. *)
Definition sort_values_desc (sort_rows : Sorter) (col : string)
  (frame : ResultFrame) : option ResultFrame :=
  match column col frame with
  | None => None
  | Some keys => Some (map snd (sort_rows (combine keys frame)))
  end.

(** [frame['rank'] = range(1, len(frame) + 1)] *)
Definition assign_rank (frame : ResultFrame) : ResultFrame :=
  map (fun ir => dict_set "rank" (VInt (Z.of_nat (fst ir))) (snd ir))
    (combine (seq 1 (List.length frame)) frame).

Definition final_results_node (sort_rows : Sorter)
  (state : ParallelFraudDetectionState) : ParallelFraudDetectionState :=
  let failed :=
    {| st_df := st_df state;
       st_agent_results := st_agent_results state;
       st_weighted_results := st_weighted_results state;
       st_supervisor_insights := st_supervisor_insights state;
       st_final_results := [] |} in
  if negb (truthy (st_weighted_results state)) then failed
  else
    match
      sort_values_desc sort_rows "weighted_score" (st_weighted_results state)
    with
    | None => failed
    | Some sorted =>
        let final_results := assign_rank sorted in
        let weighted_results_with_rank := assign_rank sorted in
        {| st_df := st_df state;
           st_agent_results := st_agent_results state;
           st_weighted_results := weighted_results_with_rank;
           st_supervisor_insights := st_supervisor_insights state;
           st_final_results := final_results |}
    end.

(** [graph.invoke({})]: the three nodes in sequence from the empty state. *)
Definition run_parallel_fraud_detection_pipeline
  (set_iter : list string -> list string)
  (as_completed : Dict Agent -> Dict Agent) (sort_rows : Sorter)
  (registered : Dict Agent) (loader : option Dataset)
  : M ParallelFraudDetectionState :=
  let initial :=
    {| st_df := [];
       st_agent_results := [];
       st_weighted_results := [];
       st_supervisor_insights := None;
       st_final_results := [] |} in
  state <-
    parallel_analysis_node set_iter as_completed registered
      (load_data_node loader initial) ;;
  ret (final_results_node sort_rows state).

(** ** The scoring rules of the agents

    Each agent turns the counts of one pharmacy into a score by a ladder of
    thresholds.  The rules below are the pure helpers of
    [agents/high_dollar_agent.py], [agents/rejected_claim_agent.py] and
    [agents/network_anomaly_agent.py], and the ladder inside
    [CoverageTypeAgent.run]. *)

Module HighDollarClaimAgent.

Definition _calculate_fraud_score (total_claims : nat)
  (total_cost avg_cost cash_percentage : R) : R :=
  let score := 0 in
  let score :=
    if (10 <=? total_claims)%nat then score + 0.25
    else if (5 <=? total_claims)%nat then score + 0.15
    else if (2 <=? total_claims)%nat then score + 0.10
    else score in
  let score :=
    if Rge_b total_cost 10000 then score + 0.25
    else if Rge_b total_cost 5000 then score + 0.15
    else if Rge_b total_cost 2000 then score + 0.10
    else score in
  let score :=
    if Rge_b avg_cost 1000 then score + 0.25
    else if Rge_b avg_cost 500 then score + 0.15
    else if Rge_b avg_cost 300 then score + 0.10
    else score in
  let score :=
    if Rge_b cash_percentage 80 then score + 0.25
    else if Rge_b cash_percentage 60 then score + 0.15
    else if Rge_b cash_percentage 40 then score + 0.10
    else score in
  Rmin score 1.

End HighDollarClaimAgent.

Module RejectedClaimDensityAgent.

Definition _calculate_fraud_score (total_claims rejected_claims : nat)
  (rejection_percentage : R) : R :=
  let score := 0 in
  let score :=
    if Rge_b rejection_percentage 50 then score + 0.4
    else if Rge_b rejection_percentage 30 then score + 0.3
    else if Rge_b rejection_percentage 20 then score + 0.2
    else if Rge_b rejection_percentage 10 then score + 0.1
    else score in
  let score :=
    if (20 <=? rejected_claims)%nat then score + 0.3
    else if (10 <=? rejected_claims)%nat then score + 0.2
    else if (5 <=? rejected_claims)%nat then score + 0.1
    else score in
  let score :=
    if (50 <=? total_claims)%nat then score + 0.3
    else if (20 <=? total_claims)%nat then score + 0.2
    else if (10 <=? total_claims)%nat then score + 0.1
    else score in
  Rmin score 1.

(** Line 34 of [run]: the percentage handed to the scoring rule. *)
Definition rejection_percentage (total_claims rejected_claims : nat) : R :=
  if (0 <? total_claims)%nat
  then INR rejected_claims / INR total_claims * 100
  else 0.

End RejectedClaimDensityAgent.

Module PharmacyNetworkAnomalyAgent.

Definition _calculate_network_fraud_score
  (total_claims network_claims non_network_claims : nat)
  (is_primarily_network : bool) (network_type : string) : R :=
  let score := 0 in
  let non_network_percentage :=
    if (0 <? total_claims)%nat
    then INR non_network_claims / INR total_claims * 100
    else 0 in
  let score :=
    if Rge_b non_network_percentage 80 then score + 0.4
    else if Rge_b non_network_percentage 60 then score + 0.3
    else if Rge_b non_network_percentage 40 then score + 0.2
    else if Rge_b non_network_percentage 20 then score + 0.1
    else score in
  let score :=
    if mem network_type ["Unknown"; "None"; ""] && (5 <? total_claims)%nat
    then score + 0.3
    else if mem network_type ["Independent"; "Small Chain"]
            && Rgt_b non_network_percentage 50
    then score + 0.2
    else score in
  let score :=
    if (50 <=? total_claims)%nat && Rgt_b non_network_percentage 30
    then score + 0.3
    else if (20 <=? total_claims)%nat && Rgt_b non_network_percentage 50
    then score + 0.2
    else if (10 <=? total_claims)%nat && Rgt_b non_network_percentage 70
    then score + 0.1
    else score in
  Rmin score 1.

(** Lines 148-152 of [_enhance_with_agent_results]: the score of a pharmacy
    for which the other agents have findings. *)
Definition enhanced_score (network_score : R) (agent_scores : list R) : R :=
  let avg_agent_score :=
    if truthy agent_scores
    then sum agent_scores / INR (List.length agent_scores)
    else 0 in
  (network_score * 0.3) + (avg_agent_score * 0.7).

End PharmacyNetworkAnomalyAgent.

Module CoverageTypeAgent.

(** Step 3 of [run]. *)
Definition flagged_percent (flagged_claims total_claims : nat) : R :=
  if (0 <? total_claims)%nat
  then INR flagged_claims / INR total_claims * 100
  else 0.

(** Step 4 of [run]: the score and the reason of a pharmacy. *)
Definition score_and_reason (flagged_percent : R) : R * string :=
  if Rgt_b flagged_percent 90 then (1, "HIGH_RISK: >90% flagged claims")
  else if Rgt_b flagged_percent 75
  then (0.8, "MEDIUM_HIGH: >75% flagged claims")
  else if Rgt_b flagged_percent 50 then (0.6, "MEDIUM: >50% flagged claims")
  else if Rgt_b flagged_percent 25
  then (0.3, "LOW_MEDIUM: >25% flagged claims")
  else if Rgt_b flagged_percent 0 then (0.1, "LOW: Some flagged claims")
  else (0, "Normal").

End CoverageTypeAgent.

(** ** The analyses of the tracker

    The computations [utils/langsmith_integration.py] makes on the values
    it is handed, before it records them. *)

Record CommunicationPatterns : Type := {
  cp_high_risk_agents : list string;
  cp_low_risk_agents : list string;
  cp_conflicting_signals : bool;
  cp_agent_agreement : string
}.

(** Lines 180-194 of [track_cross_agent_communication]. *)
Definition cross_agent_patterns_of (agent_scores : Dict R)
  (consistency_score : R) : CommunicationPatterns :=
  let high_risk_agents :=
    dict_keys (filter (fun e => Rge_b (snd e) 0.8) agent_scores) in
  let low_risk_agents :=
    dict_keys (filter (fun e => Rlt_b (snd e) 0.4) agent_scores) in
  {| cp_high_risk_agents := high_risk_agents;
     cp_low_risk_agents := low_risk_agents;
     cp_conflicting_signals :=
       (0 <? List.length high_risk_agents)%nat
       && (0 <? List.length low_risk_agents)%nat;
     cp_agent_agreement :=
       if Rge_b consistency_score 0.8 then "high"
       else if Rge_b consistency_score 0.6 then "medium"
       else "low" |}.

Record ScoreDistribution : Type := {
  sd_high_risk : nat;
  sd_medium_risk : nat;
  sd_low_risk : nat;
  sd_very_low_risk : nat
}.

(** Lines 124-135 of [track_weighted_scoring], on the column
    [weighted_score]. *)
Definition score_distribution (scores : list R) : ScoreDistribution :=
  {| sd_high_risk := List.length (filter (fun s => Rge_b s 0.8) scores);
     sd_medium_risk :=
       List.length (filter (fun s => Rge_b s 0.6 && Rlt_b s 0.8) scores);
     sd_low_risk :=
       List.length (filter (fun s => Rge_b s 0.4 && Rlt_b s 0.6) scores);
     sd_very_low_risk := List.length (filter (fun s => Rlt_b s 0.4) scores) |}.

(** ** Binary64 arithmetic

    The computations of the engine whose outcome rounding decides, on
    IEEE 754 binary64 numbers (the primitive floats), operation by
    operation as Python and NumPy carry them out. *)

Module Float64.
Import Floats.
Local Open Scope float_scope.
Set Warnings "-inexact-float".

Definition of_nat (n : nat) : float :=
  PrimFloat.of_uint63 (Uint63.of_Z (Z.of_nat n)).

(** Python's [sum] over floats adds them from left to right, starting
    from 0 (CPython up to 3.11; later versions compensate the rounding
    errors of the additions). *)
Definition sum (l : list float) : float := fold_left PrimFloat.add l 0.

(** [WeightedScoringSystem.update_weights] *)
Definition update_weights (current_weights new_weights : Dict float)
  : Dict float :=
  let merged := dict_update current_weights new_weights in
  let total := sum (dict_values merged) in
  if 0 <? total
  then map (fun kv => (fst kv, snd kv / total)) merged
  else merged.

Definition default_weights : Dict float :=
  [ ("coverage_agent", 0.25);
    ("patient_flip_agent", 0.20);
    ("high_dollar_agent", 0.20);
    ("rejection_agent", 0.20);
    ("network_agent", 0.15) ].

(** [np.add.reduce] on an array of fewer than eight numbers: one addition
    after the other, from 0.  (Longer arrays are added in blocks; the
    development uses [np_sum] on short arrays only.) *)
Definition np_sum (a : list float) : float := fold_left PrimFloat.add a 0.

Definition np_mean (a : list float) : float :=
  np_sum a / of_nat (List.length a).

(** [np.std]: the mean, the deviations from it, the mean of their squares,
    and its square root. *)
Definition np_std (a : list float) : float :=
  let arrmean := np_mean a in
  let x := map (fun v => v - arrmean) a in
  PrimFloat.sqrt (np_sum (map (fun v => v * v) x) / of_nat (List.length a)).

(** A row of an agent, as far as the outlier score reads it: the pharmacy
    number and the fraud score. *)
Definition Frame : Type := list (string * float).

Definition AgentResults : Type := Dict Frame.

Definition all_scores (agent_results : AgentResults) : list float :=
  flat_map (fun entry => map snd (snd entry)) agent_results.

Definition scores_of (pharmacy : string) (agent_results : AgentResults)
  : list float :=
  flat_map
    (fun entry =>
       match
         filter (fun r => String.eqb (fst r) pharmacy) (snd entry)
       with
       | [] => []
       | first :: _ => [snd first]
       end)
    agent_results.

(** [_calculate_outlier_score]; [np_exp] is [np.exp]. *)
Definition _calculate_outlier_score (np_exp : float -> float)
  (pharmacy : string) (agent_results : AgentResults) : float :=
  if negb (truthy (all_scores agent_results)) then 0.5
  else
    let mean_score := np_mean (all_scores agent_results) in
    let std_score := np_std (all_scores agent_results) in
    if std_score =? 0 then 0.5
    else
      let pharmacy_scores := scores_of pharmacy agent_results in
      if negb (truthy pharmacy_scores) then 0.5
      else
        let avg_pharmacy_score := np_mean pharmacy_scores in
        let z_score := (avg_pharmacy_score - mean_score) / std_score in
        1 / (1 + np_exp (- z_score)).


Set Warnings "+inexact-float".
End Float64.

(** ** Notions of the specification *)

(** Some contributing agent scored the pharmacy at 0.8 or more. *)
Definition any_high (pharmacy_scores : Dict R) : Prop :=
  exists s, In s (dict_values pharmacy_scores) /\ 0.8 <= s.

(** Some contributing agent scored the pharmacy below 0.4. *)
Definition any_low (pharmacy_scores : Dict R) : Prop :=
  exists s, In s (dict_values pharmacy_scores) /\ s < 0.4.

(** The first row each agent has for the pharmacy, agent by agent: the
    units that reported a finding for it. *)
Definition first_rows (pharmacy : string) (agent_results : AgentResults)
  : Dict Row :=
  flat_map
    (fun entry =>
       match pharmacy_data pharmacy (snd entry) with
       | [] => []
       | first :: _ => [(fst entry, first)]
       end)
    agent_results.

(** The reporting units of a pharmacy with the score each one gave. *)
Definition reports_of (pharmacy : string) (agent_results : AgentResults)
  : Dict R :=
  map (fun e => (fst e, fraud_score (snd e))) (first_rows pharmacy agent_results).

(** The sum over the reporting units of score times weight. *)
Definition weighted_reports (weights : Dict R) (reports : Dict R) : R :=
  sum (map (fun e => snd e * weight_of weights (fst e)) reports).



(** The record of one entity, from the finding map, the dataset and the
    weight vector. *)
Definition record_of (weights : Dict R) (agent_results : AgentResults)
  (df : Dataset) (pharmacy : string) : ResultRow :=
  fst (_calculate_single_pharmacy_score
         {| current_weights := weights; agents := [] |} pharmacy
         agent_results df []).

(** The fields of an AggregatedScore as section 3 of the specification
    lists them. *)
Definition spec_fields : list string :=
  [ "entity_id"; "weighted_score"; "consistency_score"; "outlier_score";
    "final_score"; "risk_level"; "contributing_units"; "explanation" ].

(** The exported score of a row, the sort key of the finalize stage. *)
Definition score_of_row (row : ResultRow) : R :=
  match get_float "weighted_score" row with
  | Some x => x
  | None => 0
  end.

(** A frame in order of decreasing exported score. *)
Definition descending (frame : ResultFrame) : Prop :=
  StronglySorted (fun a b => score_of_row b <= score_of_row a) frame.

(** The ranks 1, 2, ..., n as stored under the key [rank]. *)
Definition dense_ranks (n : nat) : list (option Value) :=
  map (fun i => Some (VInt (Z.of_nat i))) (seq 1 n).

(** The order of the keyed rows the sort produces. *)
Definition key_desc (a b : R * ResultRow) : Prop := fst b <= fst a.

(** Every row of the list carries its key under the column. *)
Definition keyed (col : string) (l : list (R * ResultRow)) : Prop :=
  Forall (fun kr => get_float col (snd kr) = Some (fst kr)) l.

(** [ranked s frame]: the rows numbered from [s] on under [rank]. *)
Definition ranked (s : nat) (frame : ResultFrame) : ResultFrame :=
  map (fun ir => dict_set "rank" (VInt (Z.of_nat (fst ir))) (snd ir))
    (combine (seq s (List.length frame)) frame).

(** The number of rows of a frame that carry the risk level. *)
Definition labelled (level : string) (frame : ResultFrame) : nat :=
  List.length
    (filter
       (fun row =>
          match dict_get "risk_level" row with
          | Some (VStr l) => String.eqb l level
          | _ => false
          end)
       frame).

(** The number of rows of a frame whose exported consistency score is the
    given value. *)
Definition consistent_at (value : R) (frame : ResultFrame) : nat :=
  List.length
    (filter
       (fun row =>
          match get_float "consistency_score" row with
          | Some c => Req_b c value
          | None => false
          end)
       frame).

(** ** Inputs used by the examples *)

Definition test_row (pharmacy : string) (score : R) (why : string) : Row :=
  {| pharmacy_number := pharmacy;
     pharmacy_name := "Test Pharmacy 1";
     pharmacy_city := "Unknown";
     pharmacy_state := "Unknown";
     fraud_score := score;
     reason := why |}.

(** One agent of weight 0.25 reports the score 1.0 for one pharmacy. *)
Definition single_report : AgentResults :=
  [ ("coverage_agent",
     [test_row "PH001" 1 "HIGH_RISK: >90% flagged claims"]) ].

(** The five agents report the same score 0.8137 for one pharmacy. *)
Definition unanimous_reports : AgentResults :=
  [ ("coverage_agent", [test_row "PH001" 0.8137 "MEDIUM_HIGH"]);
    ("patient_flip_agent", [test_row "PH001" 0.8137 "MEDIUM_HIGH"]);
    ("high_dollar_agent", [test_row "PH001" 0.8137 "MEDIUM_HIGH"]);
    ("rejection_agent", [test_row "PH001" 0.8137 "MEDIUM_HIGH"]);
    ("network_agent", [test_row "PH001" 0.8137 "MEDIUM_HIGH"]) ].

(** One agent reports 1.0 for one pharmacy and 0.0 for another. *)
Definition split_reports : AgentResults :=
  [ ("coverage_agent",
     [ test_row "PH001" 1 "HIGH_RISK: >90% flagged claims";
       test_row "PH002" 0 "Normal" ]) ].

Definition default_system : WeightedScoringSystem :=
  {| current_weights := default_weights; agents := [] |}.

Definition zero_weights : Dict R :=
  [ ("coverage_agent", 0);
    ("patient_flip_agent", 0);
    ("high_dollar_agent", 0);
    ("rejection_agent", 0);
    ("network_agent", 0) ].

(** The overrides of [test_weighted_scoring_system]. *)
Definition test_weights : Dict R :=
  [ ("coverage_agent", 0.3);
    ("patient_flip_agent", 0.25);
    ("high_dollar_agent", 0.2);
    ("rejection_agent", 0.15);
    ("network_agent", 0.1) ].

(** The unit roundoff of binary64, and an arithmetic that is off by it: a
    sum that comes out one unit too large and a quotient that comes out
    one unit too small. *)
Definition unit_roundoff : R := / 9007199254740992.

Definition fsum_up (l : list R) : R := sum l * (1 + unit_roundoff).

Definition fdiv_down (x y : R) : R := x / y * (1 - unit_roundoff).

(** An agent with one finding and an agent that raises on every call. *)
Definition reporting_agent : Agent :=
  fun _ _ => Some [test_row "PH001" 1 "HIGH_RISK: >90% flagged claims"].

Definition failing_agent : Agent := fun _ _ => None.

Definition two_agents : Dict Agent :=
  [ ("coverage_agent", reporting_agent); ("rejection_agent", failing_agent) ].

Definition one_claim : Dataset :=
  [ {| claim_pharmacy_number := "PH001";
       coverage_type := "Cash";
       copay_cost := 300;
       oop_cost := 600 |} ].

(** One agent reports the same score 0.5 for two pharmacies; the rows of
    the aggregation for these findings; a state that holds rows as weighted
    results. *)
Definition tied_reports : AgentResults :=
  [ ("coverage_agent",
     [ test_row "PH001" 0.5 "LOW_MEDIUM: >25% flagged claims";
       test_row "PH002" 0.5 "LOW_MEDIUM: >25% flagged claims" ]) ].

Definition tied_rows : ResultFrame :=
  fst (calculate_weighted_scores unique default_system tied_reports
         one_claim []).

Definition state_of (rows : ResultFrame) : ParallelFraudDetectionState :=
  {| st_df := [];
     st_agent_results := [];
     st_weighted_results := rows;
     st_supervisor_insights := None;
     st_final_results := [] |}.

(** * Properties *)

(** Case analysis on the comparisons of [_determine_risk_level]. *)
Ltac decide_bands :=
  unfold _determine_risk_level, Rge_b;
  repeat match goal with
    | |- context [Rle_dec ?a ?b] => destruct (Rle_dec a b)
    end;
  try reflexivity; try lra.

(** ** Sums *)

Lemma fold_left_Rplus_acc (l : list R) (a : R) :
  fold_left Rplus l a = a + sum l.
Proof.
  unfold sum. revert a.
  induction l as [|x l IH]; intros a; simpl.
  - lra.
  - rewrite (IH (a + x)), (IH (0 + x)). lra.
Qed.

Lemma sum_nil : sum [] = 0.
Proof. reflexivity. Qed.

Lemma sum_cons (x : R) (l : list R) : sum (x :: l) = x + sum l.
Proof.
  unfold sum at 1. simpl. rewrite fold_left_Rplus_acc. lra.
Qed.

Lemma sum_map_div (l : list R) (c : R) :
  sum (map (fun x => x / c) l) = sum l / c.
Proof.
  induction l as [|x l IH]; simpl.
  - rewrite sum_nil. unfold Rdiv. lra.
  - rewrite !sum_cons, IH. unfold Rdiv. lra.
Qed.

(** ** The weight vector *)

Lemma update_weights_values_normalized (merged : Dict R) (total : R) :
  dict_values (map (fun kv => (fst kv, snd kv / total)) merged)
  = map (fun x => x / total) (dict_values merged).
Proof.
  unfold dict_values. rewrite !map_map. reflexivity.
Qed.

Lemma update_weights_positive (current_weights new_weights : Dict R) :
  0 < sum (dict_values (dict_update current_weights new_weights)) ->
  sum (dict_values (update_weights current_weights new_weights)) = 1.
Proof.
  intros Hpos. unfold update_weights.
  destruct (Rlt_dec 0 _) as [_ | Hn]; [|contradiction].
  rewrite update_weights_values_normalized, sum_map_div. field. lra.
Qed.

Lemma update_weights_not_positive (current_weights new_weights : Dict R) :
  sum (dict_values (dict_update current_weights new_weights)) <= 0 ->
  update_weights current_weights new_weights
  = dict_update current_weights new_weights.
Proof.
  intros Hle. unfold update_weights.
  destruct (Rlt_dec 0 _) as [Hpos | _]; [lra | reflexivity].
Qed.

Lemma update_weights_exact (current_weights new_weights : Dict R) :
  update_weights_fl sum Rdiv current_weights new_weights
  = update_weights current_weights new_weights.
Proof. reflexivity. Qed.

Lemma Rabs_bounds (x a : R) : Rabs x <= a -> - a <= x <= a.
Proof.
  unfold Rabs. destruct (Rcase_abs x); lra.
Qed.

Lemma sum_nonneg (l : list R) : (forall x, In x l -> 0 <= x) -> 0 <= sum l.
Proof.
  induction l as [|x l IH]; intros H.
  - rewrite sum_nil. lra.
  - rewrite sum_cons.
    assert (0 <= x) by (apply H; left; reflexivity).
    assert (0 <= sum l) by (apply IH; intros y Hy; apply H; right; exact Hy).
    lra.
Qed.

(** Errors add up: when every term is off by at most [c] times its exact
    value plus [d], so is the sum, with [d] counted once per term. *)
Lemma sum_map_error (f g : R -> R) (c d : R) (l : list R) :
  (forall x, In x l -> Rabs (f x - g x) <= c * g x + d) ->
  Rabs (sum (map f l) - sum (map g l))
  <= c * sum (map g l) + INR (List.length l) * d.
Proof.
  induction l as [|x l IH]; intros H.
  - simpl. rewrite !sum_nil. rewrite Rminus_diag, Rabs_R0. lra.
  - cbn [map]. rewrite !sum_cons.
    change (List.length (x :: l)) with (S (List.length l)). rewrite S_INR.
    assert (Hx : Rabs (f x - g x) <= c * g x + d)
      by (apply H; left; reflexivity).
    assert (Hl : Rabs (sum (map f l) - sum (map g l))
                 <= c * sum (map g l) + INR (List.length l) * d)
      by (apply IH; intros y Hy; apply H; right; exact Hy).
    apply Rabs_bounds in Hx. apply Rabs_bounds in Hl.
    apply Rabs_le. lra.
Qed.

(** C3: [fsum] and [fdiv] are the sum and the division of floats.  Take
    non-negative merged weights whose computed total is within the
    relative error [eps] of their sum, and quotients by that total within
    the relative error [eps] and the absolute error [eta].  When the merged
    weights have a positive sum, the updated weights sum to 1 within
    [4 eps + n eta], [n] the number of weights, and so does, within
    [8 eps + 2 n eta], their sum computed with a relative error of at most
    [eps]; when the merged weights sum to 0 the update leaves the merged
    vector as it is, without dividing. *)
Theorem update_weights_sum_tolerance (fsum : list R -> R)
  (fdiv : R -> R -> R) (eps eta : R) (current_weights new_weights : Dict R) :
  let merged := dict_update current_weights new_weights in
  let total := fsum (dict_values merged) in
  let updated := update_weights_fl fsum fdiv current_weights new_weights in
  let tolerance := 4 * eps + INR (List.length merged) * eta in
  0 <= eps <= 1 / 4 ->
  0 <= eta ->
  (forall v, In v (dict_values merged) -> 0 <= v) ->
  Rabs (total - sum (dict_values merged)) <= eps * sum (dict_values merged) ->
  (forall v,
      In v (dict_values merged) ->
      Rabs (fdiv v total - v / total) <= eps * (v / total) + eta) ->
  (0 < sum (dict_values merged) ->
   Rabs (sum (dict_values updated) - 1) <= tolerance
   /\ (Rabs (fsum (dict_values updated) - sum (dict_values updated))
       <= eps * Rabs (sum (dict_values updated)) ->
       Rabs (fsum (dict_values updated) - 1) <= 2 * tolerance))
  /\ (sum (dict_values merged) = 0 -> updated = merged).
Proof.
  intros merged total updated tolerance Heps Heta Hnn Hsum Hdiv.
  set (S := sum (dict_values merged)) in *.
  assert (HS : 0 <= S) by (apply sum_nonneg; exact Hnn).
  assert (Hn : 0 <= INR (List.length merged)) by apply pos_INR.
  assert (Hne : 0 <= INR (List.length merged) * eta)
    by (apply Rmult_le_pos; assumption).
  apply Rabs_bounds in Hsum.
  split.
  - intros Hpos.
    assert (HT : 0 < total) by nra.
    assert (Hu : dict_values updated
                 = map (fun v => fdiv v total) (dict_values merged)).
    { subst updated. unfold update_weights_fl. fold merged. fold total.
      destruct (Rlt_dec 0 total) as [_ | Hno]; [| contradiction].
      unfold dict_values. rewrite !map_map. reflexivity. }
    pose proof (sum_map_error (fun v => fdiv v total) (fun v => v / total)
                  eps eta (dict_values merged) Hdiv) as Herr.
    rewrite sum_map_div in Herr. fold S in Herr.
    replace (List.length (dict_values merged)) with (List.length merged)
      in Herr by (unfold dict_values; rewrite length_map; reflexivity).
    rewrite <- Hu in Herr.
    set (q := S / total) in *.
    assert (Hq : q * total = S) by (unfold q; field; lra).
    assert (Hq0 : 0 <= q).
    { unfold q. apply Rmult_le_pos; [exact HS |].
      apply Rlt_le, Rinv_0_lt_compat. exact HT. }
    assert (Hq1 : q <= 4 / 3) by nra.
    assert (Hq2 : - (eps * q) <= q - 1 <= eps * q).
    { split.
      - apply (Rmult_le_reg_r total); [exact HT |]. nra.
      - apply (Rmult_le_reg_r total); [exact HT |]. nra. }
    apply Rabs_bounds in Herr.
    assert (Hexact : Rabs (sum (dict_values updated) - 1) <= tolerance).
    { subst tolerance. apply Rabs_le. nra. }
    split; [exact Hexact |].
    intros Hfl. apply Rabs_bounds in Hfl. apply Rabs_bounds in Hexact.
    assert (Hmag : Rabs (sum (dict_values updated)) <= 1 + tolerance).
    { apply Rabs_le. lra. }
    assert (Ht0 : 0 <= tolerance) by (subst tolerance; lra).
    assert (Hm0 : 0 <= Rabs (sum (dict_values updated))) by apply Rabs_pos.
    assert (Ht1 : 4 * eps <= tolerance) by (subst tolerance; lra).
    assert (Hp1 : eps * Rabs (sum (dict_values updated))
                  <= eps * (1 + tolerance))
      by (apply Rmult_le_compat_l; lra).
    assert (Hp2 : eps * tolerance <= tolerance / 4) by nra.
    apply Rabs_le. lra.
  - intros Hzero. subst updated. unfold update_weights_fl.
    fold merged. fold total.
    destruct (Rlt_dec 0 total) as [Hpos | _]; [| reflexivity].
    exfalso. rewrite Hzero in Hsum. lra.
Qed.

Lemma fsum_up_accurate (l : list R) :
  0 <= sum l -> Rabs (fsum_up l - sum l) <= unit_roundoff * sum l.
Proof.
  intros H. unfold fsum_up.
  replace (sum l * (1 + unit_roundoff) - sum l)
    with (unit_roundoff * sum l) by ring.
  assert (0 < unit_roundoff)
    by (unfold unit_roundoff; apply Rinv_0_lt_compat; lra).
  rewrite Rabs_right; [lra |].
  apply Rle_ge, Rmult_le_pos; lra.
Qed.

Lemma fdiv_down_accurate (x y : R) :
  0 <= x -> 0 < y ->
  Rabs (fdiv_down x y - x / y) <= unit_roundoff * (x / y) + 0.
Proof.
  intros Hx Hy. unfold fdiv_down.
  assert (Hu : 0 < unit_roundoff)
    by (unfold unit_roundoff; apply Rinv_0_lt_compat; lra).
  assert (Hq : 0 <= x / y).
  { apply Rmult_le_pos; [exact Hx |].
    apply Rlt_le, Rinv_0_lt_compat. exact Hy. }
  replace (x / y * (1 - unit_roundoff) - x / y)
    with (- (unit_roundoff * (x / y))) by ring.
  rewrite Rabs_Ropp, Rabs_right; [lra |].
  apply Rle_ge, Rmult_le_pos; lra.
Qed.

Lemma update_weights_sum_tolerance_witness :
  Rabs
    (sum (dict_values
            (update_weights_fl fsum_up fdiv_down default_weights
               test_weights))
     - 1)
  <= 4 * unit_roundoff + INR 5 * 0.
Proof.
  assert (Hu : 0 < unit_roundoff <= 1 / 4).
  { unfold unit_roundoff. split; [apply Rinv_0_lt_compat; lra |].
    apply (Rmult_le_reg_r 9007199254740992); [lra |].
    rewrite Rinv_l by lra. lra. }
  assert (Hsum : sum (dict_values (dict_update default_weights test_weights))
                 = 1)
    by (unfold sum; simpl; lra).
  assert (Hnn : forall v,
             In v (dict_values (dict_update default_weights test_weights)) ->
             0 <= v)
    by (simpl; intros v H; decompose [or] H; subst; lra).
  apply (update_weights_sum_tolerance fsum_up fdiv_down unit_roundoff 0
           default_weights test_weights).
  - lra.
  - lra.
  - exact Hnn.
  - apply fsum_up_accurate. lra.
  - intros v Hv. apply fdiv_down_accurate; [apply Hnn; exact Hv |].
    unfold fsum_up. rewrite Hsum. lra.
  - lra.
Defined.

(** ** Comparisons and rounding *)

Lemma Rge_b_true (x y : R) : Rge_b x y = true <-> y <= x.
Proof. unfold Rge_b. destruct (Rle_dec y x); split; intros; try easy. Qed.

Lemma Rge_b_false (x y : R) : Rge_b x y = false <-> x < y.
Proof.
  unfold Rge_b. destruct (Rle_dec y x); split; intros; try easy; lra.
Qed.

Lemma Rlt_b_true (x y : R) : Rlt_b x y = true <-> x < y.
Proof. unfold Rlt_b. destruct (Rlt_dec x y); split; intros; try easy. Qed.

Lemma Rlt_b_false (x y : R) : Rlt_b x y = false <-> y <= x.
Proof.
  unfold Rlt_b. destruct (Rlt_dec x y); split; intros; try easy; lra.
Qed.

Lemma Req_b_true (x y : R) : Req_b x y = true <-> x = y.
Proof. unfold Req_b. destruct (Req_dec_T x y); split; intros; try easy. Qed.

Lemma Req_b_false (x y : R) : Req_b x y = false <-> x <> y.
Proof. unfold Req_b. destruct (Req_dec_T x y); split; intros; try easy. Qed.

Lemma Int_part_floor (f : Z) (x : R) :
  IZR f <= x < IZR f + 1 -> Int_part x = f.
Proof.
  intros [Hlo Hhi]. symmetry. apply Int_part_spec. lra.
Qed.

Lemma round_half_even_down (f : Z) (x : R) :
  IZR f <= x < IZR f + 1 / 2 -> round_half_even x = f.
Proof.
  intros [Hlo Hhi]. unfold round_half_even.
  rewrite (Int_part_floor f x) by lra.
  destruct (Rlt_dec (x - IZR f) (1 / 2)); [reflexivity | lra].
Qed.

Lemma round_half_even_up (f : Z) (x : R) :
  IZR f + 1 / 2 < x < IZR f + 1 -> round_half_even x = (f + 1)%Z.
Proof.
  intros [Hlo Hhi]. unfold round_half_even.
  rewrite (Int_part_floor f x) by lra.
  destruct (Rlt_dec (x - IZR f) (1 / 2)); [lra |].
  destruct (Rlt_dec (1 / 2) (x - IZR f)); [reflexivity | lra].
Qed.

(** A value with at most three decimals is its own rounding. *)
Lemma round3_thousandths (k : Z) : round3 (IZR k / 1000) = IZR k / 1000.
Proof.
  unfold round3.
  replace (IZR k / 1000 * 1000) with (IZR k) by (field; lra).
  rewrite (round_half_even_down k) by lra. reflexivity.
Qed.

Lemma round3_up (f : Z) (x : R) :
  IZR f + 1 / 2 < x * 1000 < IZR f + 1 ->
  round3 x = IZR (f + 1) / 1000.
Proof.
  intros H. unfold round3. rewrite (round_half_even_up f) by exact H.
  reflexivity.
Qed.

Lemma truthy_filter {A : Type} (p : A -> bool) (l : list A) :
  truthy (filter p l) = true <-> exists x, In x l /\ p x = true.
Proof.
  split.
  - destruct (filter p l) as [|x l'] eqn:E; [discriminate |].
    intros _. exists x.
    apply filter_In. rewrite E. left. reflexivity.
  - intros [x Hx]. apply filter_In in Hx.
    destruct (filter p l); [destruct Hx | reflexivity].
Qed.

Lemma truthy_filter_false {A : Type} (p : A -> bool) (l : list A) :
  truthy (filter p l) = false <-> forall x, In x l -> p x = false.
Proof.
  split.
  - intros H x Hx. destruct (p x) eqn:E; [|reflexivity].
    assert (Ht : truthy (filter p l) = true)
      by (apply truthy_filter; exists x; auto).
    congruence.
  - intros H. destruct (truthy (filter p l)) eqn:E; [|reflexivity].
    apply truthy_filter in E. destruct E as [x [Hx Hp]].
    rewrite (H x Hx) in Hp. discriminate.
Qed.

(** ** Consistency score *)

Lemma any_high_truthy (pharmacy_scores : Dict R) :
  truthy (filter (fun s => Rge_b s 0.8) (dict_values pharmacy_scores)) = true
  <-> any_high pharmacy_scores.
Proof.
  rewrite truthy_filter. unfold any_high.
  split; intros [s [Hin Hs]]; exists s; split; auto; apply Rge_b_true; auto.
Qed.

Lemma any_low_truthy (pharmacy_scores : Dict R) :
  truthy (filter (fun s => Rlt_b s 0.4) (dict_values pharmacy_scores)) = true
  <-> any_low pharmacy_scores.
Proof.
  rewrite truthy_filter. unfold any_low.
  split; intros [s [Hin Hs]]; exists s; split; auto; apply Rlt_b_true; auto.
Qed.

Lemma consistency_few (pharmacy_scores : Dict R) :
  (List.length pharmacy_scores < 2)%nat ->
  _calculate_consistency_score pharmacy_scores = 0.5.
Proof.
  intros Hn. unfold _calculate_consistency_score.
  destruct (Nat.ltb_spec (List.length pharmacy_scores) 2); [reflexivity | lia].
Qed.

Lemma consistency_several (pharmacy_scores : Dict R) (high low : bool) :
  (2 <= List.length pharmacy_scores)%nat ->
  (if high then any_high pharmacy_scores else ~ any_high pharmacy_scores) ->
  (if low then any_low pharmacy_scores else ~ any_low pharmacy_scores) ->
  _calculate_consistency_score pharmacy_scores
  = if high && low then 0.3 else if high then 0.9 else if low then 0.1 else 0.5.
Proof.
  intros Hn Hh Hl. unfold _calculate_consistency_score.
  destruct (Nat.ltb_spec (List.length pharmacy_scores) 2); [lia |].
  assert (Eh : truthy (filter (fun s => Rge_b s 0.8)
                         (dict_values pharmacy_scores)) = high).
  { destruct high.
    - apply any_high_truthy. exact Hh.
    - apply not_true_is_false. rewrite any_high_truthy. exact Hh. }
  assert (El : truthy (filter (fun s => Rlt_b s 0.4)
                         (dict_values pharmacy_scores)) = low).
  { destruct low.
    - apply any_low_truthy. exact Hl.
    - apply not_true_is_false. rewrite any_low_truthy. exact Hl. }
  rewrite Eh, El. reflexivity.
Qed.

Lemma consistency_values (pharmacy_scores : Dict R) :
  let c := _calculate_consistency_score pharmacy_scores in
  c = 0.1 \/ c = 0.3 \/ c = 0.5 \/ c = 0.9.
Proof.
  unfold _calculate_consistency_score.
  destruct (List.length pharmacy_scores <? 2)%nat; [tauto |].
  destruct (truthy (filter (fun s => Rge_b s 0.8) _));
    destruct (truthy (filter (fun s => Rlt_b s 0.4) _)); simpl; tauto.
Qed.

(** ** The aggregation domain *)

Lemma unique_In (x : string) (l : list string) : In x (unique l) <-> In x l.
Proof.
  induction l as [|y l IH]; simpl; [tauto |].
  rewrite filter_In, IH. split.
  - intros [H | [H _]]; auto.
  - intros [H | H]; auto.
    destruct (String.eqb_spec x y) as [E | E]; [left; auto | right].
    split; [exact H | reflexivity].
Qed.

Lemma pharmacy_data_In (pharmacy : string) (results_df : Frame) :
  In pharmacy (map pharmacy_number results_df)
  <-> pharmacy_data pharmacy results_df <> [].
Proof.
  unfold pharmacy_data. split.
  - intros H. apply in_map_iff in H. destruct H as [r [Hr Hin]].
    intros E.
    assert (Hf : In r (filter
                         (fun r => String.eqb (pharmacy_number r) pharmacy)
                         results_df)).
    { apply filter_In. split; [exact Hin |]. rewrite Hr.
      apply String.eqb_refl. }
    rewrite E in Hf. destruct Hf.
  - intros H.
    destruct (filter _ results_df) as [|r l] eqn:E; [congruence |].
    assert (Hr : In r (r :: l)) by (left; reflexivity).
    rewrite <- E in Hr. apply filter_In in Hr. destruct Hr as [Hin Heq].
    apply String.eqb_eq in Heq. apply in_map_iff. exists r. auto.
Qed.

(** The domain is the set of pharmacies some agent has a row for. *)
Lemma flagged_pharmacies_In (pharmacy : string) (agent_results : AgentResults) :
  In pharmacy (flagged_pharmacies agent_results)
  <-> exists entry, In entry agent_results
                    /\ pharmacy_data pharmacy (snd entry) <> [].
Proof.
  unfold flagged_pharmacies. rewrite in_flat_map.
  split; intros [entry [Hin H]]; exists entry; split; auto.
  - apply pharmacy_data_In. apply unique_In. exact H.
  - apply unique_In. apply pharmacy_data_In. exact H.
Qed.

Lemma scores_of_flagged (pharmacy : string) (agent_results : AgentResults) :
  In pharmacy (flagged_pharmacies agent_results) ->
  scores_of pharmacy agent_results <> [].
Proof.
  rewrite flagged_pharmacies_In. intros [entry [Hin Hne]] E.
  unfold scores_of in E.
  assert (H : forall x, ~ In x (flat_map
            (fun entry => match pharmacy_data pharmacy (snd entry) with
                          | [] => []
                          | first :: _ => [fraud_score first]
                          end) agent_results)).
  { rewrite E. intros x []. }
  destruct (pharmacy_data pharmacy (snd entry)) as [|r l] eqn:Ed;
    [congruence |].
  apply (H (fraud_score r)). apply in_flat_map.
  exists entry. split; [exact Hin |]. rewrite Ed. left. reflexivity.
Qed.

Lemma all_scores_flagged (pharmacy : string) (agent_results : AgentResults) :
  In pharmacy (flagged_pharmacies agent_results) ->
  all_scores agent_results <> [].
Proof.
  rewrite flagged_pharmacies_In. intros [entry [Hin Hne]] E.
  apply pharmacy_data_In in Hne. apply in_map_iff in Hne.
  destruct Hne as [r [_ Hr]].
  assert (H : In (fraud_score r) (all_scores agent_results)).
  { unfold all_scores. apply in_flat_map. exists entry.
    split; [exact Hin |]. apply in_map. exact Hr. }
  rewrite E in H. destruct H.
Qed.

(** ** Outlier score *)

Lemma sigmoid_bounds (z : R) : 0 < sigmoid z < 1.
Proof.
  unfold sigmoid. pose proof (exp_pos (- z)) as He.
  split.
  - apply Rdiv_lt_0_compat; lra.
  - apply (Rmult_lt_reg_r (1 + exp (- z))); [lra |].
    unfold Rdiv. rewrite Rmult_assoc, Rinv_l by lra. lra.
Qed.

Lemma outlier_score_bounds (pharmacy : string) (agent_results : AgentResults) :
  0 < _calculate_outlier_score pharmacy agent_results < 1.
Proof.
  unfold _calculate_outlier_score.
  destruct (negb (truthy (all_scores agent_results))); [lra |].
  destruct (Req_b _ 0); [lra |].
  destruct (negb (truthy (scores_of pharmacy agent_results))); [lra |].
  apply sigmoid_bounds.
Qed.

Lemma outlier_score_std_zero (pharmacy : string)
  (agent_results : AgentResults) :
  std (all_scores agent_results) = 0 ->
  _calculate_outlier_score pharmacy agent_results = 0.5.
Proof.
  intros Hstd. unfold _calculate_outlier_score.
  destruct (negb (truthy (all_scores agent_results))); [reflexivity |].
  apply Req_b_true in Hstd. rewrite Hstd. reflexivity.
Qed.

Lemma outlier_score_sigmoid (pharmacy : string)
  (agent_results : AgentResults) :
  In pharmacy (flagged_pharmacies agent_results) ->
  std (all_scores agent_results) <> 0 ->
  _calculate_outlier_score pharmacy agent_results
  = sigmoid ((mean (scores_of pharmacy agent_results)
              - mean (all_scores agent_results))
             / std (all_scores agent_results)).
Proof.
  intros Hin Hstd. unfold _calculate_outlier_score.
  pose proof (all_scores_flagged _ _ Hin) as Hall.
  pose proof (scores_of_flagged _ _ Hin) as Hown.
  destruct (all_scores agent_results) as [|a la] eqn:Ea; [congruence |].
  destruct (scores_of pharmacy agent_results) as [|s ls] eqn:Es;
    [congruence |].
  apply Req_b_false in Hstd. simpl truthy. simpl negb. cbv iota.
  rewrite Hstd. reflexivity.
Qed.





Lemma split_reports_std : std (all_scores split_reports) = 1 / 2.
Proof.
  unfold std, mean, sum. simpl.
  apply sqrt_lem_1; lra.
Qed.


(** ** The outlier score and the weights in binary64 *)

Module Float64Facts.
Import Floats.
Import Float64.
Local Open Scope float_scope.
Set Warnings "-inexact-float".


(** The default vector with the weight of one agent raised to 0.3: the
    normalized weights add up to 1 - 2^-53, not to 1. *)
Example normalized_weights_sum :
  sum (dict_values (update_weights default_weights [("network_agent", 0.3)]))
  = 0.9999999999999999.
Proof. reflexivity. Qed.

Set Warnings "+inexact-float".
End Float64Facts.

(** The pharmacy scored 1.0 stands one standard deviation above the mean
    of the population. *)
Example split_reports_outlier_score :
  _calculate_outlier_score "PH001" split_reports = sigmoid 1.
Proof.
  rewrite outlier_score_sigmoid.
  - rewrite split_reports_std. f_equal.
    unfold mean, sum. simpl. lra.
  - left. reflexivity.
  - rewrite split_reports_std. lra.
Qed.

(** ** Statistics of a constant population *)

Lemma sum_constant (x : R) (l : list R) :
  (forall y, In y l -> y = x) -> sum l = INR (List.length l) * x.
Proof.
  induction l as [|y l IH]; intros H.
  - rewrite sum_nil. simpl. lra.
  - rewrite sum_cons, IH by (intros z Hz; apply H; right; exact Hz).
    rewrite (H y) by (left; reflexivity).
    replace (INR (List.length (x :: l))) with (INR (List.length l) + 1)
      by (symmetry; apply S_INR).
    lra.
Qed.

Lemma mean_constant (x : R) (l : list R) :
  l <> [] -> (forall y, In y l -> y = x) -> mean l = x.
Proof.
  intros Hne H. unfold mean. rewrite (sum_constant x l H).
  assert (Hlen : INR (List.length l) <> 0).
  { apply not_0_INR. destruct l; [congruence | discriminate]. }
  field. exact Hlen.
Qed.

(** When every score of the population is the same, its standard deviation
    is 0. *)
Lemma std_constant (x : R) (l : list R) :
  l <> [] -> (forall y, In y l -> y = x) -> std l = 0.
Proof.
  intros Hne H. unfold std. rewrite (mean_constant x l Hne H).
  rewrite (mean_constant 0).
  - apply sqrt_0.
  - destruct l; [congruence | discriminate].
  - intros y Hy. apply in_map_iff in Hy. destruct Hy as [z [Hz Hin]].
    rewrite (H z Hin) in Hz. lra.
Qed.

(** ** The per-pharmacy loops *)

Lemma weighted_sum_acc (weights scores : Dict R) (a : R) (names : list string) :
  fold_left
    (fun acc entry =>
       let weight := weight_of weights (fst entry) in
       (fst acc + snd entry * weight, snd acc ++ [fst entry]))
    scores (a, names)
  = (a + weighted_reports weights scores, names ++ dict_keys scores).
Proof.
  revert a names. unfold weighted_reports.
  induction scores as [|e scores IH]; intros a names; simpl.
  - rewrite sum_nil, app_nil_r. f_equal. lra.
  - rewrite IH. simpl fst. simpl snd. rewrite sum_cons, <- app_assoc.
    f_equal. lra.
Qed.

Lemma weighted_sum_eq (weights scores : Dict R) :
  weighted_sum weights scores
  = (weighted_reports weights scores, dict_keys scores).
Proof.
  unfold weighted_sum. rewrite weighted_sum_acc. f_equal. lra.
Qed.

Lemma dict_set_fresh {V : Type} (k : string) (v : V) (d : Dict V) :
  ~ In k (dict_keys d) -> dict_set k v d = d ++ [(k, v)].
Proof.
  induction d as [|[k' v'] d IH]; intros Hk; simpl; [reflexivity |].
  destruct (String.eqb_spec k k') as [E | E].
  - exfalso. apply Hk. left. simpl. auto.
  - rewrite IH; [reflexivity |]. intros Hin. apply Hk. right. exact Hin.
Qed.

Lemma dict_keys_map_snd {V W : Type} (g : V -> W) (d : Dict V) :
  dict_keys (map (fun e => (fst e, g (snd e))) d) = dict_keys d.
Proof.
  unfold dict_keys. rewrite map_map. reflexivity.
Qed.

Lemma collect_findings_acc (pharmacy : string) (agent_results : AgentResults)
  (seen : Dict Row) :
  NoDup (dict_keys seen ++ dict_keys agent_results) ->
  fold_left
    (fun acc entry =>
       let '(pharmacy_scores, pharmacy_reasons, pharmacy_details) := acc in
       match pharmacy_data pharmacy (snd entry) with
       | [] => acc
       | first :: _ =>
           (dict_set (fst entry) (fraud_score first) pharmacy_scores,
            dict_set (fst entry) (reason first) pharmacy_reasons,
            dict_set (fst entry) first pharmacy_details)
       end)
    agent_results
    (map (fun e => (fst e, fraud_score (snd e))) seen,
     map (fun e => (fst e, reason (snd e))) seen,
     seen)
  = (map (fun e => (fst e, fraud_score (snd e)))
       (seen ++ first_rows pharmacy agent_results),
     map (fun e => (fst e, reason (snd e)))
       (seen ++ first_rows pharmacy agent_results),
     seen ++ first_rows pharmacy agent_results).
Proof.
  revert seen.
  induction agent_results as [|[name frame] rest IH]; intros seen Hnd.
  - simpl. rewrite app_nil_r. reflexivity.
  - assert (Hfresh : ~ In name (dict_keys seen)).
    { intros Hin. apply NoDup_app_remove_l in Hnd as Hr.
      simpl in Hnd.
      apply (NoDup_remove_2 (dict_keys seen) (dict_keys rest) name) in Hnd.
      apply Hnd. apply in_or_app. left. exact Hin. }
    simpl fold_left. simpl first_rows. simpl snd. simpl fst.
    destruct (pharmacy_data pharmacy frame) as [|first others].
    + simpl app. apply IH.
      simpl in Hnd. apply NoDup_remove_1 in Hnd. exact Hnd.
    + rewrite !dict_set_fresh
        by (rewrite ?dict_keys_map_snd; exact Hfresh).
      replace (map (fun e => (fst e, fraud_score (snd e))) seen
               ++ [(name, fraud_score first)])
        with (map (fun e => (fst e, fraud_score (snd e)))
                (seen ++ [(name, first)]))
        by (rewrite map_app; reflexivity).
      replace (map (fun e => (fst e, reason (snd e))) seen
               ++ [(name, reason first)])
        with (map (fun e => (fst e, reason (snd e)))
                (seen ++ [(name, first)]))
        by (rewrite map_app; reflexivity).
      rewrite IH.
      * simpl app. rewrite <- !app_assoc. reflexivity.
      * unfold dict_keys in *. rewrite map_app. simpl.
        rewrite <- app_assoc. simpl. exact Hnd.
Qed.

(** With pairwise distinct agent names, the three dictionaries hold the
    first row of each reporting agent, in the order of [agent_results]. *)
Lemma collect_findings_eq (pharmacy : string) (agent_results : AgentResults) :
  NoDup (dict_keys agent_results) ->
  collect_findings pharmacy agent_results
  = (reports_of pharmacy agent_results,
     map (fun e => (fst e, reason (snd e)))
       (first_rows pharmacy agent_results),
     first_rows pharmacy agent_results).
Proof.
  intros Hnd. unfold collect_findings, reports_of.
  apply (collect_findings_acc pharmacy agent_results []). exact Hnd.
Qed.

(** ** The row of one pharmacy *)

(** The row [_calculate_single_pharmacy_score] returns, key by key. *)
Lemma single_pharmacy_row (self : WeightedScoringSystem) (pharmacy : string)
  (agent_results : AgentResults) (df : Dataset) (t : Tracker) :
  let found := collect_findings pharmacy agent_results in
  let pharmacy_scores := fst (fst found) in
  let pharmacy_reasons := snd (fst found) in
  let pharmacy_details := snd found in
  let final := final_score (current_weights self) pharmacy agent_results in
  let transactions := _get_pharmacy_transactions pharmacy df in
  let coverage_detail (field : Row -> string) :=
    match dict_get "coverage_agent" pharmacy_details with
    | Some row => field row
    | None => "Unknown"
    end in
  fst (_calculate_single_pharmacy_score self pharmacy agent_results df t)
  = [ ("pharmacy_number", VStr pharmacy);
      ("pharmacy_name", VStr (coverage_detail pharmacy_name));
      ("pharmacy_city", VStr (coverage_detail pharmacy_city));
      ("pharmacy_state", VStr (coverage_detail pharmacy_state));
      ("weighted_score", VFloat (round3 final));
      ("contributing_agents", VNames (dict_keys pharmacy_scores));
      ("agent_scores", VScores pharmacy_scores);
      ("agent_reasons", VReasons pharmacy_reasons);
      ("consistency_score",
        VFloat (round3 (_calculate_consistency_score pharmacy_scores)));
      ("outlier_score",
        VFloat (round3 (_calculate_outlier_score pharmacy agent_results)));
      ("fraud_explanation",
        VExplanation
          (_generate_fraud_explanation pharmacy_scores pharmacy_reasons
             transactions));
      ("transaction_count", VInt (Z.of_nat (List.length transactions)));
      ("risk_level", VStr (_determine_risk_level final)) ].
Proof.
  unfold _calculate_single_pharmacy_score, final_score.
  destruct (collect_findings pharmacy agent_results)
    as [[scores reasons] details].
  cbn [fst snd]. rewrite weighted_sum_eq. reflexivity.
Qed.

(** The tracker receives one event and does not influence the row. *)
Lemma single_pharmacy_tracker (self : WeightedScoringSystem)
  (pharmacy : string) (agent_results : AgentResults) (df : Dataset)
  (t t' : Tracker) :
  fst (_calculate_single_pharmacy_score self pharmacy agent_results df t)
  = fst (_calculate_single_pharmacy_score self pharmacy agent_results df t').
Proof.
  rewrite !single_pharmacy_row. reflexivity.
Qed.

(** The unrounded final score in terms of the reporting units. *)
Lemma final_score_reports (weights : Dict R) (pharmacy : string)
  (agent_results : AgentResults) :
  NoDup (dict_keys agent_results) ->
  final_score weights pharmacy agent_results
  = final_score_of
      (weighted_reports weights (reports_of pharmacy agent_results))
      (_calculate_consistency_score (reports_of pharmacy agent_results))
      (_calculate_outlier_score pharmacy agent_results).
Proof.
  intros Hnd. unfold final_score.
  rewrite (collect_findings_eq pharmacy agent_results Hnd). simpl fst.
  rewrite weighted_sum_eq. reflexivity.
Qed.

(** ** The two example populations *)

Lemma single_report_final_score :
  final_score default_weights "PH001" single_report = 0.325.
Proof.
  assert (Hnd : NoDup (dict_keys single_report)).
  { repeat constructor. simpl. tauto. }
  rewrite (final_score_reports _ _ _ Hnd).
  assert (Hr : reports_of "PH001" single_report = [("coverage_agent", 1)])
    by reflexivity.
  rewrite Hr.
  rewrite consistency_few by (simpl; lia).
  rewrite (outlier_score_std_zero "PH001" single_report).
  - unfold final_score_of, weighted_reports, sum, weight_of. simpl. lra.
  - apply (std_constant 1); [discriminate |].
    simpl. intros y [H | []]. symmetry. exact H.
Qed.

Lemma unanimous_reports_final_score :
  final_score default_weights "PH001" unanimous_reports = 0.79959.
Proof.
  assert (Hnd : NoDup (dict_keys unanimous_reports)).
  { repeat constructor; simpl; intuition discriminate. }
  rewrite (final_score_reports _ _ _ Hnd).
  assert (Hr : reports_of "PH001" unanimous_reports
               = [ ("coverage_agent", 0.8137);
                   ("patient_flip_agent", 0.8137);
                   ("high_dollar_agent", 0.8137);
                   ("rejection_agent", 0.8137);
                   ("network_agent", 0.8137) ])
    by reflexivity.
  rewrite Hr.
  rewrite (consistency_several _ true false).
  - rewrite (outlier_score_std_zero "PH001" unanimous_reports).
    + unfold final_score_of, weighted_reports, sum, weight_of. simpl. lra.
    + apply (std_constant 0.8137); [discriminate |].
      simpl. intuition.
  - simpl. lia.
  - exists 0.8137. split; [left; reflexivity | lra].
  - intros [s [Hin Hs]]. simpl in Hin.
    repeat (destruct Hin as [Hin | Hin]; [subst s; lra |]). destruct Hin.
Qed.

Lemma row_weighted_score (self : WeightedScoringSystem) (pharmacy : string)
  (agent_results : AgentResults) (df : Dataset) (t : Tracker) :
  dict_get "weighted_score"
    (fst (_calculate_single_pharmacy_score self pharmacy agent_results df t))
  = Some (VFloat
            (round3 (final_score (current_weights self) pharmacy
                       agent_results))).
Proof. rewrite single_pharmacy_row. reflexivity. Qed.

Lemma row_risk_level (self : WeightedScoringSystem) (pharmacy : string)
  (agent_results : AgentResults) (df : Dataset) (t : Tracker) :
  dict_get "risk_level"
    (fst (_calculate_single_pharmacy_score self pharmacy agent_results df t))
  = Some (VStr
            (_determine_risk_level
               (final_score (current_weights self) pharmacy agent_results))).
Proof. rewrite single_pharmacy_row. reflexivity. Qed.

Lemma row_keys (self : WeightedScoringSystem) (pharmacy : string)
  (agent_results : AgentResults) (df : Dataset) (t : Tracker) :
  dict_keys
    (fst (_calculate_single_pharmacy_score self pharmacy agent_results df t))
  = [ "pharmacy_number"; "pharmacy_name"; "pharmacy_city"; "pharmacy_state";
      "weighted_score"; "contributing_agents"; "agent_scores";
      "agent_reasons"; "consistency_score"; "outlier_score";
      "fraud_explanation"; "transaction_count"; "risk_level" ].
Proof. rewrite single_pharmacy_row. reflexivity. Qed.

(** ** Weighted score *)

(** C1 (as the code has it): the weighted sum computed for a pharmacy is the
    sum, over the agents that reported a finding for it, of score times
    weight, with no renormalization over the reporting agents: a single
    report of 1.0 by an agent of weight 0.25 gives 0.25.  The row does not
    carry this sum: its [weighted_score] is the final score
    0.7 x sum + 0.2 x consistency + 0.1 x outlier, rounded to 3 decimals. *)
Theorem weighted_score_of_reports (self : WeightedScoringSystem)
  (pharmacy : string) (agent_results : AgentResults) (df : Dataset)
  (t : Tracker) :
  NoDup (dict_keys agent_results) ->
  let weights := current_weights self in
  let reports := reports_of pharmacy agent_results in
  let row :=
    fst (_calculate_single_pharmacy_score self pharmacy agent_results df t) in
  weighted_sum weights (fst (fst (collect_findings pharmacy agent_results)))
  = (sum (map (fun e => snd e * weight_of weights (fst e)) reports),
     dict_keys reports)
  /\ (forall unit, reports = [(unit, 1)] -> weight_of weights unit = 0.25 ->
      sum (map (fun e => snd e * weight_of weights (fst e)) reports) = 0.25)
  /\ dict_get "weighted_score" row
     = Some (VFloat
               (round3
                  (sum (map (fun e => snd e * weight_of weights (fst e))
                          reports) * 0.7
                   + _calculate_consistency_score reports * 0.2
                   + _calculate_outlier_score pharmacy agent_results * 0.1))).
Proof.
  intros Hnd weights reports row. subst weights reports row.
  repeat split.
  - rewrite (collect_findings_eq pharmacy agent_results Hnd). simpl fst.
    apply weighted_sum_eq.
  - intros unit Hr Hw. rewrite Hr. simpl. rewrite sum_cons, sum_nil, Hw. lra.
  - rewrite row_weighted_score, (final_score_reports _ _ _ Hnd).
    reflexivity.
Qed.

Lemma weighted_score_of_reports_witness :
  dict_get "weighted_score"
    (fst (_calculate_single_pharmacy_score default_system "PH001"
            single_report [] []))
  = Some (VFloat
            (round3
               (sum (map (fun e => snd e * weight_of default_weights (fst e))
                       (reports_of "PH001" single_report)) * 0.7
                + _calculate_consistency_score
                    (reports_of "PH001" single_report) * 0.2
                + _calculate_outlier_score "PH001" single_report * 0.1))).
Proof.
  apply (weighted_score_of_reports default_system "PH001" single_report [] []).
  repeat constructor. simpl. tauto.
Defined.

(** C1, counterexample: one agent of normalized weight 0.25 reports 1.0 for
    the pharmacy and no other agent reports; the row's [weighted_score] is
    0.325, not 0.25. *)
Lemma single_report_weighted_score_field :
  reports_of "PH001" single_report = [("coverage_agent", 1)]
  /\ weight_of (current_weights default_system) "coverage_agent" = 0.25
  /\ sum (dict_values (current_weights default_system)) = 1
  /\ dict_get "weighted_score"
       (fst (_calculate_single_pharmacy_score default_system "PH001"
               single_report [] []))
     = Some (VFloat 0.325)
  /\ 0.325 <> 0.25.
Proof.
  repeat split.
  - unfold sum. simpl. lra.
  - rewrite row_weighted_score.
    change (current_weights default_system) with default_weights.
    rewrite single_report_final_score.
    replace 0.325 with (IZR 325 / 1000) by lra.
    rewrite round3_thousandths. reflexivity.
  - lra.
Qed.

(** ** The fields of a row *)

(** C2 (as the code has it): a row has exactly thirteen keys, in this
    order; there is no key for the final score, which is exported rounded
    under [weighted_score]. *)
Theorem aggregated_row_fields (self : WeightedScoringSystem)
  (pharmacy : string) (agent_results : AgentResults) (df : Dataset)
  (t : Tracker) :
  let row :=
    fst (_calculate_single_pharmacy_score self pharmacy agent_results df t) in
  dict_keys row
  = [ "pharmacy_number"; "pharmacy_name"; "pharmacy_city"; "pharmacy_state";
      "weighted_score"; "contributing_agents"; "agent_scores";
      "agent_reasons"; "consistency_score"; "outlier_score";
      "fraud_explanation"; "transaction_count"; "risk_level" ]
  /\ dict_get "final_score" row = None
  /\ dict_get "pharmacy_number" row = Some (VStr pharmacy)
  /\ dict_get "weighted_score" row
     = Some (VFloat
               (round3 (final_score (current_weights self) pharmacy
                          agent_results))).
Proof.
  intros row. subst row. repeat split.
  - apply row_keys.
  - rewrite single_pharmacy_row. reflexivity.
  - rewrite single_pharmacy_row. reflexivity.
  - apply row_weighted_score.
Qed.

(** C2, counterexample: the row of the single-report population has
    thirteen keys, none of them [final_score]; they are not the eight
    fields of the specification. *)
Lemma single_report_row_fields :
  let row :=
    fst (_calculate_single_pharmacy_score default_system "PH001"
           single_report [] []) in
  List.length (dict_keys row) = 13%nat
  /\ List.length spec_fields = 8%nat
  /\ In "final_score" spec_fields
  /\ dict_get "final_score" row = None
  /\ dict_keys row <> spec_fields.
Proof.
  cbv zeta. rewrite row_keys.
  split; [reflexivity |]. split; [reflexivity |].
  split; [simpl; tauto |].
  split; [rewrite single_pharmacy_row; reflexivity |].
  unfold spec_fields. discriminate.
Qed.

(** ** Consistency score of a row *)

Lemma round3_consistency (pharmacy_scores : Dict R) :
  round3 (_calculate_consistency_score pharmacy_scores)
  = _calculate_consistency_score pharmacy_scores.
Proof.
  destruct (consistency_values pharmacy_scores) as [H | [H | [H | H]]];
    rewrite H.
  - replace 0.1 with (IZR 100 / 1000) by lra. apply round3_thousandths.
  - replace 0.3 with (IZR 300 / 1000) by lra. apply round3_thousandths.
  - replace 0.5 with (IZR 500 / 1000) by lra. apply round3_thousandths.
  - replace 0.9 with (IZR 900 / 1000) by lra. apply round3_thousandths.
Qed.

(** C4: the consistency score follows the five cases of the specification
    and is one of 0.1, 0.3, 0.5, 0.9; the row of a pharmacy exports it
    unchanged by the rounding. *)
Theorem consistency_score_cases :
  (forall pharmacy_scores : Dict R,
      let n := List.length pharmacy_scores in
      let c := _calculate_consistency_score pharmacy_scores in
      ((n < 2)%nat -> c = 0.5)
      /\ ((2 <= n)%nat -> any_high pharmacy_scores ->
          any_low pharmacy_scores -> c = 0.3)
      /\ ((2 <= n)%nat -> any_high pharmacy_scores ->
          ~ any_low pharmacy_scores -> c = 0.9)
      /\ ((2 <= n)%nat -> ~ any_high pharmacy_scores ->
          any_low pharmacy_scores -> c = 0.1)
      /\ ((2 <= n)%nat -> ~ any_high pharmacy_scores ->
          ~ any_low pharmacy_scores -> c = 0.5)
      /\ (c = 0.1 \/ c = 0.3 \/ c = 0.5 \/ c = 0.9))
  /\ (forall (self : WeightedScoringSystem) (pharmacy : string)
             (agent_results : AgentResults) (df : Dataset) (t : Tracker),
         dict_get "consistency_score"
           (fst (_calculate_single_pharmacy_score self pharmacy
                   agent_results df t))
         = Some (VFloat
                   (_calculate_consistency_score
                      (fst (fst (collect_findings pharmacy
                                   agent_results)))))).
Proof.
  split.
  - intros pharmacy_scores n c. subst n c. repeat split.
    + apply consistency_few.
    + intros Hn Hh Hl.
      apply (consistency_several pharmacy_scores true true Hn Hh Hl).
    + intros Hn Hh Hl.
      apply (consistency_several pharmacy_scores true false Hn Hh Hl).
    + intros Hn Hh Hl.
      apply (consistency_several pharmacy_scores false true Hn Hh Hl).
    + intros Hn Hh Hl.
      apply (consistency_several pharmacy_scores false false Hn Hh Hl).
    + apply consistency_values.
  - intros self pharmacy agent_results df t.
    rewrite single_pharmacy_row. cbv zeta. simpl dict_get.
    rewrite round3_consistency. reflexivity.
Qed.

(** Three agents scoring 0.9, 0.85 and 0.2: conflicting signals. *)
Example consistency_conflicting :
  _calculate_consistency_score
    [ ("coverage_agent", 0.9); ("patient_flip_agent", 0.85);
      ("network_agent", 0.2) ] = 0.3.
Proof.
  apply (consistency_several _ true true).
  - simpl. lia.
  - exists 0.9. split; [left; reflexivity | lra].
  - exists 0.2. split; [right; right; left; reflexivity | lra].
Qed.

(** ** Risk level *)

(** C6: the risk level is the step function of the score with bands
    [0.8, +oo), [0.6, 0.8), [0.4, 0.6) and (-oo, 0.4), and the level of a
    row is the one of its final score. *)
Theorem risk_level_bands :
  (forall score : R,
      (0.8 <= score -> _determine_risk_level score = "HIGH RISK")
      /\ (0.6 <= score < 0.8 -> _determine_risk_level score = "MEDIUM RISK")
      /\ (0.4 <= score < 0.6 -> _determine_risk_level score = "LOW RISK")
      /\ (score < 0.4 -> _determine_risk_level score = "VERY LOW RISK"))
  /\ (forall (self : WeightedScoringSystem) (pharmacy : string)
             (agent_results : AgentResults) (df : Dataset) (t : Tracker),
         dict_get "risk_level"
           (fst (_calculate_single_pharmacy_score self pharmacy
                   agent_results df t))
         = Some (VStr
                   (_determine_risk_level
                      (final_score (current_weights self) pharmacy
                         agent_results)))).
Proof.
  split.
  - intros score. repeat split; intros H; decide_bands.
  - intros. apply row_risk_level.
Qed.

Example risk_level_at_boundaries :
  _determine_risk_level 0.8 = "HIGH RISK"
  /\ _determine_risk_level 0.6 = "MEDIUM RISK"
  /\ _determine_risk_level 0.4 = "LOW RISK"
  /\ _determine_risk_level 0.399 = "VERY LOW RISK".
Proof.
  repeat split; decide_bands.
Qed.

(** ** Rounded score and risk level *)

(** C10: the risk level is taken from the unrounded final score while the
    exported scores are rounded to 3 decimals; for the unanimous population
    the unrounded final score is 0.79959, the exported score is 0.8, a
    value of the HIGH band, and the risk level is MEDIUM RISK. *)
Theorem risk_level_from_unrounded_score :
  (forall (self : WeightedScoringSystem) (pharmacy : string)
          (agent_results : AgentResults) (df : Dataset) (t : Tracker),
      let row :=
        fst (_calculate_single_pharmacy_score self pharmacy agent_results
               df t) in
      let final := final_score (current_weights self) pharmacy agent_results in
      let pharmacy_scores :=
        fst (fst (collect_findings pharmacy agent_results)) in
      dict_get "risk_level" row = Some (VStr (_determine_risk_level final))
      /\ dict_get "weighted_score" row = Some (VFloat (round3 final))
      /\ dict_get "consistency_score" row
         = Some (VFloat
                   (round3 (_calculate_consistency_score pharmacy_scores)))
      /\ dict_get "outlier_score" row
         = Some (VFloat
                   (round3 (_calculate_outlier_score pharmacy agent_results))))
  /\ (let row :=
        fst (_calculate_single_pharmacy_score default_system "PH001"
               unanimous_reports [] []) in
      final_score default_weights "PH001" unanimous_reports = 0.79959
      /\ dict_get "weighted_score" row = Some (VFloat 0.8)
      /\ dict_get "risk_level" row = Some (VStr "MEDIUM RISK")
      /\ _determine_risk_level 0.8 = "HIGH RISK").
Proof.
  split.
  - intros self pharmacy agent_results df t row final pharmacy_scores.
    subst row final pharmacy_scores. repeat split.
    + apply row_risk_level.
    + apply row_weighted_score.
    + rewrite single_pharmacy_row. reflexivity.
    + rewrite single_pharmacy_row. reflexivity.
  - cbv zeta. repeat split.
    + apply unanimous_reports_final_score.
    + rewrite row_weighted_score.
      change (current_weights default_system) with default_weights.
      rewrite unanimous_reports_final_score.
      rewrite (round3_up 799) by lra.
      do 2 f_equal. simpl. lra.
    + rewrite row_risk_level.
      change (current_weights default_system) with default_weights.
      rewrite unanimous_reports_final_score.
      do 2 f_equal. decide_bands.
    + decide_bands.
Qed.

(** ** Determinism of the aggregation *)

Lemma mapM_fst {A B : Type} (f : A -> M B) (l : list A) (t : Tracker) :
  (forall a t1 t2, fst (f a t1) = fst (f a t2)) ->
  fst (mapM f l t) = map (fun a => fst (f a [])) l.
Proof.
  intros Hf. revert t.
  induction l as [|a l IH]; intros t; simpl; [reflexivity |].
  unfold bind.
  destruct (f a t) as [b t1] eqn:Ea.
  destruct (mapM f l t1) as [bs t2] eqn:El.
  simpl. f_equal.
  - rewrite (Hf a [] t), Ea. reflexivity.
  - rewrite <- (IH t1), El. reflexivity.
Qed.

(** The frame of the aggregation, whatever the tracker holds. *)
Lemma calculate_weighted_scores_fst (set_iter : list string -> list string)
  (self : WeightedScoringSystem) (agent_results : AgentResults)
  (df : Dataset) (t : Tracker) :
  fst (calculate_weighted_scores set_iter self agent_results df t)
  = map
      (fun pharmacy =>
         fst (_calculate_single_pharmacy_score self pharmacy agent_results
                df []))
      (set_iter (flagged_pharmacies agent_results)).
Proof.
  transitivity
    (fst (mapM
            (fun pharmacy =>
               _calculate_single_pharmacy_score self pharmacy agent_results
                 df)
            (set_iter (flagged_pharmacies agent_results)) t)).
  - unfold calculate_weighted_scores, bind.
    destruct (mapM _ _ t) as [rows t1]. reflexivity.
  - apply mapM_fst. intros a t1 t2. apply single_pharmacy_tracker.
Qed.

Lemma record_of_row (self : WeightedScoringSystem) (pharmacy : string)
  (agent_results : AgentResults) (df : Dataset) (t : Tracker) :
  fst (_calculate_single_pharmacy_score self pharmacy agent_results df t)
  = record_of (current_weights self) agent_results df pharmacy.
Proof.
  unfold record_of. rewrite !single_pharmacy_row. reflexivity.
Qed.

Lemma calculate_weighted_scores_records
  (set_iter : list string -> list string) (self : WeightedScoringSystem)
  (agent_results : AgentResults) (df : Dataset) (t : Tracker) :
  fst (calculate_weighted_scores set_iter self agent_results df t)
  = map (record_of (current_weights self) agent_results df)
      (set_iter (flagged_pharmacies agent_results)).
Proof.
  rewrite calculate_weighted_scores_fst. apply map_ext. intros pharmacy.
  apply record_of_row.
Qed.

Lemma record_of_pharmacy (weights : Dict R) (agent_results : AgentResults)
  (df : Dataset) (pharmacy : string) :
  dict_get "pharmacy_number" (record_of weights agent_results df pharmacy)
  = Some (VStr pharmacy).
Proof.
  unfold record_of. rewrite single_pharmacy_row. reflexivity.
Qed.

Lemma records_order (weights : Dict R) (agent_results : AgentResults)
  (df : Dataset) (l l' : list string) :
  map (record_of weights agent_results df) l
  = map (record_of weights agent_results df) l' ->
  l = l'.
Proof.
  revert l'. induction l as [|p l IH]; intros [|p' l'] H; simpl in H;
    try discriminate; [reflexivity |].
  injection H as Hrow Hrest.
  f_equal; [| apply IH; exact Hrest].
  pose proof (record_of_pharmacy weights agent_results df p) as Hp.
  rewrite Hrow, record_of_pharmacy in Hp. congruence.
Qed.

(** C8 (as the code has it): two runs of the aggregation on the same
    finding map, dataset and weight vector, whatever the tracker holds and
    in whatever order each run visits the set of pharmacies, return the
    same record for every pharmacy, a function of those inputs: the two
    lists hold the same records, and they are the same list exactly when
    the two runs visit the set in the same order. *)
Theorem aggregation_records_determined
  (set_iter set_iter' : list string -> list string)
  (self self' : WeightedScoringSystem) (agent_results : AgentResults)
  (df : Dataset) (t t' : Tracker) :
  (forall l, Permutation (set_iter l) (unique l)) ->
  (forall l, Permutation (set_iter' l) (unique l)) ->
  current_weights self' = current_weights self ->
  let pharmacies := flagged_pharmacies agent_results in
  let record := record_of (current_weights self) agent_results df in
  let first :=
    fst (calculate_weighted_scores set_iter self agent_results df t) in
  let second :=
    fst (calculate_weighted_scores set_iter' self' agent_results df t') in
  first = map record (set_iter pharmacies)
  /\ second = map record (set_iter' pharmacies)
  /\ Permutation first second
  /\ (first = second <-> set_iter pharmacies = set_iter' pharmacies).
Proof.
  intros Hperm Hperm' Hw pharmacies record first second.
  assert (H1 : first = map record (set_iter pharmacies))
    by apply calculate_weighted_scores_records.
  assert (H2 : second = map record (set_iter' pharmacies)).
  { subst second record. rewrite calculate_weighted_scores_records, Hw.
    reflexivity. }
  split; [exact H1 |]. split; [exact H2 |]. split.
  - rewrite H1, H2. apply Permutation_map.
    apply perm_trans with (unique pharmacies); [apply Hperm |].
    apply Permutation_sym, Hperm'.
  - rewrite H1, H2. split.
    + apply records_order.
    + intros E. rewrite E. reflexivity.
Qed.

Lemma aggregation_records_determined_witness :
  Permutation
    (fst (calculate_weighted_scores unique default_system split_reports
            one_claim []))
    (fst (calculate_weighted_scores (fun l => rev (unique l)) default_system
            split_reports one_claim [])).
Proof.
  apply (aggregation_records_determined unique (fun l => rev (unique l))
           default_system default_system split_reports one_claim [] []).
  - intros l. apply Permutation_refl.
  - intros l. apply Permutation_sym, Permutation_rev.
  - reflexivity.
Defined.

(** C8, counterexample: the same finding map, dataset and weights, and two
    orders in which the set of the two pharmacies may be visited; one run
    returns the record of PH001 first, the other the record of PH002. *)
Lemma aggregation_order_follows_set_order :
  (forall l, Permutation (rev (unique l)) (unique l))
  /\ map (dict_get "pharmacy_number")
       (fst (calculate_weighted_scores unique default_system split_reports
               one_claim []))
     = [Some (VStr "PH001"); Some (VStr "PH002")]
  /\ map (dict_get "pharmacy_number")
       (fst (calculate_weighted_scores (fun l => rev (unique l))
               default_system split_reports one_claim []))
     = [Some (VStr "PH002"); Some (VStr "PH001")].
Proof.
  split; [intros l; apply Permutation_sym, Permutation_rev |].
  rewrite !calculate_weighted_scores_records, !map_map.
  split.
  - transitivity (map (fun p => Some (VStr p)) ["PH001"; "PH002"]);
      [| reflexivity].
    apply map_ext. intros p. apply record_of_pharmacy.
  - transitivity (map (fun p => Some (VStr p)) ["PH002"; "PH001"]);
      [| reflexivity].
    apply map_ext. intros p. apply record_of_pharmacy.
Qed.

(** ** Sorting by decreasing key *)

Lemma insert_desc_perm (x : R * ResultRow) (l : list (R * ResultRow)) :
  Permutation (insert_desc x l) (x :: l).
Proof.
  induction l as [|y l IH]; simpl; [apply Permutation_refl |].
  destruct (Rle_dec (fst y) (fst x)); [apply Permutation_refl |].
  apply perm_trans with (y :: x :: l); [| apply perm_swap].
  apply perm_skip. exact IH.
Qed.

Lemma sort_desc_cons (x : R * ResultRow) (l : list (R * ResultRow)) :
  sort_desc (x :: l) = insert_desc x (sort_desc l).
Proof. reflexivity. Qed.

Lemma sort_desc_perm (l : list (R * ResultRow)) : Permutation (sort_desc l) l.
Proof.
  induction l as [|x l IH]; [apply perm_nil |].
  rewrite sort_desc_cons.
  apply perm_trans with (x :: sort_desc l); [apply insert_desc_perm |].
  apply perm_skip. exact IH.
Qed.

Lemma insert_desc_sorted (x : R * ResultRow) (l : list (R * ResultRow)) :
  StronglySorted key_desc l -> StronglySorted key_desc (insert_desc x l).
Proof.
  induction l as [|y l IH]; intros Hs; simpl.
  - constructor; constructor.
  - apply StronglySorted_inv in Hs. destruct Hs as [Hl Hy].
    destruct (Rle_dec (fst y) (fst x)) as [Hle | Hgt].
    + constructor; [constructor; assumption |].
      constructor; [exact Hle |].
      apply Forall_impl with (P := key_desc y); [| exact Hy].
      unfold key_desc. intros z Hz. lra.
    + constructor; [apply IH; exact Hl |].
      apply (Permutation_Forall (Permutation_sym (insert_desc_perm x l))).
      constructor; [unfold key_desc; lra | exact Hy].
Qed.

Lemma sort_desc_sorted (l : list (R * ResultRow)) :
  StronglySorted key_desc (sort_desc l).
Proof.
  induction l as [|x l IH]; [constructor |].
  rewrite sort_desc_cons. apply insert_desc_sorted. exact IH.
Qed.

Lemma sort_reversing_ties_perm (l : list (R * ResultRow)) :
  Permutation (sort_reversing_ties l) l.
Proof.
  unfold sort_reversing_ties.
  apply perm_trans with (rev l); [apply sort_desc_perm |].
  apply Permutation_sym, Permutation_rev.
Qed.

Lemma sort_reversing_ties_sorted (l : list (R * ResultRow)) :
  StronglySorted key_desc (sort_reversing_ties l).
Proof. apply sort_desc_sorted. Qed.

Lemma insert_desc_front (x y : R * ResultRow) (l : list (R * ResultRow)) :
  fst y <= fst x -> insert_desc x (y :: l) = x :: y :: l.
Proof.
  intros H. simpl. destruct (Rle_dec (fst y) (fst x)); [reflexivity | lra].
Qed.

Lemma sort_reversing_two_ties (k : R) (a b : ResultRow) :
  sort_reversing_ties [(k, a); (k, b)] = [(k, b); (k, a)].
Proof.
  unfold sort_reversing_ties. cbn [rev app].
  rewrite !sort_desc_cons. unfold sort_desc. cbn [fold_right].
  cbn [insert_desc].
  apply insert_desc_front. cbn [fst]. lra.
Qed.

(** Two lists in decreasing order with the same rows and pairwise distinct
    keys are the same list. *)
Lemma sorted_perm_unique (l l' : list (R * ResultRow)) :
  StronglySorted key_desc l -> StronglySorted key_desc l' ->
  Permutation l l' -> NoDup (map fst l) -> l = l'.
Proof.
  revert l'. induction l as [|x xs IH]; intros l' Hs Hs' Hp Hnd.
  - apply Permutation_nil in Hp. symmetry. exact Hp.
  - destruct l' as [|y ys].
    + apply Permutation_sym, Permutation_nil in Hp. discriminate.
    + apply StronglySorted_inv in Hs. destruct Hs as [Hxs Hx].
      apply StronglySorted_inv in Hs'. destruct Hs' as [Hys Hy].
      simpl in Hnd. apply NoDup_cons_iff in Hnd. destruct Hnd as [Hfresh Hnd].
      rewrite Forall_forall in Hx, Hy. unfold key_desc in Hx, Hy.
      assert (Hyx : y = x).
      { assert (Hin : In y (x :: xs)).
        { apply (Permutation_in _ (Permutation_sym Hp)). left. reflexivity. }
        destruct Hin as [E | Hin]; [symmetry; exact E |].
        assert (Hin' : In x (y :: ys)).
        { apply (Permutation_in _ Hp). left. reflexivity. }
        destruct Hin' as [E | Hin']; [exact E |].
        exfalso. apply Hfresh.
        assert (E : fst x = fst y).
        { apply Rle_antisym; [apply Hy; exact Hin' | apply Hx; exact Hin]. }
        rewrite E. apply in_map. exact Hin. }
      subst y. f_equal.
      apply IH; try assumption.
      apply Permutation_cons_inv with (a := x). exact Hp.
Qed.

Lemma key_desc_keys (l : list (R * ResultRow)) :
  StronglySorted key_desc l
  <-> StronglySorted (fun a b => b <= a) (map fst l).
Proof.
  induction l as [|x l IH]; simpl.
  - split; constructor.
  - split; intros Hs; apply StronglySorted_inv in Hs; destruct Hs as [Hl Hx];
      (constructor; [apply IH; exact Hl |]).
    + apply Forall_map. exact Hx.
    + apply Forall_map in Hx. exact Hx.
Qed.

Lemma descending_scores (frame : ResultFrame) :
  descending frame
  <-> StronglySorted (fun a b => b <= a) (map score_of_row frame).
Proof.
  unfold descending. induction frame as [|x l IH]; simpl.
  - split; constructor.
  - split; intros Hs; apply StronglySorted_inv in Hs; destruct Hs as [Hl Hx];
      (constructor; [apply IH; exact Hl |]).
    + apply Forall_map. exact Hx.
    + apply Forall_map in Hx. exact Hx.
Qed.

(** ** Columns of a frame *)

Lemma traverse_combine (col : string) (frame : ResultFrame) (keys : list R) :
  traverse (get_float col) frame = Some keys ->
  List.length keys = List.length frame /\ keyed col (combine keys frame).
Proof.
  revert keys. induction frame as [|row frame IH]; intros keys H; simpl in H.
  - inversion H. split; [reflexivity | constructor].
  - destruct (get_float col row) as [k |] eqn:Ek; [| discriminate].
    destruct (traverse (get_float col) frame) as [ks |] eqn:Et;
      [| discriminate].
    inversion H. subst keys. destruct (IH ks eq_refl) as [Hlen Hk].
    split; [simpl; congruence |].
    simpl. constructor; [exact Ek | exact Hk].
Qed.

Lemma traverse_keyed (col : string) (l : list (R * ResultRow)) :
  keyed col l -> traverse (get_float col) (map snd l) = Some (map fst l).
Proof.
  induction 1 as [|kr l Hk _ IH]; simpl; [reflexivity |].
  rewrite Hk, IH. reflexivity.
Qed.

Lemma combine_fst_snd {A B : Type} (l : list (A * B)) :
  combine (map fst l) (map snd l) = l.
Proof.
  induction l as [|[a b] l IH]; simpl; [reflexivity |].
  rewrite IH. reflexivity.
Qed.

Lemma map_snd_combine {A B : Type} (la : list A) (lb : list B) :
  List.length la = List.length lb -> map snd (combine la lb) = lb.
Proof.
  revert lb. induction la as [|a la IH]; intros [|b lb] H; simpl in *;
    try discriminate; [reflexivity |].
  rewrite IH by congruence. reflexivity.
Qed.

Lemma keyed_scores (l : list (R * ResultRow)) :
  keyed "weighted_score" l -> map score_of_row (map snd l) = map fst l.
Proof.
  induction 1 as [|kr l Hk _ IH]; simpl; [reflexivity |].
  unfold score_of_row at 1. rewrite Hk, IH. reflexivity.
Qed.

(** ** Ranks *)

Lemma dict_set_twice {V : Type} (k : string) (v : V) (d : Dict V) :
  dict_set k v (dict_set k v d) = dict_set k v d.
Proof.
  induction d as [|[k' v'] d IH]; simpl.
  - rewrite String.eqb_refl. reflexivity.
  - destruct (String.eqb k k') eqn:E; simpl; rewrite E; [reflexivity |].
    rewrite IH. reflexivity.
Qed.

Lemma dict_get_set_same {V : Type} (k : string) (v : V) (d : Dict V) :
  dict_get k (dict_set k v d) = Some v.
Proof.
  induction d as [|[k' v'] d IH]; simpl.
  - rewrite String.eqb_refl. reflexivity.
  - destruct (String.eqb k k') eqn:E; simpl; rewrite E; [reflexivity |].
    exact IH.
Qed.

Lemma dict_get_set_other {V : Type} (k k' : string) (v : V) (d : Dict V) :
  k <> k' -> dict_get k' (dict_set k v d) = dict_get k' d.
Proof.
  intros Hne. induction d as [|[k0 v0] d IH]; simpl.
  - destruct (String.eqb_spec k' k); [congruence | reflexivity].
  - destruct (String.eqb_spec k k0) as [E | E]; simpl.
    + subst k0. destruct (String.eqb_spec k' k); [congruence | reflexivity].
    + destruct (String.eqb k' k0); [reflexivity | exact IH].
Qed.

Lemma assign_rank_ranked (frame : ResultFrame) :
  assign_rank frame = ranked 1 frame.
Proof. reflexivity. Qed.

Lemma ranked_cons (s : nat) (row : ResultRow) (frame : ResultFrame) :
  ranked s (row :: frame)
  = dict_set "rank" (VInt (Z.of_nat s)) row :: ranked (S s) frame.
Proof. reflexivity. Qed.

Lemma ranked_length (s : nat) (frame : ResultFrame) :
  List.length (ranked s frame) = List.length frame.
Proof.
  revert s. induction frame as [|row frame IH]; intros s; [reflexivity |].
  rewrite ranked_cons. simpl. rewrite IH. reflexivity.
Qed.

Lemma ranked_twice (s : nat) (frame : ResultFrame) :
  ranked s (ranked s frame) = ranked s frame.
Proof.
  revert s. induction frame as [|row frame IH]; intros s; [reflexivity |].
  rewrite !ranked_cons, dict_set_twice, IH. reflexivity.
Qed.

Lemma ranked_ranks (s : nat) (frame : ResultFrame) :
  map (dict_get "rank") (ranked s frame)
  = map (fun i => Some (VInt (Z.of_nat i))) (seq s (List.length frame)).
Proof.
  revert s. induction frame as [|row frame IH]; intros s; [reflexivity |].
  rewrite ranked_cons. simpl. rewrite dict_get_set_same, IH. reflexivity.
Qed.

Lemma ranked_get_float (col : string) (s : nat) (l : list (R * ResultRow)) :
  col <> "rank" ->
  keyed col l ->
  keyed col (combine (map fst l) (ranked s (map snd l))).
Proof.
  intros Hcol Hk. revert s.
  induction Hk as [|kr l Hkr _ IH]; intros s; [constructor |].
  simpl map. rewrite ranked_cons. simpl combine.
  constructor; [| apply IH].
  simpl. unfold get_float.
  rewrite dict_get_set_other by congruence. exact Hkr.
Qed.

Lemma combine_keys (l : list (R * ResultRow)) (frame : ResultFrame) :
  List.length frame = List.length l ->
  map fst (combine (map fst l) frame) = map fst l.
Proof.
  revert frame. induction l as [|kr l IH]; intros [|row frame] H;
    simpl in *; try discriminate; [reflexivity |].
  rewrite IH by congruence. reflexivity.
Qed.

(** ** The column of scores of the aggregation *)

Lemma rows_traverse (self : WeightedScoringSystem)
  (agent_results : AgentResults) (df : Dataset) (l : list string) :
  traverse (get_float "weighted_score")
    (map
       (fun pharmacy =>
          fst (_calculate_single_pharmacy_score self pharmacy agent_results
                 df []))
       l)
  = Some
      (map
         (fun pharmacy =>
            round3 (final_score (current_weights self) pharmacy
                      agent_results))
         l).
Proof.
  induction l as [|q l IH]; simpl; [reflexivity |].
  unfold get_float at 1. rewrite row_weighted_score, IH. reflexivity.
Qed.

Lemma rows_column (set_iter : list string -> list string)
  (self : WeightedScoringSystem) (agent_results : AgentResults)
  (df : Dataset) (t : Tracker) :
  let rows :=
    fst (calculate_weighted_scores set_iter self agent_results df t) in
  rows <> [] ->
  exists keys, column "weighted_score" rows = Some keys.
Proof.
  intros rows Hne. subst rows.
  rewrite calculate_weighted_scores_fst in *.
  eexists. unfold column.
  destruct (map _ (set_iter (flagged_pharmacies agent_results)))
    as [|row rest] eqn:E; [congruence |].
  rewrite <- E. apply rows_traverse.
Qed.

Lemma column_scores (frame : ResultFrame) (keys : list R) :
  column "weighted_score" frame = Some keys -> map score_of_row frame = keys.
Proof.
  unfold column. destruct frame as [|row rest]; [discriminate |].
  intros Ht. apply traverse_combine in Ht. destruct Ht as [Hlen Hk].
  apply keyed_scores in Hk.
  rewrite map_snd_combine in Hk by exact Hlen.
  rewrite Hk. clear Hk.
  revert Hlen. generalize (row :: rest). intros frame. revert frame.
  induction keys as [|k keys IH]; intros [|r frame] H; simpl in *;
    try discriminate; [reflexivity |].
  rewrite IH by congruence. reflexivity.
Qed.

(** ** The finalize stage *)

Lemma column_Some (col : string) (frame : ResultFrame) (keys : list R) :
  column col frame = Some keys ->
  frame <> [] /\ traverse (get_float col) frame = Some keys.
Proof.
  unfold column. destruct frame; [discriminate |].
  intros H. split; [discriminate | exact H].
Qed.

Lemma keys_of_combine {A B : Type} (la : list A) (lb : list B) :
  List.length la = List.length lb -> map fst (combine la lb) = la.
Proof.
  revert lb. induction la as [|a la IH]; intros [|b lb] H; simpl in *;
    try discriminate; [reflexivity |].
  rewrite IH by congruence. reflexivity.
Qed.

Section Finalize.
Variable sort_rows : Sorter.
Hypothesis sort_rows_perm : forall l, Permutation (sort_rows l) l.
Hypothesis sort_rows_sorted : forall l, StronglySorted key_desc (sort_rows l).

(** The state after the stage when the column of scores can be read. *)
Lemma final_results_node_sorted (state : ParallelFraudDetectionState)
  (keys : list R) :
  column "weighted_score" (st_weighted_results state) = Some keys ->
  let sorted := sort_rows (combine keys (st_weighted_results state)) in
  final_results_node sort_rows state
  = {| st_df := st_df state;
       st_agent_results := st_agent_results state;
       st_weighted_results := ranked 1 (map snd sorted);
       st_supervisor_insights := st_supervisor_insights state;
       st_final_results := ranked 1 (map snd sorted) |}.
Proof.
  intros Hc sorted. subst sorted. unfold final_results_node, sort_values_desc.
  rewrite Hc.
  destruct (st_weighted_results state); [discriminate | reflexivity].
Qed.

(** Outside that case the stage only empties [final_results]. *)
Lemma final_results_node_failed (state : ParallelFraudDetectionState) :
  column "weighted_score" (st_weighted_results state) = None ->
  final_results_node sort_rows state
  = {| st_df := st_df state;
       st_agent_results := st_agent_results state;
       st_weighted_results := st_weighted_results state;
       st_supervisor_insights := st_supervisor_insights state;
       st_final_results := [] |}.
Proof.
  intros Hc. unfold final_results_node, sort_values_desc. rewrite Hc.
  destruct (negb (truthy (st_weighted_results state))); reflexivity.
Qed.

(** What the sort of the stage works on and what it produces. *)
Lemma sorted_rows (frame : ResultFrame) (keys : list R) :
  column "weighted_score" frame = Some keys ->
  let l := sort_rows (combine keys frame) in
  l <> []
  /\ StronglySorted key_desc l
  /\ keyed "weighted_score" l
  /\ Permutation (map snd l) frame
  /\ List.length l = List.length frame
  /\ Permutation (map fst l) keys.
Proof.
  intros Hc l. subst l.
  apply column_Some in Hc. destruct Hc as [Hne Ht].
  apply traverse_combine in Ht. destruct Ht as [Hlen Hk].
  pose proof (sort_rows_perm (combine keys frame)) as Hp.
  assert (Hl : List.length (sort_rows (combine keys frame))
               = List.length frame).
  { rewrite (Permutation_length Hp), length_combine, Hlen.
    apply Nat.min_id. }
  split; [| split; [| split; [| split; [| split]]]].
  - intros E. rewrite E in Hl. destruct frame; [congruence | discriminate].
  - apply sort_rows_sorted.
  - apply (Permutation_Forall (Permutation_sym Hp)). exact Hk.
  - rewrite <- (map_snd_combine keys frame Hlen) at 2.
    apply Permutation_map. exact Hp.
  - exact Hl.
  - rewrite <- (keys_of_combine keys frame Hlen) at 2.
    apply Permutation_map. exact Hp.
Qed.

(** With pairwise distinct keys, the sorted and ranked frame is a fixed
    point of sorting and ranking. *)
Lemma ranked_sorted_fixed (l : list (R * ResultRow)) :
  l <> [] ->
  StronglySorted key_desc l ->
  keyed "weighted_score" l ->
  NoDup (map fst l) ->
  let frame := ranked 1 (map snd l) in
  column "weighted_score" frame = Some (map fst l)
  /\ ranked 1 (map snd (sort_rows (combine (map fst l) frame))) = frame.
Proof.
  intros Hne Hs Hk Hnd frame. subst frame.
  pose proof (ranked_get_float "weighted_score" 1 l
                ltac:(discriminate) Hk) as Hk'.
  assert (Hlen : List.length (ranked 1 (map snd l)) = List.length l)
    by (rewrite ranked_length; apply length_map).
  assert (Hsnd : map snd (combine (map fst l) (ranked 1 (map snd l)))
                 = ranked 1 (map snd l))
    by (apply map_snd_combine; rewrite length_map; congruence).
  split.
  - unfold column.
    destruct (ranked 1 (map snd l)) as [|row rest] eqn:E.
    + destruct l; [congruence | discriminate].
    + rewrite <- Hsnd, (traverse_keyed _ _ Hk').
      rewrite combine_keys by exact Hlen. reflexivity.
  - rewrite <- (sorted_perm_unique
                  (combine (map fst l) (ranked 1 (map snd l)))
                  (sort_rows (combine (map fst l) (ranked 1 (map snd l))))).
    + rewrite Hsnd. apply ranked_twice.
    + apply key_desc_keys. rewrite combine_keys by exact Hlen.
      apply key_desc_keys. exact Hs.
    + apply sort_rows_sorted.
    + apply Permutation_sym, sort_rows_perm.
    + rewrite combine_keys by exact Hlen. exact Hnd.
Qed.

(** With pairwise distinct scores the stage is idempotent. *)
Lemma final_results_node_twice (state : ParallelFraudDetectionState)
  (keys : list R) :
  column "weighted_score" (st_weighted_results state) = Some keys ->
  NoDup keys ->
  final_results_node sort_rows (final_results_node sort_rows state)
  = final_results_node sort_rows state.
Proof.
  intros Hc Hnd.
  rewrite (final_results_node_sorted state keys Hc).
  destruct (sorted_rows _ _ Hc) as [Hne [Hs [Hk [_ [_ Hkeys]]]]].
  assert (Hnd' : NoDup
                   (map fst
                      (sort_rows (combine keys (st_weighted_results state))))).
  { apply (Permutation_NoDup (Permutation_sym Hkeys)). exact Hnd. }
  destruct (ranked_sorted_fixed _ Hne Hs Hk Hnd') as [Hc' Hfix].
  cbv zeta in Hc', Hfix.
  match goal with
  | |- final_results_node sort_rows ?st = _ =>
      rewrite (final_results_node_sorted st _ Hc')
  end.
  cbv zeta. simpl. rewrite Hfix. reflexivity.
Qed.

(** When the column of scores can be read, the stage sorts and ranks. *)
Lemma final_results_node_ranked (state : ParallelFraudDetectionState)
  (keys : list R) :
  column "weighted_score" (st_weighted_results state) = Some keys ->
  let once := final_results_node sort_rows state in
  exists sorted,
    Permutation sorted (st_weighted_results state)
    /\ descending sorted
    /\ st_final_results once = assign_rank sorted
    /\ st_weighted_results once = assign_rank sorted
    /\ descending (st_final_results once)
    /\ map (dict_get "rank") (st_final_results once)
       = dense_ranks (List.length (st_weighted_results state)).
Proof.
  intros Hc once. subst once.
  rewrite (final_results_node_sorted state keys Hc). cbv zeta. simpl.
  destruct (sorted_rows _ _ Hc) as [Hne [Hs [Hk [Hp [Hl _]]]]].
  cbv zeta in Hs, Hk, Hp, Hl.
  exists (map snd (sort_rows (combine keys (st_weighted_results state)))).
  assert (Hd : StronglySorted (fun a b => b <= a)
                 (map score_of_row
                    (map snd
                       (sort_rows
                          (combine keys (st_weighted_results state)))))).
  { rewrite (keyed_scores _ Hk). apply key_desc_keys. exact Hs. }
  split; [exact Hp |].
  split; [apply descending_scores; exact Hd |].
  split; [reflexivity |]. split; [reflexivity |].
  split.
  - apply descending_scores.
    pose proof (ranked_get_float "weighted_score" 1 _
                  ltac:(discriminate) Hk) as Hk'.
    apply keyed_scores in Hk'.
    rewrite map_snd_combine in Hk'
      by (rewrite ranked_length, !length_map; reflexivity).
    rewrite Hk', combine_keys
      by (rewrite ranked_length, length_map; reflexivity).
    apply key_desc_keys. exact Hs.
  - rewrite ranked_ranks, length_map, Hl. reflexivity.
Qed.

(** In every case the final frame is in decreasing order and carries the
    ranks 1, 2, ..., n. *)
Lemma final_results_node_ranking (state : ParallelFraudDetectionState) :
  let final := st_final_results (final_results_node sort_rows state) in
  descending final
  /\ map (dict_get "rank") final = dense_ranks (List.length final).
Proof.
  intros final. subst final.
  destruct (column "weighted_score" (st_weighted_results state))
    as [keys |] eqn:Hc.
  - destruct (final_results_node_ranked state keys Hc)
      as [sorted [Hp [_ [Hf [_ [Hd Hr]]]]]].
    split; [exact Hd |].
    rewrite Hr, Hf, assign_rank_ranked, ranked_length.
    rewrite (Permutation_length Hp). reflexivity.
  - rewrite (final_results_node_failed state Hc). simpl.
    split; [constructor | reflexivity].
Qed.

(** C9 (as the code has it): the finalize stage works on the rows of the
    aggregation, whose exported score is the final score rounded to three
    decimals.  For every sorting routine that returns its input in order
    of decreasing key, it returns those rows in order of decreasing
    exported score, numbered 1, 2, ..., n, the same frame under
    [final_results] and [weighted_results]; when the exported scores are
    pairwise distinct, a second application changes nothing. *)
Theorem finalize_sorts_and_ranks (set_iter : list string -> list string)
  (self : WeightedScoringSystem) (agent_results : AgentResults)
  (df : Dataset) (t : Tracker) (insights : option Insights)
  (previous : ResultFrame) :
  let rows :=
    fst (calculate_weighted_scores set_iter self agent_results df t) in
  let once :=
    final_results_node sort_rows
      {| st_df := df;
         st_agent_results := agent_results;
         st_weighted_results := rows;
         st_supervisor_insights := insights;
         st_final_results := previous |} in
  map score_of_row rows
  = map
      (fun pharmacy =>
         round3 (final_score (current_weights self) pharmacy agent_results))
      (set_iter (flagged_pharmacies agent_results))
  /\ exists sorted,
       Permutation sorted rows
       /\ descending sorted
       /\ st_final_results once = assign_rank sorted
       /\ st_weighted_results once = assign_rank sorted
       /\ descending (st_final_results once)
       /\ map (dict_get "rank") (st_final_results once)
          = dense_ranks (List.length rows)
       /\ (NoDup (map score_of_row rows) ->
           final_results_node sort_rows once = once).
Proof.
  intros rows once.
  assert (Hscores :
            map score_of_row rows
            = map
                (fun pharmacy =>
                   round3 (final_score (current_weights self) pharmacy
                             agent_results))
                (set_iter (flagged_pharmacies agent_results))).
  { subst rows. rewrite calculate_weighted_scores_fst, map_map.
    apply map_ext. intros pharmacy.
    unfold score_of_row, get_float. rewrite row_weighted_score.
    reflexivity. }
  split; [exact Hscores |].
  destruct rows as [|row rest] eqn:Er.
  - exists []. subst once. cbn.
    split; [constructor |]. split; [constructor |].
    split; [reflexivity |]. split; [reflexivity |].
    split; [constructor |]. split; [reflexivity |].
    intros _. reflexivity.
  - assert (Hne : rows <> []) by (rewrite Er; discriminate).
    destruct (rows_column set_iter self agent_results df t Hne)
      as [keys Hc].
    fold rows in Hc. rewrite Er in Hc.
    set (state := {| st_df := df;
                     st_agent_results := agent_results;
                     st_weighted_results := row :: rest;
                     st_supervisor_insights := insights;
                     st_final_results := previous |}) in *.
    destruct (final_results_node_ranked state keys Hc)
      as [sorted [H1 [H2 [H3 [H4 [H5 H6]]]]]].
    exists sorted.
    split; [exact H1 |]. split; [exact H2 |]. split; [exact H3 |].
    split; [exact H4 |]. split; [exact H5 |]. split; [exact H6 |].
    intros Hnd. apply (final_results_node_twice state keys Hc).
    rewrite <- (column_scores _ _ Hc). exact Hnd.
Qed.

End Finalize.

Lemma finalize_sorts_and_ranks_witness :
  map (dict_get "rank")
    (st_final_results
       (final_results_node sort_desc
          {| st_df := one_claim;
             st_agent_results := split_reports;
             st_weighted_results :=
               fst (calculate_weighted_scores unique default_system
                      split_reports one_claim []);
             st_supervisor_insights := None;
             st_final_results := [] |}))
  = dense_ranks 2.
Proof.
  destruct (finalize_sorts_and_ranks sort_desc sort_desc_perm
              sort_desc_sorted unique default_system split_reports
              one_claim [] None [])
    as [_ [sorted [_ [_ [_ [_ [_ [Hranks _]]]]]]]].
  exact Hranks.
Defined.

Lemma tied_reports_rows :
  fst (calculate_weighted_scores unique default_system tied_reports
         one_claim [])
  = [ record_of default_weights tied_reports one_claim "PH001";
      record_of default_weights tied_reports one_claim "PH002" ].
Proof. apply calculate_weighted_scores_records. Qed.

Lemma tied_reports_scores :
  final_score default_weights "PH002" tied_reports
  = final_score default_weights "PH001" tied_reports.
Proof. reflexivity. Qed.

Lemma record_of_score (weights : Dict R) (agent_results : AgentResults)
  (df : Dataset) (pharmacy : string) :
  get_float "weighted_score" (record_of weights agent_results df pharmacy)
  = Some (round3 (final_score weights pharmacy agent_results)).
Proof.
  unfold get_float, record_of. rewrite row_weighted_score. reflexivity.
Qed.

Lemma ranked_row_score (n : Z) (row : ResultRow) :
  get_float "weighted_score" (dict_set "rank" (VInt n) row)
  = get_float "weighted_score" row.
Proof.
  unfold get_float. rewrite dict_get_set_other by discriminate. reflexivity.
Qed.

Lemma ranked_row_pharmacy (n : Z) (row : ResultRow) :
  dict_get "pharmacy_number" (dict_set "rank" (VInt n) row)
  = dict_get "pharmacy_number" row.
Proof. apply dict_get_set_other. discriminate. Qed.

(** C9, counterexample: [sort_reversing_ties] returns every input in order
    of decreasing key.  One agent reports the score 0.5 for two
    pharmacies, so the two rows of the aggregation have the same exported
    score.  With that routine the stage returns the rows in the order
    PH002, PH001, and applied to its own output it returns them in the
    order PH001, PH002: the two rows exchange their places and their
    ranks. *)
Lemma finalize_twice_swaps_tied_rows :
  (forall l, Permutation (sort_reversing_ties l) l)
  /\ (forall l, StronglySorted key_desc (sort_reversing_ties l))
  /\ map (dict_get "pharmacy_number")
       (st_final_results
          (final_results_node sort_reversing_ties (state_of tied_rows)))
     = [Some (VStr "PH002"); Some (VStr "PH001")]
  /\ map (dict_get "pharmacy_number")
       (st_final_results
          (final_results_node sort_reversing_ties
             (final_results_node sort_reversing_ties (state_of tied_rows))))
     = [Some (VStr "PH001"); Some (VStr "PH002")].
Proof.
  split; [exact sort_reversing_ties_perm |].
  split; [exact sort_reversing_ties_sorted |].
  set (k := round3 (final_score default_weights "PH001" tied_reports)).
  set (a := record_of default_weights tied_reports one_claim "PH001").
  set (b := record_of default_weights tied_reports one_claim "PH002").
  assert (Ha : get_float "weighted_score" a = Some k)
    by apply record_of_score.
  assert (Hb : get_float "weighted_score" b = Some k).
  { subst b k. rewrite record_of_score, tied_reports_scores. reflexivity. }
  assert (Hpa : dict_get "pharmacy_number" a = Some (VStr "PH001"))
    by apply record_of_pharmacy.
  assert (Hpb : dict_get "pharmacy_number" b = Some (VStr "PH002"))
    by apply record_of_pharmacy.
  assert (Hrows : tied_rows = [a; b]) by apply tied_reports_rows.
  clearbody a b k.
  assert (Hfirst :
            final_results_node sort_reversing_ties (state_of tied_rows)
            = {| st_df := [];
                 st_agent_results := [];
                 st_weighted_results :=
                   [ dict_set "rank" (VInt 1) b; dict_set "rank" (VInt 2) a ];
                 st_supervisor_insights := None;
                 st_final_results :=
                   [ dict_set "rank" (VInt 1) b;
                     dict_set "rank" (VInt 2) a ] |}).
  { assert (Hc : column "weighted_score"
                   (st_weighted_results (state_of tied_rows))
                 = Some [k; k]).
    { rewrite Hrows. cbn [state_of st_weighted_results column traverse].
      rewrite Ha, Hb. reflexivity. }
    rewrite (final_results_node_sorted sort_reversing_ties _ _ Hc).
    cbv zeta. rewrite Hrows. cbn [state_of st_weighted_results combine].
    rewrite sort_reversing_two_ties. reflexivity. }
  rewrite Hfirst. cbn [st_final_results map].
  rewrite !ranked_row_pharmacy, Hpa, Hpb.
  split; [reflexivity |].
  match goal with
  | |- context [final_results_node sort_reversing_ties ?st] =>
      assert (Hc : column "weighted_score" (st_weighted_results st)
                   = Some [k; k])
  end.
  { cbn [st_weighted_results column traverse].
    rewrite !ranked_row_score, Ha, Hb. reflexivity. }
  rewrite (final_results_node_sorted sort_reversing_ties _ _ Hc).
  cbv zeta. cbn [st_weighted_results combine].
  rewrite sort_reversing_two_ties.
  cbn [st_final_results map snd]. rewrite !ranked_cons. cbn [map ranked].
  rewrite !ranked_row_pharmacy, Hpa, Hpb. reflexivity.
Qed.

(** ** The pool *)

Lemma fst_bind {A B : Type} (m : M A) (k : A -> M B) (t : Tracker) :
  fst (bind m k t) = fst (k (fst (m t)) (snd (m t))).
Proof. unfold bind. destruct (m t). reflexivity. Qed.

Lemma foldM_fst {A B : Type} (f : B -> A -> M B) (l : list A) (b : B)
  (t : Tracker) :
  (forall b a t1 t2, fst (f b a t1) = fst (f b a t2)) ->
  fst (foldM f l b t) = fold_left (fun b a => fst (f b a [])) l b.
Proof.
  intros Hf. revert b t.
  induction l as [|a l IH]; intros b t; simpl; [reflexivity |].
  rewrite fst_bind, IH, (Hf b a t []). reflexivity.
Qed.

(** The dictionary of results, whatever the tracker holds. *)
Lemma run_agents_parallel_fst (as_completed : Dict Agent -> Dict Agent)
  (self : WeightedScoringSystem) (df : Dataset) (t : Tracker) :
  fst (run_agents_parallel as_completed self df t)
  = fold_left
      (fun results entry =>
         dict_set (fst entry) (_run_single_agent (fst entry) (snd entry) df)
           results)
      (as_completed (agents self)) [].
Proof.
  unfold run_agents_parallel. rewrite fst_bind, foldM_fst; reflexivity.
Qed.

Lemma pool_results_acc (df : Dataset) (l : Dict Agent) (acc : AgentResults) :
  NoDup (dict_keys acc ++ dict_keys l) ->
  fold_left
    (fun results entry =>
       dict_set (fst entry) (_run_single_agent (fst entry) (snd entry) df)
         results)
    l acc
  = acc
    ++ map (fun e => (fst e, _run_single_agent (fst e) (snd e) df)) l.
Proof.
  revert acc. induction l as [|[name agent] l IH]; intros acc Hnd; simpl.
  - rewrite app_nil_r. reflexivity.
  - assert (Hfresh : ~ In name (dict_keys acc)).
    { intros Hin. simpl in Hnd. apply NoDup_remove_2 in Hnd.
      apply Hnd. apply in_or_app. left. exact Hin. }
    rewrite dict_set_fresh by exact Hfresh.
    rewrite IH.
    + rewrite <- app_assoc. reflexivity.
    + unfold dict_keys in *. rewrite map_app, <- app_assoc. exact Hnd.
Qed.

Lemma dict_get_In {V : Type} (k : string) (v : V) (d : Dict V) :
  NoDup (dict_keys d) -> In (k, v) d -> dict_get k d = Some v.
Proof.
  induction d as [|[k' v'] d IH]; intros Hnd Hin; [destruct Hin |].
  simpl. destruct (String.eqb_spec k k') as [E | E].
  - destruct Hin as [Hin | Hin]; [congruence |].
    exfalso. apply NoDup_cons_iff in Hnd. apply (proj1 Hnd).
    subst k'. apply in_map_iff. exists (k, v). auto.
  - destruct Hin as [Hin | Hin]; [congruence |].
    apply IH; [| exact Hin]. apply NoDup_cons_iff in Hnd. tauto.
Qed.

Lemma run_single_failing (agent_name : string) (agent : Agent) (df : Dataset) :
  (forall d aux, agent d aux = None) ->
  _run_single_agent agent_name agent df = [].
Proof.
  intros Hfail. unfold _run_single_agent.
  destruct (String.eqb agent_name "network_agent"); rewrite Hfail; reflexivity.
Qed.

(** ** Agents without findings *)

Lemma flat_map_filter_nil {A B : Type} (f : A -> list B) (keep : A -> bool)
  (l : list A) :
  (forall a, In a l -> keep a = false -> f a = []) ->
  flat_map f (filter keep l) = flat_map f l.
Proof.
  induction l as [|a l IH]; intros H; simpl; [reflexivity |].
  destruct (keep a) eqn:E; simpl.
  - rewrite IH; [reflexivity |]. intros b Hb. apply H. right. exact Hb.
  - rewrite (H a) by (auto; left; reflexivity). simpl.
    apply IH. intros b Hb. apply H. right. exact Hb.
Qed.

Lemma fold_left_filter_skip {A B : Type} (step : B -> A -> B)
  (keep : A -> bool) (l : list A) (b : B) :
  (forall a acc, In a l -> keep a = false -> step acc a = acc) ->
  fold_left step (filter keep l) b = fold_left step l b.
Proof.
  revert b. induction l as [|a l IH]; intros b H; simpl; [reflexivity |].
  destruct (keep a) eqn:E; simpl.
  - apply IH. intros x acc Hx. apply H. right. exact Hx.
  - rewrite (H a b) by (auto; left; reflexivity).
    apply IH. intros x acc Hx. apply H. right. exact Hx.
Qed.

(** Rewriting with an equation on [snd e], the frame type folded or not. *)
Ltac rewrite_frame H :=
  first [ rewrite H
        | rewrite (H : @snd string (list Row) _ = []) ].

Section SilentAgents.
Variable keep : string * Frame -> bool.
Variable agent_results : AgentResults.
Hypothesis dropped_empty :
  forall e, In e agent_results -> keep e = false -> snd e = [].

Lemma flagged_pharmacies_filter :
  flagged_pharmacies (filter keep agent_results)
  = flagged_pharmacies agent_results.
Proof.
  apply flat_map_filter_nil. intros e Hin Hk. cbv beta.
  rewrite_frame (dropped_empty e Hin Hk). reflexivity.
Qed.

Lemma all_scores_filter :
  all_scores (filter keep agent_results) = all_scores agent_results.
Proof.
  apply flat_map_filter_nil. intros e Hin Hk. cbv beta.
  rewrite_frame (dropped_empty e Hin Hk). reflexivity.
Qed.

Lemma scores_of_filter (pharmacy : string) :
  scores_of pharmacy (filter keep agent_results)
  = scores_of pharmacy agent_results.
Proof.
  apply flat_map_filter_nil. intros e Hin Hk. cbv beta.
  rewrite_frame (dropped_empty e Hin Hk). reflexivity.
Qed.

Lemma collect_findings_filter (pharmacy : string) :
  collect_findings pharmacy (filter keep agent_results)
  = collect_findings pharmacy agent_results.
Proof.
  apply fold_left_filter_skip. intros e acc Hin Hk. cbv beta.
  rewrite_frame (dropped_empty e Hin Hk).
  destruct acc as [[s r] d]. reflexivity.
Qed.

Lemma outlier_score_filter (pharmacy : string) :
  _calculate_outlier_score pharmacy (filter keep agent_results)
  = _calculate_outlier_score pharmacy agent_results.
Proof.
  unfold _calculate_outlier_score.
  rewrite all_scores_filter, scores_of_filter. reflexivity.
Qed.

(** The rows computed from the kept agents are the rows computed from all
    of them. *)
Lemma calculate_weighted_scores_filter
  (set_iter : list string -> list string) (self : WeightedScoringSystem)
  (df : Dataset) (t t' : Tracker) :
  fst (calculate_weighted_scores set_iter self (filter keep agent_results)
         df t)
  = fst (calculate_weighted_scores set_iter self agent_results df t').
Proof.
  rewrite !calculate_weighted_scores_fst, flagged_pharmacies_filter.
  apply map_ext. intros pharmacy.
  rewrite !single_pharmacy_row. unfold final_score.
  rewrite collect_findings_filter, outlier_score_filter. reflexivity.
Qed.

Lemma agent_performance_filter :
  analyze_agent_performance (filter keep agent_results)
  = analyze_agent_performance agent_results.
Proof.
  apply fold_left_filter_skip. intros e acc Hin Hk. cbv beta.
  rewrite_frame (dropped_empty e Hin Hk). reflexivity.
Qed.

End SilentAgents.

(** ** The supervisor *)

Lemma generate_insights_tracker (weighted_results : ResultFrame)
  (agent_results : AgentResults) (t t' : Tracker) :
  fst (_generate_supervisor_insights weighted_results agent_results t)
  = fst (_generate_supervisor_insights weighted_results agent_results t').
Proof.
  unfold _generate_supervisor_insights.
  destruct (column "weighted_score" weighted_results); reflexivity.
Qed.

Lemma generate_insights_none (weighted_results : ResultFrame)
  (agent_results : AgentResults) (t : Tracker) :
  column "weighted_score" weighted_results = None ->
  fst (_generate_supervisor_insights weighted_results agent_results t) = None.
Proof.
  intros Hc. unfold _generate_supervisor_insights. rewrite Hc. reflexivity.
Qed.

Lemma generate_insights_some (weighted_results : ResultFrame)
  (agent_results : AgentResults) (t : Tracker) (keys : list R) :
  column "weighted_score" weighted_results = Some keys ->
  exists insights,
    fst (_generate_supervisor_insights weighted_results agent_results t)
    = Some insights
    /\ agent_performance insights = analyze_agent_performance agent_results
    /\ total_pharmacies_analyzed insights = List.length weighted_results.
Proof.
  intros Hc. unfold _generate_supervisor_insights. rewrite Hc.
  eexists. split; [reflexivity |]. split; reflexivity.
Qed.

(** The result of the supervised analysis, whatever the tracker holds. *)
Lemma supervise_analysis_fst (set_iter : list string -> list string)
  (as_completed : Dict Agent -> Dict Agent) (self : WeightedScoringSystem)
  (df : Dataset) (t : Tracker) :
  let results := fst (run_agents_parallel as_completed self df t) in
  let rows := fst (calculate_weighted_scores set_iter self results df t) in
  fst (supervise_analysis set_iter as_completed self df t)
  = match fst (_generate_supervisor_insights rows results t) with
    | None => None
    | Some insights =>
        Some {| res_agent_results := results;
                res_weighted_results := rows;
                res_supervisor_insights := insights;
                res_scoring_system := self |}
    end.
Proof.
  intros results rows. subst results rows.
  unfold supervise_analysis. rewrite !fst_bind.
  set (results := fst (run_agents_parallel as_completed self df t)).
  set (t1 := snd (run_agents_parallel as_completed self df t)).
  rewrite (calculate_weighted_scores_fst set_iter self results df t).
  rewrite (calculate_weighted_scores_fst set_iter self results df t1).
  set (rows := map _ _).
  rewrite (generate_insights_tracker rows results _ t).
  destruct (fst (_generate_supervisor_insights rows results t));
    reflexivity.
Qed.

Lemma agent_performance_silent (name : string) (agent_results : AgentResults) :
  (forall e, In e agent_results -> fst e = name -> snd e = []) ->
  dict_get name (analyze_agent_performance agent_results) = None.
Proof.
  intros Hsilent. unfold analyze_agent_performance.
  assert (Hgen : forall acc : Dict AgentPerformance,
             dict_get name acc = None ->
             dict_get name
               (fold_left
                  (fun performance entry =>
                     if negb (truthy (snd entry)) then performance
                     else
                       dict_set (fst entry)
                         {| avg_score :=
                              round3 (mean (map fraud_score (snd entry)));
                            high_risk_findings :=
                              List.length
                                (filter
                                   (fun r => Rge_b (fraud_score r) 0.8)
                                   (snd entry));
                            total_findings := List.length (snd entry) |}
                         performance)
                  agent_results acc) = None).
  { induction agent_results as [|e rest IH]; intros acc Hacc; [exact Hacc |].
    simpl fold_left. apply IH.
    - intros e' Hin. apply Hsilent. right. exact Hin.
    - destruct (String.eqb_spec (fst e) name) as [E | E].
      + rewrite_frame (Hsilent e (or_introl eq_refl) E). cbn [truthy negb].
        exact Hacc.
      + destruct (negb (truthy _)); [exact Hacc |].
        rewrite dict_get_set_other by exact E. exact Hacc. }
  apply Hgen. reflexivity.
Qed.

Lemma nonempty_In {A : Type} (l : list A) : l <> [] <-> exists x, In x l.
Proof.
  destruct l as [|a l]; split.
  - congruence.
  - intros [x []].
  - intros _. exists a. left. reflexivity.
  - discriminate.
Qed.

(** Some pharmacy is flagged exactly when some agent has a row. *)
Lemma flagged_pharmacies_nonempty (agent_results : AgentResults) :
  flagged_pharmacies agent_results <> []
  <-> exists e, In e agent_results /\ snd e <> [].
Proof.
  rewrite nonempty_In. split.
  - intros [p Hp]. apply flagged_pharmacies_In in Hp.
    destruct Hp as [e [Hin Hd]]. exists e. split; [exact Hin |].
    intros E. apply Hd. rewrite_frame E. reflexivity.
  - intros [e [Hin Hne]].
    destruct (snd e) as [|r rest] eqn:Ee; [congruence |].
    exists (pharmacy_number r). apply flagged_pharmacies_In.
    exists e. split; [exact Hin |].
    apply pharmacy_data_In. rewrite Ee. left. reflexivity.
Qed.

(** ** Isolation of a failing agent *)

Section Isolation.
Variable set_iter : list string -> list string.
Variable as_completed : Dict Agent -> Dict Agent.
Variable sort_rows : Sorter.
Hypothesis set_iter_perm : forall l, Permutation (set_iter l) (unique l).
Hypothesis as_completed_perm : forall d, Permutation (as_completed d) d.
Hypothesis sort_rows_perm : forall l, Permutation (sort_rows l) l.
Hypothesis sort_rows_sorted : forall l, StronglySorted key_desc (sort_rows l).

Lemma pool_results (registered : Dict Agent) (df : Dataset) (t : Tracker) :
  NoDup (dict_keys registered) ->
  fst (run_agents_parallel as_completed (new_scoring_system registered) df t)
  = map (fun e => (fst e, _run_single_agent (fst e) (snd e) df))
      (as_completed registered).
Proof.
  intros Hnd. rewrite run_agents_parallel_fst.
  rewrite pool_results_acc; [reflexivity |].
  simpl. apply (Permutation_NoDup (l := dict_keys registered)); [| exact Hnd].
  apply Permutation_map, Permutation_sym, as_completed_perm.
Qed.

Lemma pool_lookup (registered : Dict Agent) (df : Dataset) (t : Tracker)
  (name : string) (agent : Agent) :
  NoDup (dict_keys registered) ->
  In (name, agent) registered ->
  dict_get name
    (fst (run_agents_parallel as_completed (new_scoring_system registered)
            df t))
  = Some (_run_single_agent name agent df).
Proof.
  intros Hnd Hin. rewrite (pool_results registered df t Hnd).
  apply dict_get_In.
  - unfold dict_keys. rewrite map_map. simpl.
    apply (Permutation_NoDup (l := dict_keys registered)); [| exact Hnd].
    apply Permutation_map, Permutation_sym, as_completed_perm.
  - apply in_map_iff. exists (name, agent). split; [reflexivity |].
    apply (Permutation_in _ (Permutation_sym (as_completed_perm registered))).
    exact Hin.
Qed.

Lemma pool_silent (registered : Dict Agent) (df : Dataset) (t : Tracker)
  (bad : string) (bad_agent : Agent) :
  NoDup (dict_keys registered) ->
  In (bad, bad_agent) registered ->
  (forall d aux, bad_agent d aux = None) ->
  forall e,
    In e (fst (run_agents_parallel as_completed
                 (new_scoring_system registered) df t)) ->
    fst e = bad -> snd e = [].
Proof.
  intros Hnd Hbad Hfail e Hin He.
  rewrite (pool_results registered df t Hnd) in Hin.
  apply in_map_iff in Hin. destruct Hin as [[name agent] [Heq Hin]].
  subst e. simpl in *. subst name.
  apply (Permutation_in _ (as_completed_perm registered)) in Hin.
  pose proof (dict_get_In bad agent registered Hnd Hin) as H1.
  pose proof (dict_get_In bad bad_agent registered Hnd Hbad) as H2.
  assert (agent = bad_agent) by congruence. subst agent.
  apply run_single_failing. exact Hfail.
Qed.

Lemma rows_nonempty (self : WeightedScoringSystem)
  (agent_results : AgentResults) (df : Dataset) (t : Tracker) :
  fst (calculate_weighted_scores set_iter self agent_results df t) <> []
  <-> exists e, In e agent_results /\ snd e <> [].
Proof.
  rewrite calculate_weighted_scores_fst.
  split.
  - intros Hne. apply flagged_pharmacies_nonempty.
    apply nonempty_In in Hne. destruct Hne as [row Hrow].
    apply in_map_iff in Hrow. destruct Hrow as [p [_ Hp]].
    apply nonempty_In. exists p. apply unique_In.
    apply (Permutation_in _ (set_iter_perm _)). exact Hp.
  - intros Hex. apply flagged_pharmacies_nonempty in Hex.
    apply nonempty_In in Hex. destruct Hex as [p Hp].
    apply nonempty_In. eexists. apply in_map.
    apply (Permutation_in _ (Permutation_sym (set_iter_perm _))).
    apply unique_In. exact Hp.
Qed.

(** C7 (as the code has it): when one registered agent raises on every
    call, the pool records an empty frame for it and the result of every
    agent under its name; the rows are those computed from the other
    agents, and there are some exactly when another agent has a finding;
    the finalize stage puts them in decreasing order with ranks 1, ..., n;
    and when there are rows the supervised analysis returns, with no entry
    for the failing agent in [agent_performance]. *)
Theorem failing_agent_isolated (registered : Dict Agent) (df : Dataset)
  (bad : string) (bad_agent : Agent) (t : Tracker) :
  NoDup (dict_keys registered) ->
  In (bad, bad_agent) registered ->
  (forall d aux, bad_agent d aux = None) ->
  let self := new_scoring_system registered in
  let results := fst (run_agents_parallel as_completed self df t) in
  let others := filter (fun e => negb (String.eqb (fst e) bad)) results in
  let rows := fst (calculate_weighted_scores set_iter self results df t) in
  let final :=
    st_final_results
      (final_results_node sort_rows
         {| st_df := df;
            st_agent_results := results;
            st_weighted_results := rows;
            st_supervisor_insights := None;
            st_final_results := [] |}) in
  dict_get bad results = Some []
  /\ (forall name agent,
         In (name, agent) registered ->
         dict_get name results = Some (_run_single_agent name agent df))
  /\ rows = fst (calculate_weighted_scores set_iter self others df t)
  /\ (rows <> [] <-> exists e, In e others /\ snd e <> [])
  /\ descending final
  /\ map (dict_get "rank") final = dense_ranks (List.length rows)
  /\ (rows <> [] ->
      exists r,
        fst (supervise_analysis set_iter as_completed self df t) = Some r
        /\ res_agent_results r = results
        /\ res_weighted_results r = rows
        /\ dict_get bad (agent_performance (res_supervisor_insights r))
           = None).
Proof.
  intros Hnd Hbad Hfail self results others rows final.
  pose proof (pool_silent registered df t bad bad_agent Hnd Hbad Hfail)
    as Hsilent.
  fold self in Hsilent. fold results in Hsilent.
  assert (Hdrop : forall e, In e results ->
                    negb (String.eqb (fst e) bad) = false -> snd e = []).
  { intros e Hin Hk. apply Hsilent; [exact Hin |].
    apply negb_false_iff in Hk. apply String.eqb_eq. exact Hk. }
  assert (Hrows : rows
                  = fst (calculate_weighted_scores set_iter self others df t)).
  { symmetry.
    apply (calculate_weighted_scores_filter _ results Hdrop). }
  split; [| split; [| split; [| split; [| split; [| split]]]]].
  - subst results self.
    rewrite (pool_lookup registered df t bad bad_agent Hnd Hbad).
    rewrite run_single_failing by exact Hfail. reflexivity.
  - intros name agent Hin. apply pool_lookup; assumption.
  - exact Hrows.
  - rewrite Hrows. apply rows_nonempty.
  - apply (final_results_node_ranking sort_rows sort_rows_perm
             sort_rows_sorted).
  - subst final.
    destruct rows as [|row rest] eqn:Er; [reflexivity |].
    assert (Hne : rows <> []) by (subst rows; rewrite Er; discriminate).
    destruct (rows_column set_iter self results df t Hne) as [keys Hc].
    fold rows in Hc. rewrite Er in Hc.
    match goal with
    | |- context [final_results_node sort_rows ?st] =>
        destruct (final_results_node_ranked sort_rows sort_rows_perm
                    sort_rows_sorted st keys Hc)
          as [sorted [_ [_ [_ [_ [_ Hr]]]]]]
    end.
    exact Hr.
  - intros Hne.
    destruct (rows_column set_iter self results df t Hne) as [keys Hc].
    fold rows in Hc.
    destruct (generate_insights_some rows results t keys Hc)
      as [insights [Hi [Hperf _]]].
    eexists. split.
    + subst rows results. rewrite supervise_analysis_fst.
      cbv zeta. rewrite Hi. reflexivity.
    + simpl. split; [reflexivity |]. split; [reflexivity |].
      rewrite Hperf. apply agent_performance_silent.
      intros e Hin He. apply Hsilent; assumption.
Qed.

End Isolation.

Lemma failing_agent_isolated_witness :
  dict_get "rejection_agent"
    (fst (run_agents_parallel (fun d => d) (new_scoring_system two_agents)
            one_claim []))
  = Some [].
Proof.
  refine (proj1
            (failing_agent_isolated unique (fun d => d) sort_desc _ _ _ _
               two_agents one_claim "rejection_agent" failing_agent [] _ _
               _)).
  - intros l. apply Permutation_refl.
  - intros d. apply Permutation_refl.
  - exact sort_desc_perm.
  - exact sort_desc_sorted.
  - repeat constructor; simpl; intuition discriminate.
  - simpl. auto.
  - reflexivity.
Defined.

(** C7, counterexample: of two agents one raises on every call; the run
    returns one row, and its insights have an entry for the other agent
    only: the failing agent has no entry, hence none showing zero
    findings. *)
Lemma failing_agent_has_no_insight_entry :
  exists r,
    fst (supervise_analysis unique (fun d => d)
           (new_scoring_system two_agents) one_claim [])
    = Some r
    /\ dict_get "rejection_agent" (res_agent_results r) = Some []
    /\ List.length (res_weighted_results r) = 1%nat
    /\ dict_keys (agent_performance (res_supervisor_insights r))
       = ["coverage_agent"]
    /\ dict_get "rejection_agent"
         (agent_performance (res_supervisor_insights r))
       = None.
Proof.
  eexists. split; [reflexivity |].
  repeat split.
Qed.

(** * Further properties *)

(** ** The scoring rules of the agents *)

Lemma Rgt_b_true (x y : R) : Rgt_b x y = true <-> y < x.
Proof. unfold Rgt_b. destruct (Rlt_dec y x); split; intros; try easy. Qed.

Lemma Rgt_b_false (x y : R) : Rgt_b x y = false <-> x <= y.
Proof.
  unfold Rgt_b. destruct (Rlt_dec y x); split; intros; try easy; lra.
Qed.

(** Case analysis on every comparison of a ladder of thresholds. *)
Ltac split_ladder :=
  repeat match goal with
    | |- context [Rge_b ?a ?b] =>
        let E := fresh "E" in
        destruct (Rge_b a b) eqn:E;
        [apply Rge_b_true in E | apply Rge_b_false in E];
        cbv iota
    | |- context [Rgt_b ?a ?b] =>
        let E := fresh "E" in
        destruct (Rgt_b a b) eqn:E;
        [apply Rgt_b_true in E | apply Rgt_b_false in E];
        cbv iota
    | |- context [Rlt_b ?a ?b] =>
        let E := fresh "E" in
        destruct (Rlt_b a b) eqn:E;
        [apply Rlt_b_true in E | apply Rlt_b_false in E];
        cbv iota
    | |- context [(?a <=? ?b)%nat] => destruct (Nat.leb_spec a b); cbv iota
    | |- context [(?a <? ?b)%nat] => destruct (Nat.ltb_spec a b); cbv iota
    end.

(** A ladder that adds to a score is the score plus a ladder. *)
Lemma ladder2_add (c1 c2 : bool) (s a b : R) :
  (if c1 then s + a else if c2 then s + b else s)
  = s + (if c1 then a else if c2 then b else 0).
Proof. destruct c1, c2; lra. Qed.

Lemma ladder3_add (c1 c2 c3 : bool) (s a b c : R) :
  (if c1 then s + a else if c2 then s + b else if c3 then s + c else s)
  = s + (if c1 then a else if c2 then b else if c3 then c else 0).
Proof. destruct c1, c2, c3; lra. Qed.

Lemma ladder4_add (c1 c2 c3 c4 : bool) (s a b c d : R) :
  (if c1 then s + a else if c2 then s + b else if c3 then s + c
   else if c4 then s + d else s)
  = s + (if c1 then a else if c2 then b else if c3 then c
         else if c4 then d else 0).
Proof. destruct c1, c2, c3, c4; lra. Qed.

Lemma Rmin_1_range (x : R) : 0 <= x -> 0 <= Rmin x 1 <= 1.
Proof.
  intros Hx. unfold Rmin. destruct (Rle_dec x 1); lra.
Qed.

Lemma Rmin_1_le (x y : R) : x <= y -> Rmin x 1 <= Rmin y 1.
Proof.
  intros Hxy. unfold Rmin.
  destruct (Rle_dec x 1); destruct (Rle_dec y 1); lra.
Qed.

Lemma Rmin_1_ge (x c : R) : c <= Rmin x 1 -> c <= x.
Proof.
  unfold Rmin. destruct (Rle_dec x 1); lra.
Qed.

(** The four factors of the high-dollar score. *)
Lemma high_dollar_score_sum (total_claims : nat)
  (total_cost avg_cost cash_percentage : R) :
  HighDollarClaimAgent._calculate_fraud_score total_claims total_cost
    avg_cost cash_percentage
  = Rmin
      (0
       + (if (10 <=? total_claims)%nat then 0.25
          else if (5 <=? total_claims)%nat then 0.15
          else if (2 <=? total_claims)%nat then 0.10 else 0)
       + (if Rge_b total_cost 10000 then 0.25
          else if Rge_b total_cost 5000 then 0.15
          else if Rge_b total_cost 2000 then 0.10 else 0)
       + (if Rge_b avg_cost 1000 then 0.25
          else if Rge_b avg_cost 500 then 0.15
          else if Rge_b avg_cost 300 then 0.10 else 0)
       + (if Rge_b cash_percentage 80 then 0.25
          else if Rge_b cash_percentage 60 then 0.15
          else if Rge_b cash_percentage 40 then 0.10 else 0))
      1.
Proof.
  unfold HighDollarClaimAgent._calculate_fraud_score. cbv zeta.
  rewrite !ladder3_add. reflexivity.
Qed.

Lemma count_ladder (n a b c : nat) (x y z : R) :
  (c <= b)%nat -> (b <= a)%nat -> 0 <= z <= y -> y <= x ->
  let f :=
    if (a <=? n)%nat then x
    else if (b <=? n)%nat then y
    else if (c <=? n)%nat then z else 0 in
  0 <= f <= x /\ ((n < c)%nat -> f = 0).
Proof.
  intros Hcb Hba Hz Hy. split_ladder; cbv zeta; repeat split; intros;
    try lra; try lia.
Qed.

Lemma count_ladder_monotone (n n' a b c : nat) (x y z : R) :
  (n <= n')%nat -> (c <= b)%nat -> (b <= a)%nat -> 0 <= z <= y -> y <= x ->
  (if (a <=? n)%nat then x
   else if (b <=? n)%nat then y
   else if (c <=? n)%nat then z else 0)
  <= (if (a <=? n')%nat then x
      else if (b <=? n')%nat then y
      else if (c <=? n')%nat then z else 0).
Proof.
  intros Hn Hcb Hba Hz Hy. split_ladder; try lra; lia.
Qed.

Lemma real_ladder (v a b c : R) (x y z : R) :
  c <= b -> b <= a -> 0 <= z <= y -> y <= x ->
  let f :=
    if Rge_b v a then x
    else if Rge_b v b then y
    else if Rge_b v c then z else 0 in
  0 <= f <= x /\ (v < c -> f = 0).
Proof.
  intros Hcb Hba Hz Hy. split_ladder; cbv zeta; repeat split; intros; lra.
Qed.

Lemma real_ladder_monotone (v v' a b c : R) (x y z : R) :
  v <= v' -> c <= b -> b <= a -> 0 <= z <= y -> y <= x ->
  (if Rge_b v a then x
   else if Rge_b v b then y
   else if Rge_b v c then z else 0)
  <= (if Rge_b v' a then x
      else if Rge_b v' b then y
      else if Rge_b v' c then z else 0).
Proof.
  intros Hv Hcb Hba Hz Hy. split_ladder; lra.
Qed.

(** The high-dollar score lies between 0 and 1, and a score of 0.8 or more
    needs every one of the four risk factors to be present. *)
Theorem high_dollar_score_range (total_claims : nat)
  (total_cost avg_cost cash_percentage : R) :
  let score :=
    HighDollarClaimAgent._calculate_fraud_score total_claims total_cost
      avg_cost cash_percentage in
  0 <= score <= 1
  /\ (0.8 <= score ->
      (2 <= total_claims)%nat /\ 2000 <= total_cost /\ 300 <= avg_cost
      /\ 40 <= cash_percentage).
Proof.
  cbv zeta. rewrite high_dollar_score_sum.
  destruct (count_ladder total_claims 10 5 2 0.25 0.15 0.10)
    as [B1 Z1]; try lia; try lra.
  destruct (real_ladder total_cost 10000 5000 2000 0.25 0.15 0.10)
    as [B2 Z2]; try lra.
  destruct (real_ladder avg_cost 1000 500 300 0.25 0.15 0.10)
    as [B3 Z3]; try lra.
  destruct (real_ladder cash_percentage 80 60 40 0.25 0.15 0.10)
    as [B4 Z4]; try lra.
  cbv zeta in *. split.
  - apply Rmin_1_range. lra.
  - intros H. apply Rmin_1_ge in H.
    split; [| split; [| split]].
    + destruct (le_lt_dec 2 total_claims) as [Hc | Hc]; [exact Hc |].
      rewrite (Z1 Hc) in H. lra.
    + destruct (Rle_lt_dec 2000 total_cost) as [Hc | Hc]; [exact Hc |].
      rewrite (Z2 Hc) in H. lra.
    + destruct (Rle_lt_dec 300 avg_cost) as [Hc | Hc]; [exact Hc |].
      rewrite (Z3 Hc) in H. lra.
    + destruct (Rle_lt_dec 40 cash_percentage) as [Hc | Hc]; [exact Hc |].
      rewrite (Z4 Hc) in H. lra.
Qed.

(** The high-dollar score never decreases when a count, a cost or the cash
    percentage grows. *)
Theorem high_dollar_score_monotone (n n' : nat) (tc tc' ac ac' cp cp' : R) :
  (n <= n')%nat -> tc <= tc' -> ac <= ac' -> cp <= cp' ->
  HighDollarClaimAgent._calculate_fraud_score n tc ac cp
  <= HighDollarClaimAgent._calculate_fraud_score n' tc' ac' cp'.
Proof.
  intros Hn Htc Hac Hcp. rewrite !high_dollar_score_sum.
  apply Rmin_1_le.
  repeat apply Rplus_le_compat; try apply Rle_refl.
  - apply count_ladder_monotone; try lia; try lra.
  - apply real_ladder_monotone; lra.
  - apply real_ladder_monotone; lra.
  - apply real_ladder_monotone; lra.
Qed.

Lemma high_dollar_score_monotone_witness :
  HighDollarClaimAgent._calculate_fraud_score 2 2000 300 40
  <= HighDollarClaimAgent._calculate_fraud_score 10 10000 1000 80.
Proof.
  apply high_dollar_score_monotone; [lia | lra | lra | lra].
Defined.

Example high_dollar_score_maximum :
  HighDollarClaimAgent._calculate_fraud_score 10 10000 1000 80 = 1.
Proof.
  rewrite high_dollar_score_sum. split_ladder; try lra; try lia.
  unfold Rmin. destruct (Rle_dec _ 1); lra.
Qed.

Lemma real_ladder4 (v a b c d : R) (x y z w : R) :
  d <= c -> c <= b -> b <= a -> 0 <= w <= z -> z <= y -> y <= x ->
  let f :=
    if Rge_b v a then x
    else if Rge_b v b then y
    else if Rge_b v c then z
    else if Rge_b v d then w else 0 in
  0 <= f <= x /\ (v < d -> f = 0) /\ (v < c -> f <= w).
Proof.
  intros Hdc Hcb Hba Hw Hz Hy.
  split_ladder; cbv zeta; repeat split; intros; lra.
Qed.

Lemma count_ladder_below (n a b c : nat) (x y z : R) :
  (c <= b)%nat -> (b <= a)%nat -> 0 <= z <= y -> y <= x ->
  ((n < a)%nat ->
   (if (a <=? n)%nat then x
    else if (b <=? n)%nat then y
    else if (c <=? n)%nat then z else 0) <= y)
  /\ ((n < b)%nat ->
      (if (a <=? n)%nat then x
       else if (b <=? n)%nat then y
       else if (c <=? n)%nat then z else 0) <= z).
Proof.
  intros Hcb Hba Hz Hy. split; intros Hn; split_ladder; try lra; lia.
Qed.

(** The three factors of the rejection score. *)
Lemma rejection_score_sum (total_claims rejected_claims : nat)
  (rejection_percentage : R) :
  RejectedClaimDensityAgent._calculate_fraud_score total_claims
    rejected_claims rejection_percentage
  = Rmin
      (0
       + (if Rge_b rejection_percentage 50 then 0.4
          else if Rge_b rejection_percentage 30 then 0.3
          else if Rge_b rejection_percentage 20 then 0.2
          else if Rge_b rejection_percentage 10 then 0.1 else 0)
       + (if (20 <=? rejected_claims)%nat then 0.3
          else if (10 <=? rejected_claims)%nat then 0.2
          else if (5 <=? rejected_claims)%nat then 0.1 else 0)
       + (if (50 <=? total_claims)%nat then 0.3
          else if (20 <=? total_claims)%nat then 0.2
          else if (10 <=? total_claims)%nat then 0.1 else 0))
      1.
Proof.
  unfold RejectedClaimDensityAgent._calculate_fraud_score. cbv zeta.
  rewrite ladder3_add, ladder3_add, ladder4_add. reflexivity.
Qed.

(** The rejection score lies between 0 and 1; a score of 0.8 or more needs
    a rejection percentage of at least 20 and at least 5 rejected claims,
    and, the rejected claims being claims of the pharmacy, at least 20
    claims. *)
Theorem rejection_score_range (total_claims rejected_claims : nat)
  (rejection_percentage : R) :
  let score :=
    RejectedClaimDensityAgent._calculate_fraud_score total_claims
      rejected_claims rejection_percentage in
  0 <= score <= 1
  /\ (0.8 <= score ->
      20 <= rejection_percentage /\ (5 <= rejected_claims)%nat
      /\ ((rejected_claims <= total_claims)%nat ->
          (20 <= total_claims)%nat)).
Proof.
  cbv zeta. rewrite rejection_score_sum.
  destruct (real_ladder4 rejection_percentage 50 30 20 10 0.4 0.3 0.2 0.1)
    as [B1 [_ L1]]; try lra.
  destruct (count_ladder rejected_claims 20 10 5 0.3 0.2 0.1)
    as [B2 Z2]; try lia; try lra.
  destruct (count_ladder_below rejected_claims 20 10 5 0.3 0.2 0.1)
    as [L2 _]; try lia; try lra.
  destruct (count_ladder total_claims 50 20 10 0.3 0.2 0.1)
    as [B3 _]; try lia; try lra.
  destruct (count_ladder_below total_claims 50 20 10 0.3 0.2 0.1)
    as [_ L3]; try lia; try lra.
  cbv zeta in *. split.
  - apply Rmin_1_range. lra.
  - intros H. apply Rmin_1_ge in H.
    split; [| split].
    + destruct (Rle_lt_dec 20 rejection_percentage) as [Hc | Hc];
        [exact Hc |].
      specialize (L1 Hc). lra.
    + destruct (le_lt_dec 5 rejected_claims) as [Hc | Hc]; [exact Hc |].
      rewrite (Z2 Hc) in H. lra.
    + intros Hle.
      destruct (le_lt_dec 20 total_claims) as [Hc | Hc]; [exact Hc |].
      assert (Hr : (rejected_claims < 20)%nat) by lia.
      specialize (L2 Hr). specialize (L3 Hc). lra.
Qed.

(** The three factors of the network score. *)
Lemma network_score_sum (total_claims network_claims non_network_claims : nat)
  (is_primarily_network : bool) (network_type : string) :
  let non_network_percentage :=
    if (0 <? total_claims)%nat
    then INR non_network_claims / INR total_claims * 100
    else 0 in
  PharmacyNetworkAnomalyAgent._calculate_network_fraud_score total_claims
    network_claims non_network_claims is_primarily_network network_type
  = Rmin
      (0
       + (if Rge_b non_network_percentage 80 then 0.4
          else if Rge_b non_network_percentage 60 then 0.3
          else if Rge_b non_network_percentage 40 then 0.2
          else if Rge_b non_network_percentage 20 then 0.1 else 0)
       + (if mem network_type ["Unknown"; "None"; ""]
             && (5 <? total_claims)%nat
          then 0.3
          else if mem network_type ["Independent"; "Small Chain"]
                  && Rgt_b non_network_percentage 50
          then 0.2 else 0)
       + (if (50 <=? total_claims)%nat && Rgt_b non_network_percentage 30
          then 0.3
          else if (20 <=? total_claims)%nat
                  && Rgt_b non_network_percentage 50
          then 0.2
          else if (10 <=? total_claims)%nat
                  && Rgt_b non_network_percentage 70
          then 0.1 else 0))
      1.
Proof.
  unfold PharmacyNetworkAnomalyAgent._calculate_network_fraud_score.
  cbv zeta. rewrite ladder3_add, ladder2_add, ladder4_add. reflexivity.
Qed.

(** The network score lies between 0 and 1.  A pharmacy whose non-network
    claims are less than 20 percent of its claims scores 0.3 when its
    network type is unknown and it has more than 5 claims, and 0
    otherwise. *)
Theorem network_score_range
  (total_claims network_claims non_network_claims : nat)
  (is_primarily_network : bool) (network_type : string) :
  let score :=
    PharmacyNetworkAnomalyAgent._calculate_network_fraud_score total_claims
      network_claims non_network_claims is_primarily_network network_type in
  0 <= score <= 1
  /\ ((5 * non_network_claims < total_claims)%nat ->
      score = if mem network_type ["Unknown"; "None"; ""]
                 && (5 <? total_claims)%nat
              then 0.3 else 0).
Proof.
  cbv zeta. rewrite network_score_sum. cbv zeta.
  set (pct := if (0 <? total_claims)%nat
              then INR non_network_claims / INR total_claims * 100
              else 0).
  split.
  - apply Rmin_1_range.
    destruct (real_ladder4 pct 80 60 40 20 0.4 0.3 0.2 0.1)
      as [B1 _]; try lra.
    cbv zeta in B1.
    assert (B2 : 0 <= (if mem network_type ["Unknown"; "None"; ""]
                          && (5 <? total_claims)%nat
                       then 0.3
                       else if mem network_type ["Independent"; "Small Chain"]
                               && Rgt_b pct 50
                       then 0.2 else 0)).
    { repeat match goal with
             | |- context [if ?c then _ else _] => destruct c
             end; lra. }
    assert (B3 : 0 <= (if (50 <=? total_claims)%nat && Rgt_b pct 30
                       then 0.3
                       else if (20 <=? total_claims)%nat && Rgt_b pct 50
                       then 0.2
                       else if (10 <=? total_claims)%nat && Rgt_b pct 70
                       then 0.1 else 0)).
    { repeat match goal with
             | |- context [if ?c then _ else _] => destruct c
             end; lra. }
    lra.
  - intros Hfew.
    assert (Hpct : 0 <= pct < 20).
    { subst pct. destruct (Nat.ltb_spec 0 total_claims) as [Ht | Ht];
        [| lra].
      assert (H0 : 0 < INR total_claims) by (apply lt_0_INR; exact Ht).
      assert (Hn : 0 <= INR non_network_claims) by apply pos_INR.
      assert (H5 : 5 * INR non_network_claims < INR total_claims).
      { apply lt_INR in Hfew. rewrite mult_INR in Hfew.
        simpl INR in Hfew. lra. }
      split.
      - apply Rmult_le_pos; [| lra].
        apply Rmult_le_pos; [exact Hn |].
        apply Rlt_le, Rinv_0_lt_compat. exact H0.
      - apply (Rmult_lt_reg_r (INR total_claims)); [exact H0 |].
        unfold Rdiv. field_simplify; lra. }
    assert (G80 : Rge_b pct 80 = false) by (apply Rge_b_false; lra).
    assert (G60 : Rge_b pct 60 = false) by (apply Rge_b_false; lra).
    assert (G40 : Rge_b pct 40 = false) by (apply Rge_b_false; lra).
    assert (G20 : Rge_b pct 20 = false) by (apply Rge_b_false; lra).
    assert (T30 : Rgt_b pct 30 = false) by (apply Rgt_b_false; lra).
    assert (T50 : Rgt_b pct 50 = false) by (apply Rgt_b_false; lra).
    assert (T70 : Rgt_b pct 70 = false) by (apply Rgt_b_false; lra).
    rewrite G80, G60, G40, G20, T30, T50, T70, !andb_false_r.
    unfold Rmin.
    destruct (_ && _); destruct (Rle_dec _ 1); lra.
Qed.

Lemma coverage_ladder (pct : R) :
  let score := fst (CoverageTypeAgent.score_and_reason pct) in
  let why := snd (CoverageTypeAgent.score_and_reason pct) in
  In score [0; 0.1; 0.3; 0.6; 0.8; 1]
  /\ (0.8 <= score <-> 75 < pct)
  /\ (score = 0 <-> pct <= 0)
  /\ (why = "Normal" <-> pct <= 0).
Proof.
  unfold CoverageTypeAgent.score_and_reason.
  split_ladder; cbv zeta; cbn [fst snd];
    (split; [simpl; tauto |]);
    repeat split; intros; try lra; try discriminate; try reflexivity.
Qed.

Lemma round3_ladder_value (x : R) :
  In x [0; 0.1; 0.3; 0.6; 0.8; 1] -> round3 x = x.
Proof.
  simpl. intros [H | [H | [H | [H | [H | [H | []]]]]]]; subst x.
  - replace 0 with (IZR 0 / 1000) by lra. apply round3_thousandths.
  - replace 0.1 with (IZR 100 / 1000) by lra. apply round3_thousandths.
  - replace 0.3 with (IZR 300 / 1000) by lra. apply round3_thousandths.
  - replace 0.6 with (IZR 600 / 1000) by lra. apply round3_thousandths.
  - replace 0.8 with (IZR 800 / 1000) by lra. apply round3_thousandths.
  - replace 1 with (IZR 1000 / 1000) by lra. apply round3_thousandths.
Qed.

Lemma percent_compare (part total : nat) (k : R) :
  (0 < total)%nat ->
  (k < INR part / INR total * 100 <-> k * INR total < 100 * INR part).
Proof.
  intros Ht. assert (H0 : 0 < INR total) by (apply lt_0_INR; exact Ht).
  replace (INR part / INR total * 100)
    with (100 * INR part / INR total) by (field; lra).
  split; intros H.
  - apply (Rmult_lt_compat_r (INR total)) in H; [| exact H0].
    unfold Rdiv in H. rewrite Rmult_assoc, Rinv_l, Rmult_1_r in H by lra.
    exact H.
  - apply (Rmult_lt_reg_r (INR total)); [exact H0 |].
    unfold Rdiv. rewrite Rmult_assoc, Rinv_l, Rmult_1_r by lra. exact H.
Qed.

Lemma percent_range (part total : nat) :
  (0 < total)%nat -> (part <= total)%nat ->
  0 <= INR part / INR total * 100 <= 100.
Proof.
  intros Ht Hle. assert (H0 : 0 < INR total) by (apply lt_0_INR; exact Ht).
  assert (Hp : 0 <= INR part) by apply pos_INR.
  assert (Hpt : INR part <= INR total) by (apply le_INR; exact Hle).
  destruct (Rle_lt_dec 0 (INR part / INR total * 100)) as [H | H];
    destruct (Rle_lt_dec (INR part / INR total * 100) 100) as [H' | H'];
    try (split; assumption).
  - apply (percent_compare part total 100 Ht) in H'. lra.
  - exfalso. assert (Hq : 0 <= INR part / INR total).
    { apply Rmult_le_pos; [exact Hp |].
      apply Rlt_le, Rinv_0_lt_compat. exact H0. }
    lra.
  - apply (percent_compare part total 100 Ht) in H'. lra.
Qed.

(** The coverage agent scores a pharmacy on the share of its claims that
    are flagged: the score is one of six values that the rounding to three
    decimals leaves alone, it reaches 0.8 exactly when more than three
    quarters of the claims are flagged, and it is 0, with the reason
    [Normal], exactly when no claim is flagged. *)
Theorem coverage_score_of_share (flagged_claims total_claims : nat) :
  (flagged_claims <= total_claims)%nat ->
  let pct := CoverageTypeAgent.flagged_percent flagged_claims total_claims in
  let score := fst (CoverageTypeAgent.score_and_reason pct) in
  let why := snd (CoverageTypeAgent.score_and_reason pct) in
  0 <= pct <= 100
  /\ In score [0; 0.1; 0.3; 0.6; 0.8; 1]
  /\ round3 score = score
  /\ (0.8 <= score <-> (3 * total_claims < 4 * flagged_claims)%nat)
  /\ (score = 0 <-> flagged_claims = 0%nat)
  /\ (why = "Normal" <-> flagged_claims = 0%nat).
Proof.
  intros Hle pct score why.
  destruct (coverage_ladder pct) as [Hin [H8 [H0 Hn]]].
  fold score in Hin, H8, H0. fold why in Hn.
  assert (Hpct : 0 <= pct <= 100
                 /\ (75 < pct <-> (3 * total_claims < 4 * flagged_claims)%nat)
                 /\ (pct <= 0 <-> flagged_claims = 0%nat)).
  { subst pct. unfold CoverageTypeAgent.flagged_percent.
    destruct (Nat.ltb_spec 0 total_claims) as [Ht | Ht].
    - split; [apply percent_range; assumption |]. split.
      + rewrite (percent_compare _ _ 75 Ht). split; intros H.
        * apply INR_lt. rewrite !mult_INR. simpl INR. lra.
        * apply lt_INR in H. rewrite !mult_INR in H. simpl INR in H. lra.
      + split; intros H.
        * destruct flagged_claims as [|f]; [reflexivity |].
          exfalso.
          assert (Hp : 0 < INR (S f) / INR total_claims * 100).
          { apply (percent_compare (S f) total_claims 0 Ht).
            assert (0 < INR (S f)) by (apply lt_0_INR; lia). lra. }
          lra.
        * subst flagged_claims. simpl INR. unfold Rdiv. lra.
    - split; [lra |]. split; split; intros; try lra; try lia. }
  destruct Hpct as [Hr [H75 Hz]].
  split; [exact Hr |]. split; [exact Hin |].
  split; [apply round3_ladder_value; exact Hin |].
  split; [rewrite H8; exact H75 |].
  split; [rewrite H0; exact Hz | rewrite Hn; exact Hz].
Qed.

Lemma coverage_score_of_share_witness :
  0.8 <= fst (CoverageTypeAgent.score_and_reason
                (CoverageTypeAgent.flagged_percent 4 5))
  <-> (3 * 5 < 4 * 4)%nat.
Proof.
  apply (coverage_score_of_share 4 5). lia.
Defined.

(** ** The scores on the values the agents compute *)

(** The rejection agent reports the pharmacies with at least one rejected
    claim.  On the percentage it computes for such a pharmacy, the score
    is at least 0.1, and a score of 0.8 or more needs at least 20 claims
    of which at least a fifth are rejected. *)
Theorem rejection_score_reported (total_claims rejected_claims : nat) :
  (0 < rejected_claims)%nat -> (rejected_claims <= total_claims)%nat ->
  let pct :=
    RejectedClaimDensityAgent.rejection_percentage total_claims
      rejected_claims in
  let score :=
    RejectedClaimDensityAgent._calculate_fraud_score total_claims
      rejected_claims pct in
  0 < pct <= 100
  /\ 0.1 <= score <= 1
  /\ (0.8 <= score ->
      (20 <= total_claims)%nat
      /\ (total_claims <= 5 * rejected_claims)%nat).
Proof.
  intros Hpos Hle. cbv zeta.
  unfold RejectedClaimDensityAgent.rejection_percentage.
  assert (Ht : (0 < total_claims)%nat) by lia.
  rewrite (proj2 (Nat.ltb_lt 0 total_claims) Ht).
  set (pct := INR rejected_claims / INR total_claims * 100).
  assert (HRt : 0 < INR total_claims) by (apply lt_0_INR; exact Ht).
  assert (HRr : 1 <= INR rejected_claims)
    by (change 1 with (INR 1); apply le_INR; lia).
  assert (Hpt : pct * INR total_claims = 100 * INR rejected_claims)
    by (unfold pct; field; lra).
  assert (Hrange : 0 <= pct <= 100)
    by (apply percent_range; assumption).
  assert (Hpct : 0 < pct).
  { apply (proj2 (percent_compare rejected_claims total_claims 0 Ht)). lra. }
  rewrite rejection_score_sum.
  destruct (real_ladder4 pct 50 30 20 10 0.4 0.3 0.2 0.1)
    as [B1 [_ L1]]; try lra.
  destruct (count_ladder rejected_claims 20 10 5 0.3 0.2 0.1)
    as [B2 _]; try lia; try lra.
  destruct (count_ladder_below rejected_claims 20 10 5 0.3 0.2 0.1)
    as [L2 _]; try lia; try lra.
  destruct (count_ladder total_claims 50 20 10 0.3 0.2 0.1)
    as [B3 _]; try lia; try lra.
  destruct (count_ladder_below total_claims 50 20 10 0.3 0.2 0.1)
    as [_ L3]; try lia; try lra.
  cbv zeta in B1, L1, B2, B3.
  set (f1 := if Rge_b pct 50 then 0.4
             else if Rge_b pct 30 then 0.3
             else if Rge_b pct 20 then 0.2
             else if Rge_b pct 10 then 0.1 else 0) in *.
  set (f2 := if (20 <=? rejected_claims)%nat then 0.3
             else if (10 <=? rejected_claims)%nat then 0.2
             else if (5 <=? rejected_claims)%nat then 0.1 else 0) in *.
  set (f3 := if (50 <=? total_claims)%nat then 0.3
             else if (20 <=? total_claims)%nat then 0.2
             else if (10 <=? total_claims)%nat then 0.1 else 0) in *.
  assert (Hlow : 0.1 <= f1 + f3).
  { destruct (le_lt_dec 10 total_claims) as [Hbig | Hsmall].
    - assert (0.1 <= f3); [| lra].
      unfold f3.
      destruct (50 <=? total_claims)%nat; [lra |].
      destruct (20 <=? total_claims)%nat; [lra |].
      rewrite (proj2 (Nat.leb_le 10 total_claims) Hbig). lra.
    - assert (0.1 <= f1); [| lra].
      assert (HRs : INR total_claims <= 9).
      { replace 9 with (INR 9) by (simpl; lra). apply le_INR. lia. }
      assert (H10 : 10 <= pct) by nra.
      unfold f1.
      destruct (Rge_b pct 50); [lra |].
      destruct (Rge_b pct 30); [lra |].
      destruct (Rge_b pct 20); [lra |].
      rewrite (proj2 (Rge_b_true pct 10) H10). lra. }
  split; [lra |].
  split.
  - split.
    + apply Rmin_glb; lra.
    + apply Rmin_r.
  - intros Hhigh. apply Rmin_1_ge in Hhigh.
    assert (H20 : 20 <= pct).
    { destruct (Rle_dec 20 pct) as [H | H]; [exact H |].
      assert (f1 <= 0.1) by (apply L1; lra). lra. }
    assert (Hfifth : (total_claims <= 5 * rejected_claims)%nat).
    { apply INR_le. rewrite mult_INR.
      replace (INR 5) with 5 by (simpl; lra). nra. }
    split; [| exact Hfifth].
    destruct (le_lt_dec 20 total_claims) as [H | H]; [exact H |].
    exfalso.
    assert (f3 <= 0.1) by (apply L3; exact H).
    assert (f2 <= 0.2) by (apply L2; lia).
    lra.
Qed.

Lemma rejection_score_reported_witness :
  0.1 <= RejectedClaimDensityAgent._calculate_fraud_score 4 1
           (RejectedClaimDensityAgent.rejection_percentage 4 1)
  <= 1.
Proof.
  apply (rejection_score_reported 4 1); lia.
Defined.

Lemma sum_unit_interval (l : list R) :
  (forall x, In x l -> 0 <= x <= 1) -> 0 <= sum l <= INR (List.length l).
Proof.
  induction l as [|x l IH]; intros H.
  - rewrite sum_nil. simpl. lra.
  - rewrite sum_cons. change (List.length (x :: l)) with (S (List.length l)).
    rewrite S_INR.
    assert (0 <= x <= 1) by (apply H; left; reflexivity).
    assert (0 <= sum l <= INR (List.length l))
      by (apply IH; intros y Hy; apply H; right; exact Hy).
    lra.
Qed.

Lemma sum_above (c : R) (l : list R) :
  INR (List.length l) * c < sum l -> exists s, In s l /\ c < s.
Proof.
  induction l as [|x l IH]; intros H.
  - rewrite sum_nil in H. simpl in H. lra.
  - rewrite sum_cons in H.
    change (List.length (x :: l)) with (S (List.length l)) in H.
    rewrite S_INR in H.
    destruct (Rlt_dec c x) as [Hx | Hx].
    + exists x. split; [left; reflexivity | exact Hx].
    + destruct IH as [s [Hin Hs]]; [lra |].
      exists s. split; [right; exact Hin | exact Hs].
Qed.

(** With a network score and agent scores between 0 and 1, the enhanced
    score of the network agent lies between 0 and 1, and the network score
    alone never lifts it to 0.8: some row of another agent scores above
    0.7. *)
Theorem enhanced_score_range (network_score : R) (agent_scores : list R) :
  0 <= network_score <= 1 ->
  (forall s, In s agent_scores -> 0 <= s <= 1) ->
  let score :=
    PharmacyNetworkAnomalyAgent.enhanced_score network_score agent_scores in
  0 <= score <= 1
  /\ (0.8 <= score -> exists s, In s agent_scores /\ 0.7 < s).
Proof.
  intros Hn Hs. cbv zeta.
  unfold PharmacyNetworkAnomalyAgent.enhanced_score. cbv zeta.
  pose proof (sum_unit_interval agent_scores Hs) as Hsum.
  destruct agent_scores as [|x rest] eqn:E.
  - cbn [truthy]. split; [lra |]. intros H. exfalso. lra.
  - cbn [truthy]. rewrite <- E in *.
    set (n := INR (List.length agent_scores)) in *.
    assert (Hpos : 0 < n).
    { subst n. rewrite E. apply lt_0_INR. simpl. lia. }
    set (avg := sum agent_scores / n).
    assert (Havg : avg * n = sum agent_scores)
      by (unfold avg; field; lra).
    assert (Hrange : 0 <= avg <= 1) by (split; nra).
    split; [lra |].
    intros H. apply sum_above. fold n. nra.
Qed.

Lemma enhanced_score_range_witness :
  0 <= PharmacyNetworkAnomalyAgent.enhanced_score 1 [0.5; 1] <= 1.
Proof.
  apply (enhanced_score_range 1 [0.5; 1]).
  - lra.
  - intros s Hs. simpl in Hs. destruct Hs as [E | [E | []]]; subst s; lra.
Defined.

(** ** Agreement of the agents *)

Lemma truthy_length {A : Type} (l : list A) :
  (0 <? List.length l)%nat = truthy l.
Proof. destruct l; reflexivity. Qed.

Lemma truthy_map {A B : Type} (f : A -> B) (l : list A) :
  truthy (map f l) = truthy l.
Proof. destruct l; reflexivity. Qed.

Lemma filter_values {V : Type} (p : V -> bool) (d : Dict V) :
  dict_values (filter (fun e => p (snd e)) d) = filter p (dict_values d).
Proof.
  unfold dict_values. induction d as [|[k v] d IH]; simpl; [reflexivity |].
  destruct (p v); simpl; rewrite IH; reflexivity.
Qed.

Lemma high_risk_agents_truthy (agent_scores : Dict R) :
  truthy (dict_keys (filter (fun e => Rge_b (snd e) 0.8) agent_scores)) = true
  <-> any_high agent_scores.
Proof.
  rewrite <- any_high_truthy, <- (filter_values (fun s => Rge_b s 0.8)).
  unfold dict_keys, dict_values. rewrite !truthy_map. tauto.
Qed.

Lemma low_risk_agents_truthy (agent_scores : Dict R) :
  truthy (dict_keys (filter (fun e => Rlt_b (snd e) 0.4) agent_scores)) = true
  <-> any_low agent_scores.
Proof.
  rewrite <- any_low_truthy, <- (filter_values (fun s => Rlt_b s 0.4)).
  unfold dict_keys, dict_values. rewrite !truthy_map. tauto.
Qed.

(** A high and a low score are two scores. *)
Lemma conflicting_two_scores (agent_scores : Dict R) :
  any_high agent_scores -> any_low agent_scores ->
  (2 <= List.length agent_scores)%nat.
Proof.
  intros [h [Hh Hh8]] [l [Hl Hl4]].
  unfold dict_values in *.
  destruct agent_scores as [|e1 [|e2 rest]]; simpl in *; try lia.
  destruct Hh as [Hh | []]. destruct Hl as [Hl | []]. exfalso. lra.
Qed.

Lemma consistency_conflicting_iff (agent_scores : Dict R) :
  _calculate_consistency_score agent_scores = 0.3
  <-> any_high agent_scores /\ any_low agent_scores.
Proof.
  split.
  - unfold _calculate_consistency_score.
    destruct (List.length agent_scores <? 2)%nat; [lra |].
    destruct (truthy (filter (fun s => Rge_b s 0.8) _)) eqn:Eh;
      destruct (truthy (filter (fun s => Rlt_b s 0.4) _)) eqn:El;
      simpl; try lra.
    intros _. split; [apply any_high_truthy | apply any_low_truthy];
      assumption.
  - intros [Hh Hl].
    apply (consistency_several agent_scores true true);
      [apply conflicting_two_scores |..]; assumption.
Qed.

Lemma consistency_converging_high_iff (agent_scores : Dict R) :
  _calculate_consistency_score agent_scores = 0.9
  <-> (2 <= List.length agent_scores)%nat
      /\ any_high agent_scores /\ ~ any_low agent_scores.
Proof.
  split.
  - unfold _calculate_consistency_score.
    destruct (Nat.ltb_spec (List.length agent_scores) 2); [lra |].
    destruct (truthy (filter (fun s => Rge_b s 0.8) _)) eqn:Eh;
      destruct (truthy (filter (fun s => Rlt_b s 0.4) _)) eqn:El;
      simpl; try lra.
    intros _. split; [assumption |].
    split; [apply any_high_truthy; assumption |].
    rewrite <- any_low_truthy, El. discriminate.
  - intros [Hn [Hh Hl]].
    apply (consistency_several agent_scores true false); assumption.
Qed.

(** For the consistency score the engine computes, the tracker records the
    agreement [high] exactly when the score is 0.9, never the agreement
    [medium], and conflicting signals exactly when the score is 0.3. *)
Theorem tracked_agreement (agent_scores : Dict R) :
  let c := _calculate_consistency_score agent_scores in
  let patterns := cross_agent_patterns_of agent_scores c in
  (cp_agent_agreement patterns = "high" <-> c = 0.9)
  /\ cp_agent_agreement patterns <> "medium"
  /\ (cp_agent_agreement patterns = "low" <-> c <> 0.9)
  /\ (cp_conflicting_signals patterns = true <-> c = 0.3).
Proof.
  intros c patterns. subst patterns. unfold cross_agent_patterns_of.
  cbn [cp_agent_agreement cp_conflicting_signals].
  assert (Hagree : (if Rge_b c 0.8 then "high"
                    else if Rge_b c 0.6 then "medium" else "low")
                   = if Req_b c 0.9 then "high" else "low").
  { destruct (consistency_values agent_scores) as [H | [H | [H | H]]];
      fold c in H; rewrite H.
    - rewrite (proj2 (Rge_b_false 0.1 0.8)), (proj2 (Rge_b_false 0.1 0.6)),
        (proj2 (Req_b_false 0.1 0.9)) by lra. reflexivity.
    - rewrite (proj2 (Rge_b_false 0.3 0.8)), (proj2 (Rge_b_false 0.3 0.6)),
        (proj2 (Req_b_false 0.3 0.9)) by lra. reflexivity.
    - rewrite (proj2 (Rge_b_false 0.5 0.8)), (proj2 (Rge_b_false 0.5 0.6)),
        (proj2 (Req_b_false 0.5 0.9)) by lra. reflexivity.
    - rewrite (proj2 (Rge_b_true 0.9 0.8)), (proj2 (Req_b_true 0.9 0.9))
        by lra. reflexivity. }
  rewrite Hagree.
  split; [| split; [| split]].
  - destruct (Req_b c 0.9) eqn:E.
    + apply Req_b_true in E. tauto.
    + apply Req_b_false in E. split; [discriminate | contradiction].
  - destruct (Req_b c 0.9); discriminate.
  - destruct (Req_b c 0.9) eqn:E.
    + apply Req_b_true in E. split; [discriminate | contradiction].
    + apply Req_b_false in E. tauto.
  - rewrite !truthy_length, andb_true_iff.
    rewrite high_risk_agents_truthy, low_risk_agents_truthy.
    subst c. rewrite consistency_conflicting_iff. tauto.
Qed.

(** ** Distribution of the scores *)

(** The four bands of the tracker partition the scores. *)
Theorem score_distribution_partition (scores : list R) :
  let d := score_distribution scores in
  (sd_high_risk d + sd_medium_risk d + sd_low_risk d + sd_very_low_risk d)%nat
  = List.length scores.
Proof.
  cbv zeta. unfold score_distribution.
  cbn [sd_high_risk sd_medium_risk sd_low_risk sd_very_low_risk].
  induction scores as [|s scores IH]; [reflexivity |].
  cbn [filter List.length].
  split_ladder; cbn [andb List.length]; try lra; lia.
Qed.

(** ** The rows of the aggregation *)

Lemma unique_NoDup (l : list string) : NoDup (unique l).
Proof.
  induction l as [|x l IH]; simpl; constructor.
  - rewrite filter_In. intros [_ H].
    rewrite String.eqb_refl in H. discriminate.
  - apply NoDup_filter. exact IH.
Qed.

Lemma dict_set_nonempty {V : Type} (k : string) (v : V) (d : Dict V) :
  dict_set k v d <> [].
Proof.
  destruct d as [|[k' v'] d]; simpl; [discriminate |].
  destruct (String.eqb k k'); discriminate.
Qed.

Lemma collect_findings_grows (pharmacy : string)
  (agent_results : AgentResults) (acc : Dict R * Dict string * Dict Row) :
  fst (fst acc) <> [] ->
  fst (fst
         (fold_left
            (fun acc entry =>
               let '(pharmacy_scores, pharmacy_reasons, pharmacy_details) :=
                 acc in
               match pharmacy_data pharmacy (snd entry) with
               | [] => acc
               | first :: _ =>
                   (dict_set (fst entry) (fraud_score first) pharmacy_scores,
                    dict_set (fst entry) (reason first) pharmacy_reasons,
                    dict_set (fst entry) first pharmacy_details)
               end)
            agent_results acc)) <> [].
Proof.
  revert acc. induction agent_results as [|e rest IH]; intros acc Hacc;
    [exact Hacc |].
  simpl fold_left. apply IH.
  destruct acc as [[s r] d].
  destruct (pharmacy_data pharmacy (snd e)); [exact Hacc |].
  simpl. apply dict_set_nonempty.
Qed.

(** A pharmacy some agent has a row for has a contributing agent. *)
Lemma collect_findings_nonempty (pharmacy : string)
  (agent_results : AgentResults) :
  In pharmacy (flagged_pharmacies agent_results) ->
  fst (fst (collect_findings pharmacy agent_results)) <> [].
Proof.
  rewrite flagged_pharmacies_In. intros [entry [Hin Hdata]].
  unfold collect_findings.
  generalize (@nil (string * R), @nil (string * string),
               @nil (string * Row)).
  induction agent_results as [|e rest IH]; intros acc; [destruct Hin |].
  simpl fold_left. destruct Hin as [He | Hin].
  - subst e. destruct acc as [[s r] d].
    destruct (pharmacy_data pharmacy (snd entry)) as [|first others];
      [congruence |].
    apply collect_findings_grows. simpl. apply dict_set_nonempty.
  - apply IH. exact Hin.
Qed.

Section Domain.
Variable set_iter : list string -> list string.
Hypothesis set_iter_perm : forall l, Permutation (set_iter l) (unique l).

(** The aggregation returns one row for each pharmacy some agent has a row
    for, no row for any other pharmacy, and every row names at least one
    contributing agent. *)
Theorem aggregation_domain (self : WeightedScoringSystem)
  (agent_results : AgentResults) (df : Dataset) (t : Tracker) :
  let rows :=
    fst (calculate_weighted_scores set_iter self agent_results df t) in
  exists pharmacies,
    map (dict_get "pharmacy_number") rows
    = map (fun p => Some (VStr p)) pharmacies
    /\ NoDup pharmacies
    /\ (forall p,
           In p pharmacies
           <-> exists name frame row,
                 In (name, frame) agent_results /\ In row frame
                 /\ pharmacy_number row = p)
    /\ (forall row,
           In row rows ->
           exists names,
             dict_get "contributing_agents" row = Some (VNames names)
             /\ names <> []).
Proof.
  intros rows. subst rows. rewrite calculate_weighted_scores_fst.
  set (ps := set_iter (flagged_pharmacies agent_results)).
  assert (Hps : forall p, In p ps <-> In p (flagged_pharmacies agent_results)).
  { intros p. subst ps. split; intros H.
    - apply unique_In. apply (Permutation_in _ (set_iter_perm _)). exact H.
    - apply (Permutation_in _ (Permutation_sym (set_iter_perm _))).
      apply unique_In. exact H. }
  exists ps. split; [| split; [| split]].
  - rewrite map_map. apply map_ext. intros p.
    rewrite single_pharmacy_row. reflexivity.
  - apply (Permutation_NoDup (Permutation_sym (set_iter_perm _))).
    apply unique_NoDup.
  - intros p. rewrite Hps, flagged_pharmacies_In. split.
    + intros [[name frame] [Hin Hdata]]. simpl in Hdata.
      apply pharmacy_data_In in Hdata. apply in_map_iff in Hdata.
      destruct Hdata as [row [Hp Hrow]].
      exists name, frame, row. auto.
    + intros [name [frame [row [Hin [Hrow Hp]]]]].
      exists (name, frame). split; [exact Hin |].
      apply pharmacy_data_In. simpl. apply in_map_iff. exists row. auto.
  - intros row Hrow. apply in_map_iff in Hrow.
    destruct Hrow as [p [Hrow Hp]]. subst row.
    rewrite single_pharmacy_row. cbv zeta. eexists.
    split; [reflexivity |].
    unfold dict_keys. intros E. apply map_eq_nil in E.
    revert E. apply collect_findings_nonempty. apply Hps. exact Hp.
Qed.

End Domain.

Lemma aggregation_domain_witness :
  exists pharmacies,
    map (dict_get "pharmacy_number")
      (fst (calculate_weighted_scores unique default_system split_reports
              one_claim []))
    = map (fun p => Some (VStr p)) pharmacies
    /\ NoDup pharmacies.
Proof.
  destruct (aggregation_domain unique (fun l => Permutation_refl _)
              default_system split_reports one_claim [])
    as [pharmacies [Hrows [Hnd _]]].
  exists pharmacies. split; assumption.
Defined.

(** ** Bounds on the scores *)

Lemma sum_zero (l : list R) : (forall x, In x l -> x = 0) -> sum l = 0.
Proof.
  intros H. rewrite (sum_constant 0 l H). lra.
Qed.

Lemma first_rows_keys (pharmacy : string) (agent_results : AgentResults) :
  NoDup (dict_keys agent_results) ->
  NoDup (dict_keys (first_rows pharmacy agent_results)).
Proof.
  unfold dict_keys, first_rows.
  induction agent_results as [|[name frame] rest IH]; intros Hnd; simpl;
    [constructor |].
  apply NoDup_cons_iff in Hnd. destruct Hnd as [Hfresh Hnd].
  destruct (pharmacy_data pharmacy frame) as [|first others]; simpl;
    [apply IH; exact Hnd |].
  constructor; [| apply IH; exact Hnd].
  intros Hin. apply Hfresh.
  apply in_map_iff in Hin. destruct Hin as [[k r] [Hk Hin]].
  simpl in Hk. subst k. apply in_flat_map in Hin.
  destruct Hin as [[name' frame'] [Hin' Hr]]. simpl in Hr.
  destruct (pharmacy_data pharmacy frame'); [destruct Hr |].
  destruct Hr as [Hr | []]. inversion Hr. subst name'.
  apply in_map_iff. exists (name, frame'). auto.
Qed.

Lemma reports_of_keys (pharmacy : string) (agent_results : AgentResults) :
  NoDup (dict_keys agent_results) ->
  NoDup (dict_keys (reports_of pharmacy agent_results)).
Proof.
  intros Hnd. unfold reports_of. rewrite dict_keys_map_snd.
  apply first_rows_keys. exact Hnd.
Qed.

(** The scores of the reporting agents are scores of rows. *)
Lemma reports_of_scores (pharmacy : string) (agent_results : AgentResults)
  (e : string * R) :
  In e (reports_of pharmacy agent_results) ->
  exists frame row,
    In (fst e, frame) agent_results /\ In row frame
    /\ pharmacy_number row = pharmacy /\ fraud_score row = snd e.
Proof.
  unfold reports_of, first_rows. intros Hin.
  apply in_map_iff in Hin. destruct Hin as [[name first] [He Hin]].
  subst e. simpl. apply in_flat_map in Hin.
  destruct Hin as [[name' frame] [Hin' Hr]]. simpl in Hr.
  destruct (pharmacy_data pharmacy frame) as [|r others] eqn:E;
    [destruct Hr |].
  destruct Hr as [Hr | []]. inversion Hr. subst name' r.
  assert (Hf : In first (pharmacy_data pharmacy frame))
    by (rewrite E; left; reflexivity).
  apply filter_In in Hf. destruct Hf as [Hf Hp].
  apply String.eqb_eq in Hp. exists frame, first. auto.
Qed.

Lemma weighted_reports_bounds (weights reports : Dict R) :
  (forall k, 0 <= weight_of weights k) ->
  (forall e, In e reports -> 0 <= snd e <= 1) ->
  0 <= weighted_reports weights reports
  <= sum (map (weight_of weights) (dict_keys reports)).
Proof.
  intros Hw. unfold weighted_reports, dict_keys.
  induction reports as [|[k s] reports IH]; intros Hs; simpl.
  - rewrite sum_nil. lra.
  - rewrite !sum_cons.
    assert (H1 : 0 <= s <= 1) by (apply (Hs (k, s)); left; reflexivity).
    assert (H2 : 0 <= weight_of weights k) by apply Hw.
    assert (IH' := IH (fun e He => Hs e (or_intror He))).
    nra.
Qed.

Lemma mem_In (x : string) (l : list string) : mem x l = true <-> In x l.
Proof.
  unfold mem. rewrite existsb_exists. split.
  - intros [y [Hy E]]. apply String.eqb_eq in E. subst y. exact Hy.
  - intros H. exists x. split; [exact H | apply String.eqb_refl].
Qed.

(** Taking one name out of a list of distinct names. *)
Lemma peel_weight (k0 : string) (v0 : R) (weights : Dict R)
  (names : list string) :
  NoDup names ->
  let names' := filter (fun k => negb (String.eqb k k0)) names in
  let b := if mem k0 names then 1%nat else 0%nat in
  (List.length names' + b = List.length names)%nat
  /\ sum (map (weight_of ((k0, v0) :: weights)) names)
     = INR b * v0 + sum (map (weight_of weights) names').
Proof.
  induction names as [|k names IH]; intros Hnd; cbv zeta.
  - simpl. rewrite sum_nil. split; [reflexivity | lra].
  - apply NoDup_cons_iff in Hnd. destruct Hnd as [Hk Hnd].
    destruct (IH Hnd) as [Hlen Hsum]. clear IH.
    simpl map. simpl filter. rewrite sum_cons.
    unfold mem in *. simpl existsb.
    destruct (String.eqb_spec k k0) as [E | E].
    + subst k0. rewrite String.eqb_refl. simpl negb. cbv iota.
      simpl orb. cbv iota.
      assert (Hmem : existsb (String.eqb k) names = false).
      { apply not_true_is_false. intros H. apply Hk.
        apply (proj1 (mem_In k names)). exact H. }
      rewrite Hmem in Hlen, Hsum. rewrite Hsum.
      unfold weight_of at 1. simpl. rewrite String.eqb_refl.
      split; [lia |]. simpl INR. lra.
    + assert (E' : String.eqb k0 k = false).
      { apply String.eqb_neq. congruence. }
      rewrite E'. simpl negb. cbv iota. simpl orb.
      simpl map. rewrite sum_cons, Hsum.
      assert (Hw : weight_of ((k0, v0) :: weights) k = weight_of weights k).
      { unfold weight_of. simpl.
        destruct (String.eqb_spec k k0); [contradiction | reflexivity]. }
      rewrite Hw. split; [simpl; lia | lra].
Qed.

Lemma weight_of_nil (names : list string) :
  sum (map (weight_of []) names) = 0.
Proof.
  apply sum_zero. intros x Hx. apply in_map_iff in Hx.
  destruct Hx as [k [Hk _]]. subst x. reflexivity.
Qed.


Lemma weight_of_nonneg (weights : Dict R) (k : string) :
  (forall v, In v (dict_values weights) -> 0 <= v) ->
  0 <= weight_of weights k.
Proof.
  intros Hpos. unfold weight_of.
  induction weights as [|[k' v'] weights IH]; simpl; [lra |].
  destruct (String.eqb k k').
  - apply Hpos. left. reflexivity.
  - apply IH. intros v Hin. apply Hpos. right. exact Hin.
Qed.



(** The default weights of up to three distinct agents. *)
Lemma default_weights_of_names (names : list string) :
  NoDup names ->
  let total := sum (map (weight_of default_weights) names) in
  ((List.length names <= 1)%nat -> total <= 0.25)
  /\ ((List.length names <= 2)%nat -> total <= 0.45)
  /\ ((List.length names <= 3)%nat -> total <= 0.65).
Proof.
  intros Hnd. cbv zeta. unfold default_weights.
  destruct (peel_weight "coverage_agent" 0.25
              [("patient_flip_agent", 0.20); ("high_dollar_agent", 0.20);
               ("rejection_agent", 0.20); ("network_agent", 0.15)]
              names Hnd) as [L1 S1].
  set (n1 := filter (fun k => negb (String.eqb k "coverage_agent")) names)
    in *.
  assert (Hnd1 : NoDup n1) by (apply NoDup_filter; exact Hnd).
  destruct (peel_weight "patient_flip_agent" 0.20
              [("high_dollar_agent", 0.20); ("rejection_agent", 0.20);
               ("network_agent", 0.15)] n1 Hnd1) as [L2 S2].
  set (n2 := filter (fun k => negb (String.eqb k "patient_flip_agent")) n1)
    in *.
  assert (Hnd2 : NoDup n2) by (apply NoDup_filter; exact Hnd1).
  destruct (peel_weight "high_dollar_agent" 0.20
              [("rejection_agent", 0.20); ("network_agent", 0.15)]
              n2 Hnd2) as [L3 S3].
  set (n3 := filter (fun k => negb (String.eqb k "high_dollar_agent")) n2)
    in *.
  assert (Hnd3 : NoDup n3) by (apply NoDup_filter; exact Hnd2).
  destruct (peel_weight "rejection_agent" 0.20 [("network_agent", 0.15)]
              n3 Hnd3) as [L4 S4].
  set (n4 := filter (fun k => negb (String.eqb k "rejection_agent")) n3)
    in *.
  assert (Hnd4 : NoDup n4) by (apply NoDup_filter; exact Hnd3).
  destruct (peel_weight "network_agent" 0.15 [] n4 Hnd4) as [L5 S5].
  rewrite weight_of_nil in S5.
  rewrite S1, S2, S3, S4, S5.
  destruct (mem "coverage_agent" names);
    destruct (mem "patient_flip_agent" n1);
    destruct (mem "high_dollar_agent" n2);
    destruct (mem "rejection_agent" n3);
    destruct (mem "network_agent" n4);
    simpl INR; repeat split; intros; try lra; lia.
Qed.

(** Under the default weights, with scores between 0 and 1, the risk level
    of a row is bounded by the number of its contributing agents: with one
    agent it is VERY LOW RISK, with two it is at most LOW RISK, and with
    three it is not HIGH RISK. *)
Theorem risk_level_needs_agents (self : WeightedScoringSystem)
  (pharmacy : string) (agent_results : AgentResults) (df : Dataset)
  (t : Tracker) :
  current_weights self = default_weights ->
  NoDup (dict_keys agent_results) ->
  (forall name frame row,
      In (name, frame) agent_results -> In row frame ->
      0 <= fraud_score row <= 1) ->
  let row :=
    fst (_calculate_single_pharmacy_score self pharmacy agent_results df t) in
  exists names level,
    dict_get "contributing_agents" row = Some (VNames names)
    /\ dict_get "risk_level" row = Some (VStr level)
    /\ ((List.length names <= 1)%nat -> level = "VERY LOW RISK")
    /\ ((List.length names <= 2)%nat ->
        level = "VERY LOW RISK" \/ level = "LOW RISK")
    /\ ((List.length names <= 3)%nat -> level <> "HIGH RISK").
Proof.
  intros Hw Hnd Hscores row. subst row.
  rewrite single_pharmacy_row. cbv zeta.
  rewrite Hw, (collect_findings_eq pharmacy agent_results Hnd).
  cbn [fst snd].
  exists (dict_keys (reports_of pharmacy agent_results)).
  eexists. split; [reflexivity |]. split; [reflexivity |].
  rewrite (final_score_reports _ _ _ Hnd). unfold final_score_of.
  set (reports := reports_of pharmacy agent_results).
  pose proof (outlier_score_bounds pharmacy agent_results) as Ho.
  destruct (weighted_reports_bounds default_weights reports) as [H0 H1].
  { intros k. apply weight_of_nonneg. simpl. intros v Hv.
    repeat (destruct Hv as [Hv | Hv]; [subst v; lra |]). destruct Hv. }
  { intros e He. destruct (reports_of_scores _ _ _ He)
      as [frame [r [Hin [Hrow [_ Hs]]]]].
    rewrite <- Hs. apply (Hscores _ _ _ Hin Hrow). }
  destruct (default_weights_of_names (dict_keys reports))
    as [B1 [B2 B3]]; [apply reports_of_keys; exact Hnd |].
  assert (Hlen : List.length (dict_keys reports) = List.length reports)
    by (unfold dict_keys; apply length_map).
  split; [| split].
  - intros Hn. specialize (B1 Hn).
    rewrite consistency_few by lia. decide_bands.
  - intros Hn. specialize (B2 Hn).
    destruct (consistency_values reports) as [Hc | [Hc | [Hc | Hc]]];
      rewrite Hc; unfold _determine_risk_level, Rge_b;
      repeat match goal with
        | |- context [Rle_dec ?a ?b] => destruct (Rle_dec a b)
        end; try lra; auto.
  - intros Hn. specialize (B3 Hn).
    destruct (consistency_values reports) as [Hc | [Hc | [Hc | Hc]]];
      rewrite Hc; unfold _determine_risk_level, Rge_b;
      repeat match goal with
        | |- context [Rle_dec ?a ?b] => destruct (Rle_dec a b)
        end; try lra; discriminate.
Qed.

Lemma risk_level_needs_agents_witness :
  exists names level,
    dict_get "contributing_agents"
      (fst (_calculate_single_pharmacy_score default_system "PH001"
              single_report one_claim []))
    = Some (VNames names)
    /\ dict_get "risk_level"
         (fst (_calculate_single_pharmacy_score default_system "PH001"
                 single_report one_claim []))
       = Some (VStr level)
    /\ ((List.length names <= 1)%nat -> level = "VERY LOW RISK").
Proof.
  destruct (risk_level_needs_agents default_system "PH001" single_report
              one_claim [])
    as [names [level [Hn [Hl [H1 _]]]]].
  - reflexivity.
  - repeat constructor. simpl. tauto.
  - intros name frame row Hin Hrow. simpl in Hin.
    destruct Hin as [Hin | []]. inversion Hin. subst frame.
    simpl in Hrow. destruct Hrow as [H | []]; subst row; simpl; lra.
  - exists names, level. repeat split; assumption.
Defined.

(** ** More on the weight vector *)

Lemma dict_set_keeps_keys {V : Type} (k k' : string) (v : V) (d : Dict V) :
  In k (dict_keys d) -> In k (dict_keys (dict_set k' v d)).
Proof.
  unfold dict_keys. induction d as [|[k0 v0] d IH]; simpl; [tauto |].
  intros [H | H]; destruct (String.eqb k' k0); simpl; auto.
Qed.

Lemma dict_update_keeps_keys {V : Type} (k : string) (d new : Dict V) :
  In k (dict_keys d) -> In k (dict_keys (dict_update d new)).
Proof.
  unfold dict_update. revert d.
  induction new as [|[k' v'] new IH]; intros d Hin; simpl; [exact Hin |].
  apply IH. apply dict_set_keeps_keys. exact Hin.
Qed.

Lemma sum_nonneg_ge (l : list R) (v : R) :
  (forall x, In x l -> 0 <= x) -> In v l -> 0 <= v <= sum l.
Proof.
  induction l as [|x l IH]; intros Hpos Hin; [destruct Hin |].
  rewrite sum_cons.
  assert (Hx : 0 <= x) by (apply Hpos; left; reflexivity).
  assert (Hl : 0 <= sum l).
  { clear - Hpos. induction l as [|y l IH]; [rewrite sum_nil; lra |].
    rewrite sum_cons.
    assert (0 <= y) by (apply Hpos; right; left; reflexivity).
    assert (0 <= sum l).
    { apply IH. intros z [Hz | Hz]; apply Hpos; [left | right; right]; auto. }
    lra. }
  destruct Hin as [Hin | Hin].
  - subst v. lra.
  - destruct (IH (fun y Hy => Hpos y (or_intror Hy)) Hin). lra.
Qed.

Lemma weight_of_scaled (d : Dict R) (c : R) (k : string) :
  weight_of (map (fun kv => (fst kv, snd kv / c)) d) k = weight_of d k / c.
Proof.
  unfold weight_of. induction d as [|[k' v'] d IH]; simpl.
  - unfold Rdiv. lra.
  - destruct (String.eqb k k'); [reflexivity | exact IH].
Qed.

(** An update keeps every agent of the vector and the order of the merged
    vector; when the merged weights are non-negative with a positive sum,
    every updated weight lies between 0 and 1 and is the merged weight
    divided by the sum. *)
Theorem update_weights_keeps_agents (current_weights new_weights : Dict R) :
  let merged := dict_update current_weights new_weights in
  let updated := update_weights current_weights new_weights in
  dict_keys updated = dict_keys merged
  /\ (forall k, In k (dict_keys current_weights) -> In k (dict_keys updated))
  /\ (0 < sum (dict_values merged) ->
      (forall k,
          weight_of updated k = weight_of merged k / sum (dict_values merged))
      /\ ((forall v, In v (dict_values merged) -> 0 <= v) ->
          forall v, In v (dict_values updated) -> 0 <= v <= 1)).
Proof.
  intros merged updated.
  assert (Hkeys : dict_keys updated = dict_keys merged).
  { subst updated. unfold update_weights. fold merged.
    destruct (Rlt_dec 0 (sum (dict_values merged))); [| reflexivity].
    unfold dict_keys. rewrite map_map. reflexivity. }
  split; [exact Hkeys |]. split.
  - intros k Hin. rewrite Hkeys. apply dict_update_keeps_keys. exact Hin.
  - intros Hpos.
    assert (Hu : updated
                 = map (fun kv => (fst kv, snd kv / sum (dict_values merged)))
                     merged).
    { subst updated. unfold update_weights. fold merged.
      destruct (Rlt_dec 0 (sum (dict_values merged)));
        [reflexivity | contradiction]. }
    split.
    + intros k. rewrite Hu. apply weight_of_scaled.
    + intros Hnn v Hv. rewrite Hu, update_weights_values_normalized in Hv.
      apply in_map_iff in Hv. destruct Hv as [x [Hx Hin]]. subst v.
      destruct (sum_nonneg_ge _ x Hnn Hin) as [H0 H1].
      split.
      * apply Rmult_le_pos; [exact H0 |].
        apply Rlt_le, Rinv_0_lt_compat. exact Hpos.
      * apply (Rmult_le_reg_r (sum (dict_values merged))); [exact Hpos |].
        unfold Rdiv. rewrite Rmult_assoc, Rinv_l by lra. lra.
Qed.

(** ** The explanation *)

Lemma truthy_false_nil {A : Type} (l : list A) : truthy l = false <-> l = [].
Proof. destruct l; split; intros; try reflexivity; discriminate. Qed.

Lemma length_filter_zero {A : Type} (p : A -> bool) (l : list A) :
  (0 <? List.length (filter p l))%nat = false
  <-> forall x, In x l -> p x = false.
Proof.
  rewrite truthy_length. apply truthy_filter_false.
Qed.

(** The explanation of a pharmacy is never empty, and it is the neutral
    message alone exactly when no agent scored 0.6 or more and no claim of
    the pharmacy is a cash or uncovered claim or a high-dollar claim. *)
Theorem fraud_explanation_neutral (scores : Dict R) (reasons : Dict string)
  (transactions : Dataset) :
  let explanation :=
    _generate_fraud_explanation scores reasons transactions in
  explanation <> []
  /\ (explanation = [NoIndicatorsPart]
      <-> (forall e, In e scores -> snd e < 0.6)
          /\ (forall c,
                 In c transactions ->
                 coverage_type c <> "Cash"
                 /\ coverage_type c <> "Not Covered"
                 /\ copay_cost c <= 200 /\ oop_cost c <= 500)).
Proof.
  cbv zeta. unfold _generate_fraud_explanation. cbv zeta.
  set (high := filter (fun e => Rge_b (snd e) 0.8) scores).
  set (medium := filter (fun e => Rge_b (snd e) 0.6 && Rlt_b (snd e) 0.8)
                   scores).
  set (cash := filter
                 (fun c => String.eqb (coverage_type c) "Cash"
                           || String.eqb (coverage_type c) "Not Covered")
                 transactions).
  set (dollar := filter
                   (fun c => Rgt_b (copay_cost c) 200
                             || Rgt_b (oop_cost c) 500)
                   transactions).
  assert (Hscores : (truthy high = false /\ truthy medium = false)
                    <-> forall e, In e scores -> snd e < 0.6).
  { subst high medium. rewrite !truthy_filter_false. split.
    - intros [Hh Hm] e He. specialize (Hh e He). specialize (Hm e He).
      apply Rge_b_false in Hh.
      destruct (Rge_b (snd e) 0.6) eqn:E; [| apply Rge_b_false; exact E].
      simpl in Hm. apply Rlt_b_false in Hm. lra.
    - intros H. split; intros e He; specialize (H e He).
      + apply Rge_b_false. lra.
      + rewrite (proj2 (Rge_b_false (snd e) 0.6)) by exact H. reflexivity. }
  assert (Hclaims : ((0 <? List.length cash)%nat = false
                     /\ (0 <? List.length dollar)%nat = false)
                    <-> forall c,
                          In c transactions ->
                          coverage_type c <> "Cash"
                          /\ coverage_type c <> "Not Covered"
                          /\ copay_cost c <= 200 /\ oop_cost c <= 500).
  { subst cash dollar. rewrite !length_filter_zero. split.
    - intros [Hc Hd] c Hin. specialize (Hc c Hin). specialize (Hd c Hin).
      apply orb_false_iff in Hc. destruct Hc as [Hc1 Hc2].
      apply orb_false_iff in Hd. destruct Hd as [Hd1 Hd2].
      apply String.eqb_neq in Hc1. apply String.eqb_neq in Hc2.
      apply Rgt_b_false in Hd1. apply Rgt_b_false in Hd2. auto.
    - intros H. split; intros c Hin; destruct (H c Hin) as [H1 [H2 [H3 H4]]];
        apply orb_false_iff; split.
      + apply String.eqb_neq. exact H1.
      + apply String.eqb_neq. exact H2.
      + apply Rgt_b_false. exact H3.
      + apply Rgt_b_false. exact H4. }
  unfold dict_keys. rewrite !truthy_map.
  destruct (truthy high) eqn:Eh.
  { split; [discriminate |]. split; [discriminate |].
    intros [H _]. apply Hscores in H. destruct H. discriminate. }
  destruct (truthy medium) eqn:Em.
  { split; [discriminate |]. split; [discriminate |].
    intros [H _]. apply Hscores in H. destruct H. discriminate. }
  assert (Hs : forall e, In e scores -> snd e < 0.6)
    by (apply Hscores; auto).
  destruct (truthy transactions) eqn:Et.
  - destruct (0 <? List.length cash)%nat eqn:Ec.
    { split; [discriminate |]. split; [discriminate |].
      intros [_ H]. apply Hclaims in H. destruct H. discriminate. }
    destruct (0 <? List.length dollar)%nat eqn:Ed.
    { split; [discriminate |]. split; [discriminate |].
      intros [_ H]. apply Hclaims in H. destruct H. discriminate. }
    simpl. split; [discriminate |]. split; [| reflexivity].
    intros _. split; [exact Hs |]. apply Hclaims. auto.
  - simpl. split; [discriminate |]. split; [| reflexivity].
    intros _. split; [exact Hs |].
    apply truthy_false_nil in Et. rewrite Et. intros c [].
Qed.

(** ** The performance entries of the insights *)

Lemma agent_performance_acc (agent_results : AgentResults)
  (acc : Dict AgentPerformance) :
  NoDup (dict_keys acc ++ dict_keys agent_results) ->
  fold_left
    (fun performance entry =>
       if negb (truthy (snd entry)) then performance
       else
         dict_set (fst entry)
           {| avg_score := round3 (mean (map fraud_score (snd entry)));
              high_risk_findings :=
                List.length
                  (filter (fun r => Rge_b (fraud_score r) 0.8) (snd entry));
              total_findings := List.length (snd entry) |}
           performance)
    agent_results acc
  = acc
    ++ flat_map
         (fun entry =>
            if negb (truthy (snd entry)) then []
            else
              [(fst entry,
                {| avg_score := round3 (mean (map fraud_score (snd entry)));
                   high_risk_findings :=
                     List.length
                       (filter (fun r => Rge_b (fraud_score r) 0.8)
                          (snd entry));
                   total_findings := List.length (snd entry) |})])
         agent_results.
Proof.
  revert acc. induction agent_results as [|[name frame] rest IH];
    intros acc Hnd; simpl fold_left; simpl flat_map.
  - rewrite app_nil_r. reflexivity.
  - assert (Hfresh : ~ In name (dict_keys acc)).
    { intros Hin. simpl in Hnd. apply NoDup_remove_2 in Hnd.
      apply Hnd. apply in_or_app. left. exact Hin. }
    assert (Hrest : NoDup (dict_keys acc ++ dict_keys rest)).
    { simpl in Hnd. apply NoDup_remove_1 in Hnd. exact Hnd. }
    cbn [fst snd].
    destruct (negb (truthy frame)).
    + simpl app. apply IH. exact Hrest.
    + rewrite dict_set_fresh by exact Hfresh. rewrite IH.
      * rewrite <- app_assoc. reflexivity.
      * unfold dict_keys in *. rewrite map_app. simpl.
        rewrite <- app_assoc. simpl. exact Hnd.
Qed.

Lemma flat_map_keys {A V : Type} (g : string * A -> list V)
  (d : Dict A) :
  NoDup (dict_keys d) ->
  NoDup (dict_keys
           (flat_map
              (fun entry =>
                 match g entry with
                 | [] => []
                 | v :: _ => [(fst entry, v)]
                 end)
              d)).
Proof.
  unfold dict_keys.
  induction d as [|[name a] rest IH]; intros Hnd; simpl; [constructor |].
  apply NoDup_cons_iff in Hnd. destruct Hnd as [Hfresh Hnd].
  destruct (g (name, a)) as [|v others]; simpl; [apply IH; exact Hnd |].
  constructor; [| apply IH; exact Hnd].
  intros Hin. apply Hfresh.
  apply in_map_iff in Hin. destruct Hin as [[k r] [Hk Hin]].
  simpl in Hk. subst k. apply in_flat_map in Hin.
  destruct Hin as [[name' a'] [Hin' Hr]].
  destruct (g (name', a')); [destruct Hr |].
  destruct Hr as [Hr | []]. inversion Hr. subst name'.
  apply in_map_iff. exists (name, a'). auto.
Qed.

(** With distinct agent names, the insights hold a performance entry
    exactly for the agents that returned at least one row; the entry
    counts the rows of the agent and, among them, those scored 0.8 or
    more. *)
Theorem agent_performance_entries (agent_results : AgentResults)
  (name : string) (frame : Frame) :
  NoDup (dict_keys agent_results) ->
  In (name, frame) agent_results ->
  (frame = []
   -> dict_get name (analyze_agent_performance agent_results) = None)
  /\ (frame <> []
      -> exists perf,
           dict_get name (analyze_agent_performance agent_results)
           = Some perf
           /\ total_findings perf = List.length frame
           /\ (1 <= total_findings perf)%nat
           /\ high_risk_findings perf
              = List.length
                  (filter (fun r => Rge_b (fraud_score r) 0.8) frame)
           /\ (high_risk_findings perf <= total_findings perf)%nat
           /\ avg_score perf = round3 (mean (map fraud_score frame))).
Proof.
  intros Hnd Hin. split.
  - intros Hempty. apply agent_performance_silent.
    intros [name' frame'] Hin' Hname. simpl in *. subst name'.
    pose proof (dict_get_In name frame agent_results Hnd Hin) as H1.
    pose proof (dict_get_In name frame' agent_results Hnd Hin') as H2.
    congruence.
  - intros Hne. unfold analyze_agent_performance.
    rewrite agent_performance_acc by exact Hnd. simpl app.
    eexists. split.
    + apply dict_get_In.
      * set (g := fun entry : string * Frame =>
                    if negb (truthy (snd entry)) then []
                    else
                      [{| avg_score :=
                            round3 (mean (map fraud_score (snd entry)));
                          high_risk_findings :=
                            List.length
                              (filter (fun r => Rge_b (fraud_score r) 0.8)
                                 (snd entry));
                          total_findings := List.length (snd entry) |}]).
        pose proof (flat_map_keys g agent_results Hnd) as Hk.
        erewrite flat_map_ext; [exact Hk |].
        intros [n f]. subst g. cbn [fst snd].
        destruct (negb (truthy f)); reflexivity.
      * apply in_flat_map. exists (name, frame). split; [exact Hin |].
        cbn [fst snd]. destruct frame; [congruence |].
        left. reflexivity.
    + cbn [total_findings high_risk_findings avg_score].
      split; [reflexivity |].
      split; [destruct frame; [congruence | simpl; lia] |].
      split; [reflexivity |].
      split; [apply filter_length_le | reflexivity].
Qed.

Lemma agent_performance_entries_witness :
  exists perf,
    dict_get "coverage_agent" (analyze_agent_performance split_reports)
    = Some perf
    /\ total_findings perf = 2%nat.
Proof.
  destruct (agent_performance_entries split_reports "coverage_agent"
              [ test_row "PH001" 1 "HIGH_RISK: >90% flagged claims";
                test_row "PH002" 0 "Normal" ])
    as [_ H].
  - repeat constructor. simpl. tauto.
  - left. reflexivity.
  - destruct H as [perf [Hget [Htotal _]]]; [discriminate |].
    exists perf. split; assumption.
Defined.

(** ** Counting the rows *)

Lemma Int_part_ge (k : Z) (x : R) : IZR k <= x -> (k <= Int_part x)%Z.
Proof.
  intros H. destruct (base_Int_part x) as [_ Hlo].
  assert (Hlt : IZR (k - 1) < IZR (Int_part x)).
  { rewrite minus_IZR. lra. }
  apply lt_IZR in Hlt. lia.
Qed.

Lemma round_half_even_ge (k : Z) (x : R) :
  IZR k <= x -> (k <= round_half_even x)%Z.
Proof.
  intros H. pose proof (Int_part_ge k x H) as Hf.
  unfold round_half_even.
  destruct (Rlt_dec _ _); [exact Hf |].
  destruct (Rlt_dec _ _); [lia |].
  destruct (Z.even _); lia.
Qed.

(** Rounding to three decimals does not go below a bound with three
    decimals. *)
Lemma round3_ge (k : Z) (x : R) :
  IZR k / 1000 <= x -> IZR k / 1000 <= round3 x.
Proof.
  intros H. unfold round3.
  assert (Hk : (k <= round_half_even (x * 1000))%Z)
    by (apply round_half_even_ge; lra).
  apply IZR_le in Hk. lra.
Qed.

Lemma filter_map_length {A B : Type} (f : A -> B) (p : B -> bool)
  (l : list A) :
  List.length (filter p (map f l))
  = List.length (filter (fun a => p (f a)) l).
Proof.
  induction l as [|a l IH]; simpl; [reflexivity |].
  destruct (p (f a)); simpl; rewrite IH; reflexivity.
Qed.

Lemma filter_implies_length {A : Type} (p q : A -> bool) (l : list A) :
  (forall a, In a l -> p a = true -> q a = true) ->
  (List.length (filter p l) <= List.length (filter q l))%nat.
Proof.
  induction l as [|a l IH]; intros H; simpl; [lia |].
  assert (IH' := IH (fun x Hx => H x (or_intror Hx))).
  destruct (p a) eqn:Ep.
  - rewrite (H a (or_introl eq_refl) Ep). simpl. lia.
  - destruct (q a); simpl; lia.
Qed.

Lemma filter_disjoint_length {A : Type} (p q : A -> bool) (l : list A) :
  (forall a, p a && q a = false) ->
  (List.length (filter p l) + List.length (filter q l)
   = List.length (filter (fun a => p a || q a) l))%nat.
Proof.
  intros H. induction l as [|a l IH]; simpl; [reflexivity |].
  specialize (H a).
  destruct (p a), (q a); simpl in *; try discriminate; lia.
Qed.

Section InsightCounts.
Variable set_iter : list string -> list string.
Variable self : WeightedScoringSystem.
Variable agent_results : AgentResults.
Variable df : Dataset.

(** The final score behind each row. *)
Let final (pharmacy : string) : R :=
  final_score (current_weights self) pharmacy agent_results.

Let pharmacies : list string := set_iter (flagged_pharmacies agent_results).

Let rows (t : Tracker) : ResultFrame :=
  fst (calculate_weighted_scores set_iter self agent_results df t).

Lemma rows_eq (t : Tracker) :
  rows t
  = map
      (fun pharmacy =>
         fst (_calculate_single_pharmacy_score self pharmacy agent_results
                df []))
      pharmacies.
Proof. apply calculate_weighted_scores_fst. Qed.

Lemma labelled_rows (level : string) (t : Tracker) :
  labelled level (rows t)
  = List.length
      (filter
         (fun pharmacy =>
            String.eqb (_determine_risk_level (final pharmacy)) level)
         pharmacies).
Proof.
  unfold labelled. rewrite rows_eq, filter_map_length.
  f_equal. apply filter_ext. intros pharmacy.
  rewrite row_risk_level. reflexivity.
Qed.

(** The insights are computed exactly when there is a row.  They count
    every row; the rows counted as high or medium risk are distinct rows;
    every row labelled HIGH RISK is counted as high risk, and every row
    labelled HIGH RISK or MEDIUM RISK is counted as high or medium risk. *)
Theorem insights_counts (other_results : AgentResults) (t t' : Tracker) :
  match fst (_generate_supervisor_insights (rows t) other_results t') with
  | None => rows t = []
  | Some insights =>
      rows t <> []
      /\ total_pharmacies_analyzed insights = List.length (rows t)
      /\ (high_risk_pharmacies insights + medium_risk_pharmacies insights
          <= total_pharmacies_analyzed insights)%nat
      /\ (labelled "HIGH RISK" (rows t)
          <= high_risk_pharmacies insights)%nat
      /\ (labelled "HIGH RISK" (rows t) + labelled "MEDIUM RISK" (rows t)
          <= high_risk_pharmacies insights
             + medium_risk_pharmacies insights)%nat
  end.
Proof.
  rewrite !labelled_rows.
  unfold _generate_supervisor_insights, column.
  rewrite rows_eq.
  destruct pharmacies as [|p ps] eqn:Eps; [reflexivity |].
  rewrite <- Eps. clear Eps p ps.
  destruct (map _ pharmacies) as [|row rest] eqn:Erows.
  - reflexivity.
  - rewrite <- Erows. rewrite rows_traverse.
    cbn [fst bind track ret total_pharmacies_analyzed high_risk_pharmacies
           medium_risk_pharmacies].
    unfold bind, track, ret.
    cbn [fst total_pharmacies_analyzed high_risk_pharmacies
           medium_risk_pharmacies].
    rewrite !filter_map_length, !length_map.
    split; [rewrite Erows; discriminate |].
    split; [reflexivity |].
    assert (Hsplit :
             (List.length
                (filter (fun a => Rge_b (round3 (final a)) 0.8) pharmacies)
              + List.length
                  (filter
                     (fun a => Rge_b (round3 (final a)) 0.6
                               && Rlt_b (round3 (final a)) 0.8)
                     pharmacies)
              = List.length
                  (filter (fun a => Rge_b (round3 (final a)) 0.6)
                     pharmacies))%nat).
    { rewrite filter_disjoint_length.
      - f_equal. apply filter_ext. intros a.
        destruct (Rge_b (round3 (final a)) 0.8) eqn:E8;
          destruct (Rge_b (round3 (final a)) 0.6) eqn:E6;
          destruct (Rlt_b (round3 (final a)) 0.8) eqn:L8;
          try reflexivity; exfalso;
          repeat match goal with
            | H : Rge_b _ _ = true |- _ => apply Rge_b_true in H
            | H : Rge_b _ _ = false |- _ => apply Rge_b_false in H
            | H : Rlt_b _ _ = true |- _ => apply Rlt_b_true in H
            | H : Rlt_b _ _ = false |- _ => apply Rlt_b_false in H
            end; lra.
      - intros a.
        destruct (Rge_b (round3 (final a)) 0.8) eqn:E8;
          destruct (Rlt_b (round3 (final a)) 0.8) eqn:L8;
          rewrite ?andb_false_r, ?andb_true_r; try reflexivity.
        apply Rge_b_true in E8. apply Rlt_b_true in L8. exfalso. lra. }
    unfold final in *.
    split; [rewrite Hsplit; apply filter_length_le |].
    split.
    + apply filter_implies_length. intros a _ Ha.
      apply String.eqb_eq in Ha. apply Rge_b_true.
      replace 0.8 with (IZR 800 / 1000) by lra. apply round3_ge.
      revert Ha. unfold _determine_risk_level, Rge_b.
      repeat match goal with
        | |- context [Rle_dec ?a ?b] => destruct (Rle_dec a b)
        end; intros Ha; try discriminate; lra.
    + rewrite Hsplit.
      rewrite filter_disjoint_length.
      * apply filter_implies_length. intros a _ Ha.
        apply Rge_b_true.
        replace 0.6 with (IZR 600 / 1000) by lra. apply round3_ge.
        revert Ha. unfold _determine_risk_level, Rge_b.
        repeat match goal with
          | |- context [Rle_dec ?a ?b] => destruct (Rle_dec a b)
          end; simpl; intros Ha; try discriminate; lra.
      * intros a.
        destruct (String.eqb_spec
                    (_determine_risk_level
                       (final_score (current_weights self) a agent_results))
                    "HIGH RISK") as [E | E]; [| reflexivity].
        rewrite E. reflexivity.
Qed.

End InsightCounts.

(** ** The cross-agent patterns *)

(** The row is counted as one with conflicting signals. *)
Lemma conflicting_signals_fold (rows : ResultFrame)
  (agent_results : AgentResults) (acc : CrossAgentPatterns) :
  let step :=
    fun (patterns : CrossAgentPatterns) (row : ResultRow) =>
      let agent_scores :=
        match dict_get "agent_scores" row with
        | Some (VScores d) => d
        | _ => []
        end in
      if truthy agent_scores
      then
        let high_risk_agents :=
          dict_keys (filter (fun e => Rge_b (snd e) 0.8) agent_scores) in
        let low_risk_agents :=
          dict_keys (filter (fun e => Rlt_b (snd e) 0.4) agent_scores) in
        {| conflicting_signals_count :=
             (if truthy high_risk_agents && truthy low_risk_agents
              then conflicting_signals_count patterns + 1
              else conflicting_signals_count patterns)%nat;
           high_consistency_count :=
             (if (3 <=? List.length high_risk_agents)%nat
                 || (3 <=? List.length low_risk_agents)%nat
              then high_consistency_count patterns + 1
              else high_consistency_count patterns)%nat;
           double_penalty_instances :=
             (if mem "coverage_agent" high_risk_agents
                 && mem "patient_flip_agent" high_risk_agents
              then double_penalty_instances patterns + 1
              else double_penalty_instances patterns)%nat |}
      else patterns in
  let conflicting :=
    fun row : ResultRow =>
      let agent_scores :=
        match dict_get "agent_scores" row with
        | Some (VScores d) => d
        | _ => []
        end in
      truthy (dict_keys (filter (fun e => Rge_b (snd e) 0.8) agent_scores))
      && truthy (dict_keys (filter (fun e => Rlt_b (snd e) 0.4) agent_scores))
  in
  conflicting_signals_count (fold_left step rows acc)
  = (conflicting_signals_count acc
     + List.length (filter conflicting rows))%nat
  /\ (high_consistency_count (fold_left step rows acc)
      <= high_consistency_count acc + List.length rows)%nat
  /\ (double_penalty_instances (fold_left step rows acc)
      <= double_penalty_instances acc + List.length rows)%nat.
Proof.
  intros step conflicting. revert acc.
  induction rows as [|row rows IH]; intros acc; simpl fold_left.
  - simpl. lia.
  - destruct (IH (step acc row)) as [H1 [H2 H3]].
    rewrite H1. simpl filter. simpl List.length.
    assert (Hc : conflicting_signals_count (step acc row)
                 = (conflicting_signals_count acc
                    + if conflicting row then 1 else 0)%nat).
    { subst step conflicting. cbv beta zeta.
      destruct (match dict_get "agent_scores" row with
                | Some (VScores d) => d
                | _ => []
                end) as [|e scores]; [simpl; lia |].
      cbn [truthy conflicting_signals_count].
      destruct (_ && _); lia. }
    assert (Hh : (high_consistency_count (step acc row)
                  <= high_consistency_count acc + 1)%nat).
    { subst step. cbv beta zeta.
      destruct (truthy _); [| lia].
      cbn [high_consistency_count]. destruct (_ || _); lia. }
    assert (Hd : (double_penalty_instances (step acc row)
                  <= double_penalty_instances acc + 1)%nat).
    { subst step. cbv beta zeta.
      destruct (truthy _); [| lia].
      cbn [double_penalty_instances]. destruct (_ && _); lia. }
    rewrite Hc. destruct (conflicting row); simpl List.length; lia.
Qed.

(** Over the rows of the aggregation, the count of conflicting signals is
    the number of rows whose exported consistency score is 0.3, and no
    pattern is counted more often than there are rows. *)
Theorem conflicting_signals_counted (set_iter : list string -> list string)
  (self : WeightedScoringSystem) (agent_results other : AgentResults)
  (df : Dataset) (t : Tracker) :
  let rows :=
    fst (calculate_weighted_scores set_iter self agent_results df t) in
  let patterns := _analyze_cross_agent_patterns rows other in
  conflicting_signals_count patterns = consistent_at 0.3 rows
  /\ (conflicting_signals_count patterns <= List.length rows)%nat
  /\ (high_consistency_count patterns <= List.length rows)%nat
  /\ (double_penalty_instances patterns <= List.length rows)%nat.
Proof.
  intros rows patterns. subst patterns.
  unfold _analyze_cross_agent_patterns.
  destruct (conflicting_signals_fold rows other
              {| conflicting_signals_count := 0;
                 high_consistency_count := 0;
                 double_penalty_instances := 0 |}) as [H1 [H2 H3]].
  cbv zeta in H1, H2, H3. cbn [conflicting_signals_count
    high_consistency_count double_penalty_instances] in H1, H2, H3.
  assert (Hcount : conflicting_signals_count
                     (_analyze_cross_agent_patterns rows other)
                   = consistent_at 0.3 rows).
  { unfold _analyze_cross_agent_patterns.
    etransitivity; [exact H1 |]. simpl Nat.add.
    unfold consistent_at. subst rows.
    rewrite calculate_weighted_scores_fst, !filter_map_length.
    f_equal. apply filter_ext. intros pharmacy.
    rewrite single_pharmacy_row. cbv zeta.
    unfold get_float. simpl dict_get. rewrite round3_consistency.
    set (scores := fst (fst (collect_findings pharmacy agent_results))).
    destruct (Req_b (_calculate_consistency_score scores) 0.3) eqn:E.
    - apply Req_b_true, consistency_conflicting_iff in E.
      destruct E as [Hh Hl].
      apply high_risk_agents_truthy in Hh.
      apply low_risk_agents_truthy in Hl.
      rewrite Hh, Hl. reflexivity.
    - apply not_true_is_false. intros Hboth.
      apply andb_true_iff in Hboth. destruct Hboth as [Hh Hl].
      apply high_risk_agents_truthy in Hh.
      apply low_risk_agents_truthy in Hl.
      apply Req_b_false in E. apply E.
      apply consistency_conflicting_iff. split; assumption. }
  unfold _analyze_cross_agent_patterns in Hcount.
  split; [exact Hcount |].
  split; [etransitivity;
           [apply Nat.eq_le_incl; exact H1
           | simpl Nat.add; apply filter_length_le] |].
  split; [exact H2 | exact H3].
Qed.

(** ** The pipeline as a whole *)

Lemma pool_events (df : Dataset) (l : Dict Agent) (acc : AgentResults)
  (t : Tracker) :
  snd (foldM
         (fun results entry =>
            let agent_results :=
              _run_single_agent (fst entry) (snd entry) df in
            track (TrackAgentRun (fst entry) (List.length agent_results)) ;;;
            ret (dict_set (fst entry) agent_results results))
         l acc t)
  = t ++ map
           (fun entry =>
              TrackAgentRun (fst entry)
                (List.length (_run_single_agent (fst entry) (snd entry) df)))
           l.
Proof.
  revert acc t. induction l as [|e l IH]; intros acc t; simpl.
  - rewrite app_nil_r. reflexivity.
  - unfold bind at 1. unfold bind at 1. unfold track at 1. unfold ret at 1.
    cbv zeta. rewrite IH, <- app_assoc. reflexivity.
Qed.

Section Pipeline.
Variable set_iter : list string -> list string.
Variable as_completed : Dict Agent -> Dict Agent.
Variable sort_rows : Sorter.
Hypothesis set_iter_perm : forall l, Permutation (set_iter l) (unique l).
Hypothesis as_completed_perm : forall d, Permutation (as_completed d) d.
Hypothesis sort_rows_perm : forall l, Permutation (sort_rows l) l.
Hypothesis sort_rows_sorted : forall l, StronglySorted key_desc (sort_rows l).

(** The pool returns exactly one entry per registered agent, whether the
    agent succeeds or raises, and tells the tracker the number of findings
    of each agent, in the order of completion. *)
Theorem pool_has_every_agent (registered : Dict Agent) (df : Dataset)
  (t : Tracker) :
  NoDup (dict_keys registered) ->
  let run :=
    run_agents_parallel as_completed (new_scoring_system registered) df t in
  Permutation (dict_keys (fst run)) (dict_keys registered)
  /\ NoDup (dict_keys (fst run))
  /\ List.length (fst run) = List.length registered
  /\ snd run
     = t ++ StartProjectRun "Parallel Fraud Detection with Supervisor"
            :: map (fun e => TrackAgentRun (fst e) (List.length (snd e)))
                 (fst run).
Proof.
  intros Hnd run.
  assert (Hres : fst run
                 = map (fun e => (fst e, _run_single_agent (fst e) (snd e) df))
                     (as_completed registered))
    by (apply (pool_results as_completed as_completed_perm); exact Hnd).
  assert (Hkeys : dict_keys (fst run) = dict_keys (as_completed registered)).
  { rewrite Hres. unfold dict_keys. rewrite map_map. reflexivity. }
  assert (Hperm : Permutation (dict_keys (fst run)) (dict_keys registered)).
  { rewrite Hkeys. apply Permutation_map, as_completed_perm. }
  split; [exact Hperm |]. split; [| split].
  - apply (Permutation_NoDup (Permutation_sym Hperm)). exact Hnd.
  - rewrite Hres, length_map.
    apply Permutation_length, as_completed_perm.
  - rewrite Hres, map_map. cbn [fst snd].
    subst run. unfold run_agents_parallel, bind at 1, track at 1.
    cbn [agents new_scoring_system].
    rewrite pool_events, <- app_assoc. reflexivity.
Qed.

Lemma parallel_analysis_node_fst (registered : Dict Agent)
  (state : ParallelFraudDetectionState) (t : Tracker) :
  st_df state <> [] ->
  fst (parallel_analysis_node set_iter as_completed registered state t)
  = match fst (supervise_analysis set_iter as_completed
                 (new_scoring_system registered) (st_df state) t) with
    | None =>
        {| st_df := st_df state;
           st_agent_results := [];
           st_weighted_results := [];
           st_supervisor_insights := None;
           st_final_results := st_final_results state |}
    | Some r =>
        {| st_df := st_df state;
           st_agent_results := res_agent_results r;
           st_weighted_results := res_weighted_results r;
           st_supervisor_insights := Some (res_supervisor_insights r);
           st_final_results := st_final_results state |}
    end.
Proof.
  intros Hdf. unfold parallel_analysis_node.
  destruct (st_df state) as [|c rest] eqn:E; [congruence |].
  cbn [truthy negb]. rewrite fst_bind.
  destruct (fst (supervise_analysis _ _ _ _ t)); reflexivity.
Qed.

Lemma pipeline_fst (registered : Dict Agent) (df : Dataset) (t : Tracker) :
  df <> [] ->
  fst (run_parallel_fraud_detection_pipeline set_iter as_completed sort_rows
         registered (Some df) t)
  = final_results_node sort_rows
      match fst (supervise_analysis set_iter as_completed
                   (new_scoring_system registered) df t) with
      | None =>
          {| st_df := df;
             st_agent_results := [];
             st_weighted_results := [];
             st_supervisor_insights := None;
             st_final_results := [] |}
      | Some r =>
          {| st_df := df;
             st_agent_results := res_agent_results r;
             st_weighted_results := res_weighted_results r;
             st_supervisor_insights := Some (res_supervisor_insights r);
             st_final_results := [] |}
      end.
Proof.
  intros Hdf. unfold run_parallel_fraud_detection_pipeline.
  rewrite fst_bind. unfold ret at 1. cbn [fst].
  rewrite parallel_analysis_node_fst by exact Hdf. reflexivity.
Qed.

(** With data loaded: when some agent returns a row, the pipeline ends
    with the results of the pool, the insights, and one ranked row per
    flagged pharmacy, in decreasing order of score, the same frame under
    [weighted_results] and [final_results]; when no agent returns a row, it
    ends with every output empty. *)
Theorem pipeline_outcome (registered : Dict Agent) (df : Dataset)
  (t : Tracker) :
  df <> [] ->
  let results :=
    fst (run_agents_parallel as_completed (new_scoring_system registered)
           df t) in
  let state :=
    fst (run_parallel_fraud_detection_pipeline set_iter as_completed
           sort_rows registered (Some df) t) in
  ((exists e, In e results /\ snd e <> []) ->
   st_df state = df
   /\ st_agent_results state = results
   /\ st_weighted_results state = st_final_results state
   /\ st_final_results state <> []
   /\ descending (st_final_results state)
   /\ map (dict_get "rank") (st_final_results state)
      = dense_ranks (List.length (unique (flagged_pharmacies results)))
   /\ exists insights,
        st_supervisor_insights state = Some insights
        /\ total_pharmacies_analyzed insights
           = List.length (st_final_results state))
  /\ ((forall e, In e results -> snd e = []) ->
      state
      = {| st_df := df;
           st_agent_results := [];
           st_weighted_results := [];
           st_supervisor_insights := None;
           st_final_results := [] |}).
Proof.
  intros Hdf results state. subst state.
  rewrite (pipeline_fst registered df t Hdf), supervise_analysis_fst.
  cbv zeta. fold results.
  set (self := new_scoring_system registered).
  set (rows := fst (calculate_weighted_scores set_iter self results df t)).
  pose proof (rows_nonempty set_iter set_iter_perm self results df t)
    as Hrows. fold rows in Hrows.
  split.
  - intros Hsome. apply Hrows in Hsome.
    destruct (rows_column set_iter self results df t Hsome) as [keys Hc].
    fold rows in Hc.
    destruct (generate_insights_some rows results t keys Hc)
      as [insights [Hi [_ Htotal]]].
    rewrite Hi.
    cbn [res_agent_results res_weighted_results res_supervisor_insights].
    match goal with
    | |- context [final_results_node sort_rows ?st] =>
        pose proof (final_results_node_sorted sort_rows st keys Hc) as Hst;
        destruct (final_results_node_ranked sort_rows sort_rows_perm
                    sort_rows_sorted st keys Hc)
          as [sorted [Hperm [_ [Hfinal [_ [Hdesc Hranks]]]]]]
    end.
    cbv zeta in Hst, Hfinal, Hdesc, Hranks.
    cbn [st_weighted_results st_df st_agent_results
           st_supervisor_insights] in Hst, Hperm, Hranks.
    assert (Hlen : List.length rows
                   = List.length (unique (flagged_pharmacies results))).
    { subst rows. rewrite calculate_weighted_scores_fst, length_map.
      apply Permutation_length, set_iter_perm. }
    split; [rewrite Hst; reflexivity |].
    split; [rewrite Hst; reflexivity |].
    split; [rewrite Hst; reflexivity |].
    assert (Hflen : List.length
                      (st_final_results
                         (final_results_node sort_rows
                            {| st_df := df;
                               st_agent_results := results;
                               st_weighted_results := rows;
                               st_supervisor_insights := Some insights;
                               st_final_results := [] |}))
                    = List.length rows).
    { rewrite Hfinal, assign_rank_ranked, ranked_length.
      apply Permutation_length. exact Hperm. }
    split.
    { intros E. rewrite E in Hflen. simpl in Hflen.
      destruct rows; [congruence | discriminate]. }
    split; [exact Hdesc |].
    split; [rewrite Hranks, Hlen; reflexivity |].
    exists insights.
    split; [rewrite Hst; reflexivity |].
    rewrite Htotal, Hflen. reflexivity.
  - intros Hnone.
    assert (Hempty : rows = []).
    { destruct rows as [|row rest] eqn:E; [reflexivity |].
      exfalso. assert (Hne : row :: rest <> []) by discriminate.
      apply Hrows in Hne. destruct Hne as [e [Hin Hne]].
      apply Hne. apply Hnone. exact Hin. }
    rewrite Hempty, generate_insights_none by reflexivity.
    reflexivity.
Qed.

(** The transactions counted for the rows are distinct claims of the
    dataset: the transaction counts of the rows add up to at most the
    number of claims. *)
Theorem transaction_counts_bounded (self : WeightedScoringSystem)
  (agent_results : AgentResults) (df : Dataset) (t : Tracker) :
  let rows :=
    fst (calculate_weighted_scores set_iter self agent_results df t) in
  exists counts,
    map (dict_get "transaction_count") rows
    = map (fun n => Some (VInt (Z.of_nat n))) counts
    /\ (list_sum counts <= List.length df)%nat.
Proof.
  intros rows. subst rows. rewrite calculate_weighted_scores_fst.
  set (ps := set_iter (flagged_pharmacies agent_results)).
  assert (Hnd : NoDup ps).
  { apply (Permutation_NoDup (Permutation_sym (set_iter_perm _))).
    apply unique_NoDup. }
  exists (map (fun p => List.length (_get_pharmacy_transactions p df)) ps).
  split.
  - rewrite !map_map. apply map_ext. intros p.
    rewrite single_pharmacy_row. reflexivity.
  - clear - Hnd. unfold _get_pharmacy_transactions.
    induction df as [|c df IH]; simpl.
    + induction ps as [|p ps IHp]; simpl; [lia |].
      apply NoDup_cons_iff in Hnd. specialize (IHp (proj2 Hnd)). lia.
    + assert (Hsplit :
               (list_sum
                  (map
                     (fun p =>
                        List.length
                          (if String.eqb (claim_pharmacy_number c) p
                           then c :: filter
                                       (fun c0 =>
                                          String.eqb
                                            (claim_pharmacy_number c0) p)
                                       df
                           else filter
                                  (fun c0 =>
                                     String.eqb (claim_pharmacy_number c0) p)
                                  df))
                     ps)
                <= 1 + list_sum
                         (map
                            (fun p =>
                               List.length
                                 (filter
                                    (fun c0 =>
                                       String.eqb
                                         (claim_pharmacy_number c0) p)
                                    df))
                            ps))%nat).
      { clear IH. induction ps as [|p ps IHp]; simpl; [lia |].
        apply NoDup_cons_iff in Hnd. destruct Hnd as [Hp Hnd].
        destruct (String.eqb_spec (claim_pharmacy_number c) p) as [E | E].
        - assert (Hrest :
                   map
                     (fun p0 =>
                        List.length
                          (if String.eqb (claim_pharmacy_number c) p0
                           then c :: filter
                                       (fun c0 =>
                                          String.eqb
                                            (claim_pharmacy_number c0) p0)
                                       df
                           else filter
                                  (fun c0 =>
                                     String.eqb
                                       (claim_pharmacy_number c0) p0)
                                  df))
                     ps
                   = map
                       (fun p0 =>
                          List.length
                            (filter
                               (fun c0 =>
                                  String.eqb (claim_pharmacy_number c0) p0)
                               df))
                       ps).
          { apply map_ext_in. intros q Hq.
            destruct (String.eqb_spec (claim_pharmacy_number c) q) as [E' | E'];
              [| reflexivity].
            exfalso. apply Hp. congruence. }
          rewrite Hrest. simpl. lia.
        - specialize (IHp Hnd). lia. }
      lia.
Qed.

End Pipeline.

Lemma pool_has_every_agent_witness :
  List.length
    (fst (run_agents_parallel (fun d => d) (new_scoring_system two_agents)
            one_claim []))
  = List.length two_agents.
Proof.
  pose proof (pool_has_every_agent (fun d => d)
                (fun d => Permutation_refl d) two_agents one_claim []) as H.
  cbv zeta in H.
  destruct H as [_ [_ [Hlen _]]].
  - repeat constructor; simpl; intuition discriminate.
  - exact Hlen.
Defined.

Lemma pipeline_outcome_witness :
  descending
    (st_final_results
       (fst (run_parallel_fraud_detection_pipeline unique (fun d => d)
               sort_desc two_agents (Some one_claim) []))).
Proof.
  pose proof (pipeline_outcome unique (fun d => d) sort_desc
                (fun l => Permutation_refl _) sort_desc_perm
                sort_desc_sorted two_agents one_claim []) as H.
  cbv zeta in H.
  destruct H as [Hsome _].
  - discriminate.
  - destruct Hsome as [_ [_ [_ [_ [Hdesc _]]]]]; [| exact Hdesc].
    eexists. split; [simpl; left; reflexivity |].
    simpl. discriminate.
Defined.

Lemma transaction_counts_bounded_witness :
  exists counts,
    map (dict_get "transaction_count")
      (fst (calculate_weighted_scores unique default_system split_reports
              one_claim []))
    = map (fun n => Some (VInt (Z.of_nat n))) counts
    /\ (list_sum counts <= List.length one_claim)%nat.
Proof.
  exact (transaction_counts_bounded unique (fun l => Permutation_refl _)
           default_system split_reports one_claim []).
Defined.

(** Without data the pipeline runs no agent: whether the load raises or
    returns no row, it ends with every output empty and leaves the tracker
    untouched. *)
Theorem pipeline_without_data (set_iter : list string -> list string)
  (as_completed : Dict Agent -> Dict Agent) (sort_rows : Sorter)
  (registered : Dict Agent) (t : Tracker) :
  let empty :=
    {| st_df := [];
       st_agent_results := [];
       st_weighted_results := [];
       st_supervisor_insights := None;
       st_final_results := [] |} in
  run_parallel_fraud_detection_pipeline set_iter as_completed sort_rows
    registered None t = (empty, t)
  /\ run_parallel_fraud_detection_pipeline set_iter as_completed sort_rows
       registered (Some []) t = (empty, t).
Proof.
  split; reflexivity.
Qed.
